(** * Playblast Quad View: a shallow embedding of [quad_view_playblast.py]

    The add-on is a set of Blender operators.  Each operator is embedded as
    a computation over an explicit [World] (the part of Blender's and the
    operating system's state the operators read and write) that may raise a
    Python exception.  Host calls are recorded in a trace, so that "the host
    command is never invoked" is a statement about the trace.

    Conventions of the model:
    - a host call that the add-on wraps in [try]/[except] raises when the
      host says so ([fails]); the other host calls return normally, except
      where a Python or Blender rule makes them raise on the state at hand
      ([os.listdir] on a file, a lookup of a missing scene, the removal of
      the last scene);
    - areas, regions and scenes are objects in Python; here an area or a
      region is its position on the screen and a scene is its name, which
      Blender keeps unique;
    - the file system maps a path to a file or to a directory with its
      entries; paths are compared as strings;
    - timer intervals are in milliseconds. *)

From Stdlib Require Import ZArith String Ascii List Bool Lia.
From Stdlib Require Import DecimalString DecimalZ DecimalN DecimalPos.
From stdpp Require Import base option list gmap strings sorting.

Local Open Scope string_scope.
Local Open Scope Z_scope.

(** ** Python built-ins used by the add-on *)

Module Py.

(** [str(n)] for an [int]. *)
Definition str (n : Z) : string := NilEmpty.string_of_int (Z.to_int n).

(** [c * k] for a one-character string. *)
Fixpoint repeat_char (c : ascii) (k : nat) : string :=
  match k with
  | O => EmptyString
  | S k' => String c (repeat_char c k')
  end.

(** [format(n, "0Wd")]: the sign comes first, then zeros up to a total
    width of [W] characters, then the decimal digits of [|n|]. *)
Definition format_0d (width : nat) (n : Z) : string :=
  let digits := NilEmpty.string_of_uint (N.to_uint (Z.abs_N n)) in
  let sign := if n <? 0 then "-" else "" in
  sign +:+
  repeat_char "0"%char (width - String.length sign - String.length digits) +:+
  digits.

(** [f"{n:04d}"]. *)
Definition format_04d (n : Z) : string := format_0d 4 n.

(** [s.endswith(suffix)]. *)
Definition endswith (s suffix : string) : bool :=
  String.eqb
    (String.substring (String.length s - String.length suffix)
                      (String.length suffix) s)
    suffix
  && (String.length suffix <=? String.length s)%nat.

(** [sorted(l)] for a list of [str]: strings compare by code point. *)
Fixpoint insert_sorted (x : string) (l : list string) : list string :=
  match l with
  | [] => [x]
  | y :: l' => if String.leb x y then x :: l else y :: insert_sorted x l'
  end.

Definition sorted (l : list string) : list string :=
  foldr insert_sorted [] l.

End Py.

(** ** Library interfaces the add-on calls *)

(** [os.path] and [bpy.path]: which implementation runs depends on the
    platform, so the path functions are an interface. *)
Class PathLib := {
  abspath : string → string;            (* bpy.path.abspath *)
  dirname : string → string;            (* os.path.dirname *)
  basename : string → string;           (* os.path.basename *)
  splitext : string → string * string;  (* os.path.splitext *)
  join : string → string → string;      (* os.path.join *)
}.

(** ** Data model *)

(** [QP_Props]: the settings stored on every scene. *)
Record QP_Props := {
  render_filepath : string;
  is_quad_active : bool;
}.

Definition QP_Props_default : QP_Props :=
  {| render_filepath := "//quadview_render.mp4"; is_quad_active := false |}.

Record RenderSettings := {
  resolution_x : Z;
  resolution_y : Z;
  fps : Z;
  file_format : string;
  ffmpeg_format : string;
  ffmpeg_codec : string;
  constant_rate_factor : string;
  ffmpeg_preset : string;
  filepath : string;
}.

(** An image strip of the sequencer. *)
Record Strip := {
  strip_name : string;
  strip_filepath : string;
  channel : Z;
  strip_frame_start : Z;
  elements : list string;
  frame_final_duration : Z;
}.

Record Scene := {
  scene_name : string;
  frame_start : Z;
  frame_end : Z;
  frame_current : Z;
  qp_props : QP_Props;
  render : RenderSettings;
  sequence_editor : option (list Strip);
}.

(** The overlay flags of a space.  [show_gizmo] and
    [show_region_tool_header] exist on some space types only
    ([hasattr]); [None] is an absent attribute. *)
Record Space := {
  show_region_ui : bool;
  show_region_toolbar : bool;
  show_gizmo : option bool;
  show_region_tool_header : option bool;
}.

Record Region := { region_type : string }.

Record Area := {
  area_type : string;
  regions : list Region;
  spaces_active : Space;
}.

(** What a path of the file system holds. *)
Inductive node :=
| File
| Dir (entries : list string).

Inductive ReportType := INFO | WARNING | ERROR.

Inductive Status := FINISHED | CANCELLED | RUNNING_MODAL.

Inductive EventType := TIMER | OTHER_EVENT (name : string).

(** Calls into the host, in the order they were made.  Areas and regions
    are referred to by their position in [context.screen.areas] and in
    [area.regions]. *)
Inductive HostCall :=
| Report (level : ReportType) (msg : string)
| RegionQuadview (area region : nat)
| Startfile (path : string)
| Popen (argv : list string)
| ScreenshotArea (area region : nat) (path : string)
| ViewLayerUpdate
| EventTimerAdd (milliseconds : Z)
| EventTimerRemove
| ModalHandlerAdd
| ImagesLoad (path : string)
| ImagesRemove (path : string)
| RenderAnimation (sc : Scene).

(** [scene] is [context.scene], the scene shown in [context.window];
    [bpy.data.scenes] is [scene] together with [other_scenes].
    [context_area] is the area the operator runs in: its active space is
    [context.space_data]. *)
Record World := {
  fs : gmap string node;
  scene : Scene;
  other_scenes : list Scene;
  areas : list Area;
  context_area : option nat;
  trace : list HostCall;
}.

(** Host calls the add-on wraps in [try]/[except]: the host decides whether
    they raise, and with which message. *)
Inductive Fallible :=
| OpRegionQuadview
| OpNewImage
| OpElementsAppend
| OpRender
| OpRmtree.

Class Host := {
  platform_system : string;                      (* platform.system() *)
  image_size : World → string → Z * Z;           (* bpy.data.images.load(p).size *)
  fails : Fallible → World → option string;
}.

(** ** Record updates *)

Definition set_is_quad_active (b : bool) (p : QP_Props) : QP_Props :=
  {| render_filepath := render_filepath p; is_quad_active := b |}.

Definition set_qp_props (p : QP_Props) (s : Scene) : Scene :=
  {| scene_name := scene_name s; frame_start := frame_start s;
     frame_end := frame_end s; frame_current := frame_current s;
     qp_props := p; render := render s;
     sequence_editor := sequence_editor s |}.

Definition set_frame_current (n : Z) (s : Scene) : Scene :=
  {| scene_name := scene_name s; frame_start := frame_start s;
     frame_end := frame_end s; frame_current := n;
     qp_props := qp_props s; render := render s;
     sequence_editor := sequence_editor s |}.

Definition set_frame_range (a b : Z) (s : Scene) : Scene :=
  {| scene_name := scene_name s; frame_start := a;
     frame_end := b; frame_current := frame_current s;
     qp_props := qp_props s; render := render s;
     sequence_editor := sequence_editor s |}.

Definition set_render (r : RenderSettings) (s : Scene) : Scene :=
  {| scene_name := scene_name s; frame_start := frame_start s;
     frame_end := frame_end s; frame_current := frame_current s;
     qp_props := qp_props s; render := r;
     sequence_editor := sequence_editor s |}.

Definition set_sequence_editor (e : option (list Strip)) (s : Scene) : Scene :=
  {| scene_name := scene_name s; frame_start := frame_start s;
     frame_end := frame_end s; frame_current := frame_current s;
     qp_props := qp_props s; render := render s;
     sequence_editor := e |}.

Definition set_filepath (p : string) (r : RenderSettings) : RenderSettings :=
  {| resolution_x := resolution_x r; resolution_y := resolution_y r;
     fps := fps r; file_format := file_format r;
     ffmpeg_format := ffmpeg_format r; ffmpeg_codec := ffmpeg_codec r;
     constant_rate_factor := constant_rate_factor r;
     ffmpeg_preset := ffmpeg_preset r; filepath := p |}.

Definition set_region_ui (b : bool) (sp : Space) : Space :=
  {| show_region_ui := b; show_region_toolbar := show_region_toolbar sp;
     show_gizmo := show_gizmo sp;
     show_region_tool_header := show_region_tool_header sp |}.

Definition set_region_toolbar (b : bool) (sp : Space) : Space :=
  {| show_region_ui := show_region_ui sp; show_region_toolbar := b;
     show_gizmo := show_gizmo sp;
     show_region_tool_header := show_region_tool_header sp |}.

(** [if hasattr(sp, 'show_gizmo'): sp.show_gizmo = b]. *)
Definition set_gizmo_if_present (b : bool) (sp : Space) : Space :=
  {| show_region_ui := show_region_ui sp;
     show_region_toolbar := show_region_toolbar sp;
     show_gizmo := match show_gizmo sp with Some _ => Some b | None => None end;
     show_region_tool_header := show_region_tool_header sp |}.

(** [if hasattr(sp, 'show_region_tool_header'): ... = b]. *)
Definition set_tool_header_if_present (b : bool) (sp : Space) : Space :=
  {| show_region_ui := show_region_ui sp;
     show_region_toolbar := show_region_toolbar sp;
     show_gizmo := show_gizmo sp;
     show_region_tool_header :=
       match show_region_tool_header sp with Some _ => Some b | None => None end |}.

Definition set_space (sp : Space) (a : Area) : Area :=
  {| area_type := area_type a; regions := regions a; spaces_active := sp |}.

Definition with_fs (f : gmap string node) (w : World) : World :=
  {| fs := f; scene := scene w; other_scenes := other_scenes w;
     areas := areas w; context_area := context_area w; trace := trace w |}.

Definition with_scenes (s : Scene) (o : list Scene) (w : World) : World :=
  {| fs := fs w; scene := s; other_scenes := o;
     areas := areas w; context_area := context_area w; trace := trace w |}.

Definition with_areas (l : list Area) (w : World) : World :=
  {| fs := fs w; scene := scene w; other_scenes := other_scenes w;
     areas := l; context_area := context_area w; trace := trace w |}.

Definition with_trace (t : list HostCall) (w : World) : World :=
  {| fs := fs w; scene := scene w; other_scenes := other_scenes w;
     areas := areas w; context_area := context_area w; trace := t |}.

(** ** Computations: state and exceptions *)

Inductive Res (A : Type) :=
| Ok (a : A)
| Raise (exn : string).
Arguments Ok {A} a.
Arguments Raise {A} exn.

Definition M (A : Type) : Type := World → Res A * World.

Definition ret {A} (a : A) : M A := λ w, (Ok a, w).

Definition bind {A B} (m : M A) (k : A → M B) : M B :=
  λ w, match m w with
       | (Ok a, w') => k a w'
       | (Raise e, w') => (Raise e, w')
       end.

Definition raise {A} (e : string) : M A := λ w, (Raise e, w).

(** [try: m  except Exception as e: ...]: the effects of [m] up to the
    exception stay. *)
Definition try_ {A} (m : M A) : M (A + string) :=
  λ w, match m w with
       | (Ok a, w') => (Ok (inl a), w')
       | (Raise e, w') => (Ok (inr e), w')
       end.

Definition get : M World := λ w, (Ok w, w).
Definition modify (f : World → World) : M unit := λ w, (Ok tt, f w).

(** [wp m Q w]: running [m] from [w] ends in a result and a world that
    satisfy [Q]. *)
Definition wp {A} (m : M A) (Q : Res A → World → Prop) (w : World) : Prop :=
  Q (m w).1 (m w).2.

Declare Scope py_scope.
Delimit Scope py_scope with py.
Notation "x <- m ;; k" := (bind m (λ x, k))
  (at level 100, m at next level, right associativity) : py_scope.
Notation "m ;; k" := (bind m (λ _, k))
  (at level 100, right associativity) : py_scope.
Local Open Scope py_scope.

(** A host call that returns normally: it is recorded. *)
Definition call (c : HostCall) : M unit :=
  modify (λ w, with_trace (trace w ++ [c]) w).

(** [self.report({level}, msg)]. *)
Definition report (level : ReportType) (msg : string) : M unit :=
  call (Report level msg).

(** [for x in l: body(x)]. *)
Fixpoint for_each {A} (l : list A) (body : A → M unit) : M unit :=
  match l with
  | [] => ret tt
  | x :: l' => body x ;; for_each l' body
  end.

(** ** Host primitives *)

Section Primitives.
Context {pathlib : PathLib} {host : Host}.

(** A host call made inside [try]: it raises when the host says so. *)
Definition may_raise (op : Fallible) : M unit :=
  w <- get;;
  match fails op w with
  | Some e => raise e
  | None => ret tt
  end.

Definition fallible (op : Fallible) (c : HostCall) : M unit :=
  may_raise op;; call c.

(** [os.path.exists(p)]. *)
Definition os_path_exists (p : string) (w : World) : bool :=
  bool_decide (is_Some (fs w !! p)).

(** [os.listdir(p)]. *)
Definition os_listdir (p : string) : M (list string) :=
  w <- get;;
  match fs w !! p with
  | Some (Dir entries) => ret entries
  | Some File => raise "NotADirectoryError"
  | None => raise "FileNotFoundError"
  end.

(** [os.makedirs(p, exist_ok=True)]. *)
Definition os_makedirs (p : string) : M unit :=
  w <- get;;
  match fs w !! p with
  | Some (Dir _) => ret tt
  | Some File => raise "FileExistsError"
  | None => modify (λ w, with_fs (<[p := Dir []]> (fs w)) w)
  end.

Definition add_entry (name : string) (n : node) : node :=
  match n with
  | Dir entries =>
      if bool_decide (name ∈ entries) then n else Dir (entries ++ [name])
  | File => File
  end.

(** The host writes a file at [p]: the file exists afterwards and is
    listed in its directory. *)
Definition write_file (p : string) : M unit :=
  modify (λ w,
    with_fs (<[p := File]> (alter (add_entry (basename p)) (dirname p) (fs w))) w).

Definition remove_entry (name : string) (n : node) : node :=
  match n with
  | Dir entries => Dir (List.filter (λ e, negb (String.eqb e name)) entries)
  | File => File
  end.

(** [shutil.rmtree(p)]: the entries of [p] go, then [p] itself, which
    is no longer listed in its directory. *)
Definition shutil_rmtree (p : string) : M unit :=
  w <- get;;
  match fs w !! p with
  | Some (Dir entries) =>
      match fails OpRmtree w with
      | Some e => raise e
      | None =>
          modify (λ w,
            with_fs
              (delete p
                 (alter (remove_entry (basename p)) (dirname p)
                    (foldr (λ e m, delete (join p e) m) (fs w) entries)))
              w)
      end
  | Some File => raise "NotADirectoryError"
  | None => raise "FileNotFoundError"
  end.

(** [bpy.data.scenes]. *)
Definition data_scenes (w : World) : list Scene :=
  scene w :: other_scenes w.

Definition named (name : string) (s : Scene) : bool :=
  String.eqb (scene_name s) name.

(** [name in bpy.data.scenes]. *)
Definition scenes_contains (name : string) (w : World) : bool :=
  existsb (named name) (data_scenes w).

(** Drops the first scene called [name]. *)
Fixpoint remove_named (name : string) (l : list Scene) : list Scene :=
  match l with
  | [] => []
  | s :: l' => if named name s then l' else s :: remove_named name l'
  end.

(** [bpy.data.scenes.remove(bpy.data.scenes[name])].  The lookup raises
    [KeyError] when no scene has the name.  Blender refuses to remove
    its last scene; when the scene shown in the window is removed, the
    window shows another one. *)
Definition scenes_remove (name : string) : M unit :=
  w <- get;;
  if negb (scenes_contains name w) then raise "KeyError"
  else if named name (scene w) then
    match other_scenes w with
    | [] => raise "RuntimeError: the last scene cannot be removed"
    | s :: rest => modify (with_scenes s rest)
    end
  else modify (λ w, with_scenes (scene w) (remove_named name (other_scenes w)) w).

(** Blender keeps datablock names apart: a taken name gets a numeric
    suffix [.001], [.002], ... *)
Fixpoint first_free (base : string) (taken : list string) (i fuel : nat) : string :=
  let candidate := base +:+ "." +:+ Py.format_0d 3 (Z.of_nat i) in
  match fuel with
  | O => candidate
  | S fuel' =>
      if bool_decide (candidate ∈ taken)
      then first_free base taken (S i) fuel'
      else candidate
  end.

Definition unique_name (base : string) (taken : list string) : string :=
  if bool_decide (base ∈ taken)
  then first_free base taken 1 (length taken)
  else base.

(** A scene as [bpy.data.scenes.new] makes it: Blender's factory settings,
    and the add-on's property defaults. *)
Definition new_scene (name : string) : Scene :=
  {| scene_name := name; frame_start := 1; frame_end := 250;
     frame_current := 1; qp_props := QP_Props_default;
     render := {| resolution_x := 1920; resolution_y := 1080; fps := 24;
                  file_format := "PNG"; ffmpeg_format := "MKV";
                  ffmpeg_codec := "H264";
                  constant_rate_factor := "MEDIUM";
                  ffmpeg_preset := "GOOD"; filepath := "/tmp/" |};
     sequence_editor := None |}.

(** [bpy.data.scenes.new(name)]: returns the new scene, referred to by
    the name it got. *)
Definition scenes_new (name : string) : M string :=
  w <- get;;
  let actual := unique_name name (scene_name <$> data_scenes w) in
  modify (λ w, with_scenes (scene w) (other_scenes w ++ [new_scene actual]) w);;
  ret actual.

(** Applies [f] to the first scene of [l] called [name]. *)
Fixpoint update_named (name : string) (f : Scene → Scene) (l : list Scene)
  : list Scene :=
  match l with
  | [] => []
  | s :: l' => if named name s then f s :: l' else s :: update_named name f l'
  end.

(** An assignment to attributes of the scene called [name]. *)
Definition update_scene (name : string) (f : Scene → Scene) : M unit :=
  modify (λ w,
    if named name (scene w) then with_scenes (f (scene w)) (other_scenes w) w
    else with_scenes (scene w) (update_named name f (other_scenes w)) w).

Definition find_named (name : string) (l : list Scene) : option Scene :=
  List.find (named name) l.

(** A read of the scene called [name]. *)
Definition read_scene (name : string) : M Scene :=
  w <- get;;
  match find_named name (data_scenes w) with
  | Some s => ret s
  | None => raise "ReferenceError"
  end.

(** [context.window.scene = s] for the scene called [name]. *)
Definition set_window_scene (name : string) : M unit :=
  w <- get;;
  if named name (scene w) then ret tt
  else match find_named name (other_scenes w) with
       | Some s =>
           modify (with_scenes s (scene w :: remove_named name (other_scenes w)))
       | None => raise "ReferenceError"
       end.

Definition alter_space (i : nat) (f : Space → Space) (l : list Area)
  : list Area :=
  alter (λ a, set_space (f (spaces_active a)) a) i l.

(** An assignment to attributes of [areas[i].spaces.active]. *)
Definition update_space (i : nat) (f : Space → Space) : M unit :=
  modify (λ w, with_areas (alter_space i f (areas w)) w).

(** An assignment to attributes of [context.space_data], guarded by
    [hasattr] inside [f]. *)
Definition update_space_data (f : Space → Space) : M unit :=
  modify (λ w,
    match context_area w with
    | Some i => with_areas (alter_space i f (areas w)) w
    | None => w
    end).

(** [next((r for r in regions if r.type == 'WINDOW'), None)], as a
    position in [regions], counted from [i]. *)
Fixpoint first_window (rs : list Region) (i : nat) : option nat :=
  match rs with
  | [] => None
  | r :: rs' =>
      if String.eqb (region_type r) "WINDOW" then Some i
      else first_window rs' (S i)
  end.

(** [bpy.ops.screen.screenshot_area(filepath=p)] under a context
    override of area and region. *)
Definition screenshot_area (a r : nat) (p : string) : M unit :=
  call (ScreenshotArea a r p);; write_file p.

(** The window manager keeps a modal operator as long as [modal] answers
    [RUNNING_MODAL], and hands it the events one after the other. *)
Fixpoint run_modal {S} (modal : S → EventType → M (S * Status))
    (self : S) (events : list EventType) : M (S * Status) :=
  match events with
  | [] => ret (self, RUNNING_MODAL)
  | e :: events' =>
      r <- modal self e;;
      match r.2 with
      | RUNNING_MODAL => run_modal modal r.1 events'
      | _ => ret r
      end
  end.

End Primitives.

(** ** Operator: toggle between Quad View and the original layout *)

Module QP_OT_switch_layout.
Section Operator.
Context {pathlib : PathLib} {host : Host}.

(** The two nested loops of [execute]: the first 3D-viewport area that
    has a window region, with that region. *)
Fixpoint find_view3d (l : list Area) (i : nat) : option (nat * nat) :=
  match l with
  | [] => None
  | a :: l' =>
      if String.eqb (area_type a) "VIEW_3D" then
        match first_window (regions a) 0 with
        | Some r => Some (i, r)
        | None => find_view3d l' (S i)
        end
      else find_view3d l' (S i)
  end.

Definition toggle_quad_active (w : World) : World :=
  let props := qp_props (scene w) in
  with_scenes
    (set_qp_props (set_is_quad_active (negb (is_quad_active props)) props)
                  (scene w))
    (other_scenes w) w.

Definition execute : M Status :=
  w <- get;;
  match find_view3d (areas w) 0 with
  | None =>
      report ERROR "Could not find a View3D area with a WINDOW region.";;
      ret CANCELLED
  | Some (view3d_area, view3d_region) =>
      r <- try_ (
        fallible OpRegionQuadview (RegionQuadview view3d_area view3d_region);;
        modify toggle_quad_active;;
        w <- get;;
        if is_quad_active (qp_props (scene w))
        then report INFO "Quad View enabled"
        else report INFO "Returned to original layout");;
      match r with
      | inr e => report ERROR ("Error: " +:+ e);; ret CANCELLED
      | inl _ => ret FINISHED
      end
  end.

End Operator.
End QP_OT_switch_layout.

(** ** Operator: open the folder where renders are saved *)

Module QP_OT_open_render_folder.
Section Operator.
Context {pathlib : PathLib} {host : Host}.

(** [folder_path]: the directory of the output path. *)
Definition folder_path (w : World) : string :=
  abspath (dirname (render_filepath (qp_props (scene w)))).

Definition execute : M Status :=
  w <- get;;
  let folder_path := folder_path w in
  (if os_path_exists folder_path w then
     (if String.eqb platform_system "Windows" then
        call (Startfile folder_path)
      else if String.eqb platform_system "Darwin" then
        call (Popen ["open"; folder_path])
      else
        call (Popen ["xdg-open"; folder_path]));;
     report INFO ("Opened folder: " +:+ folder_path)
   else
     report ERROR "Folder does not exist");;
  ret FINISHED.

End Operator.
End QP_OT_open_render_folder.

(** ** Operator: screenshot of the current frame *)

Module QP_OT_screenshot_quadview.

Record Self := {
  _timer : option Z;
  _view3d_area : option nat;
  _region_window : option nat;
  _ui_was_visible : bool;
  _toolbar_was_visible : bool;
  _file_path : string;
}.

(** The class attributes. *)
Definition init : Self :=
  {| _timer := None; _view3d_area := None; _region_window := None;
     _ui_was_visible := false; _toolbar_was_visible := false;
     _file_path := "" |}.

Definition with_view3d_area (a : option nat) (self : Self) : Self :=
  {| _timer := _timer self; _view3d_area := a;
     _region_window := _region_window self;
     _ui_was_visible := _ui_was_visible self;
     _toolbar_was_visible := _toolbar_was_visible self;
     _file_path := _file_path self |}.

(** [for area in areas: if area.type == 'VIEW_3D': ...; break]. *)
Fixpoint first_view3d (l : list Area) (i : nat) : option nat :=
  match l with
  | [] => None
  | a :: l' =>
      if String.eqb (area_type a) "VIEW_3D" then Some i
      else first_view3d l' (S i)
  end.

Section Operator.
Context {pathlib : PathLib} {host : Host}.

Definition execute (self : Self) : M (Self * Status) :=
  w <- get;;
  let self :=
    match first_view3d (areas w) 0 with
    | Some a => with_view3d_area (Some a) self
    | None => self
    end in
  match _view3d_area self with
  | None =>
      report ERROR "VIEW_3D not found";;
      ret (self, CANCELLED)
  | Some a =>
      area <- match areas w !! a with
              | Some area => ret area
              | None => raise "ReferenceError"
              end;;
      match first_window (regions area) 0 with
      | None =>
          report ERROR "WINDOW region not found";;
          ret (self, CANCELLED)
      | Some r =>
          let user_filepath := abspath (render_filepath (qp_props (scene w))) in
          let folder_path := dirname user_filepath in
          let filename := (splitext (basename user_filepath)).1 +:+ ".png" in
          let file_path := join folder_path filename in
          os_makedirs folder_path;;
          let space := spaces_active area in
          let self :=
            {| _timer := _timer self; _view3d_area := Some a;
               _region_window := Some r;
               _ui_was_visible := show_region_ui space;
               _toolbar_was_visible := show_region_toolbar space;
               _file_path := file_path |} in
          update_space a (set_region_ui false);;
          update_space a (set_region_toolbar false);;
          update_space_data (set_gizmo_if_present false);;
          update_space_data (set_tool_header_if_present false);;
          call ViewLayerUpdate;;
          call (EventTimerAdd 200);;
          call ModalHandlerAdd;;
          ret ({| _timer := Some 200; _view3d_area := _view3d_area self;
                  _region_window := _region_window self;
                  _ui_was_visible := _ui_was_visible self;
                  _toolbar_was_visible := _toolbar_was_visible self;
                  _file_path := _file_path self |}, RUNNING_MODAL)
      end
  end.

Definition modal (self : Self) (event : EventType) : M (Self * Status) :=
  match event with
  | TIMER =>
      call EventTimerRemove;;
      match _view3d_area self, _region_window self with
      | Some a, Some r =>
          screenshot_area a r (_file_path self);;
          update_space a (set_region_ui (_ui_was_visible self));;
          update_space a (set_region_toolbar (_toolbar_was_visible self));;
          update_space_data (set_gizmo_if_present true);;
          update_space_data (set_tool_header_if_present true);;
          call ViewLayerUpdate;;
          report INFO ("Image saved: " +:+ _file_path self);;
          ret (self, FINISHED)
      | _, _ => raise "AttributeError"
      end
  | _ => ret (self, RUNNING_MODAL)
  end.

End Operator.
End QP_OT_screenshot_quadview.

(** ** Operator: combine the image sequence into a video *)

Module QP_OT_combine_images_to_video.

Definition video_scene_name : string := "CombineVideoScene".

(** [if n % 2 != 0: n += 1]. *)
Definition round_even (n : Z) : Z :=
  if negb (n mod 2 =? 0) then n + 1 else n.

(** The render settings the operator assigns, one attribute after the
    other; [render.filepath] is assigned later. *)
Definition configure_render (img_width img_height scene_fps : Z)
    (r : RenderSettings) : RenderSettings :=
  {| resolution_x := img_width; resolution_y := img_height;
     fps := scene_fps; file_format := "FFMPEG";
     ffmpeg_format := "MPEG4"; ffmpeg_codec := "H264";
     constant_rate_factor := "HIGH"; ffmpeg_preset := "GOOD";
     filepath := filepath r |}.

(** [if not sc.sequence_editor: sc.sequence_editor_create()], then the
    loop that removes every strip. *)
Definition clear_sequence_editor (sc : Scene) : Scene :=
  set_sequence_editor (Some []) sc.

Definition add_strip (st : Strip) (sc : Scene) : Scene :=
  set_sequence_editor (Some (default [] (sequence_editor sc) ++ [st])%list) sc.

Fixpoint update_strip_named (name : string) (f : Strip → Strip)
    (l : list Strip) : list Strip :=
  match l with
  | [] => []
  | st :: l' =>
      if String.eqb (strip_name st) name then f st :: l'
      else st :: update_strip_named name f l'
  end.

Definition update_strip (name : string) (f : Strip → Strip) (sc : Scene)
  : Scene :=
  set_sequence_editor (update_strip_named name f <$> sequence_editor sc) sc.

Definition append_element (img : string) (st : Strip) : Strip :=
  {| strip_name := strip_name st; strip_filepath := strip_filepath st;
     channel := channel st; strip_frame_start := strip_frame_start st;
     elements := (elements st ++ [img])%list;
     frame_final_duration := frame_final_duration st |}.

Definition set_frame_final_duration (n : Z) (st : Strip) : Strip :=
  {| strip_name := strip_name st; strip_filepath := strip_filepath st;
     channel := channel st; strip_frame_start := strip_frame_start st;
     elements := elements st; frame_final_duration := n |}.

Section Operator.
Context {pathlib : PathLib} {host : Host}.

(** [folder_temp]: the directory of the captured frames. *)
Definition folder_temp (w : World) : string :=
  let user_filepath := abspath (render_filepath (qp_props (scene w))) in
  let folder_main := dirname user_filepath in
  let filename_base := (splitext (basename user_filepath)).1 in
  join folder_main (filename_base +:+ "_temp").

(** [sorted([f for f in names if f.endswith('.png')])]. *)
Definition png_images (names : list string) : list string :=
  Py.sorted (List.filter (λ f, Py.endswith f ".png") names).

(** [if video_scene_name in bpy.data.scenes: bpy.data.scenes.remove(...)]. *)
Definition remove_video_scene : M unit :=
  w <- get;;
  if scenes_contains video_scene_name w
  then scenes_remove video_scene_name
  else ret tt.

(** Lines 313-338: the temporary scene and its settings.  [scene_fps] is
    the frame rate of the scene the operator was called on. *)
Definition create_video_scene (img_width img_height scene_fps : Z)
    (n_images : nat) (user_filepath : string) : M string :=
  remove_video_scene;;
  video_scene <- scenes_new video_scene_name;;
  update_scene video_scene
    (λ sc, set_render (configure_render img_width img_height scene_fps (render sc)) sc);;
  update_scene video_scene (set_frame_range 1 (Z.of_nat n_images));;
  update_scene video_scene clear_sequence_editor;;
  update_scene video_scene
    (λ sc, set_render (set_filepath user_filepath (render sc)) sc);;
  ret video_scene.

(** The body of the first [try]. *)
Definition encode (video_scene first_image_path : string)
    (rest : list string) : M unit :=
  w <- get;;
  let original_scene := scene_name (scene w) in
  set_window_scene video_scene;;
  may_raise OpNewImage;;
  update_scene video_scene
    (add_strip {| strip_name := "QuadViewImages";
                  strip_filepath := first_image_path;
                  channel := 1; strip_frame_start := 1;
                  elements := [basename first_image_path];
                  frame_final_duration := 1 |});;
  for_each rest (λ img,
    may_raise OpElementsAppend;;
    update_scene video_scene (update_strip "QuadViewImages" (append_element img)));;
  update_scene video_scene
    (update_strip "QuadViewImages"
       (set_frame_final_duration (Z.of_nat (S (length rest)))));;
  w <- get;;
  fallible OpRender (RenderAnimation (scene w));;
  set_window_scene original_scene.

(** What follows a successful encode. *)
Definition finish (folder_temp user_filepath : string) : M Status :=
  r <- try_ (shutil_rmtree folder_temp;;
             report INFO "Temporary image folder deleted");;
  match r with
  | inr e => report WARNING ("Could not delete temp folder: " +:+ e)
  | inl _ => ret tt
  end;;
  remove_video_scene;;
  report INFO ("Video completed: " +:+ user_filepath);;
  ret FINISHED.

Definition execute : M Status :=
  w <- get;;
  let scene := scene w in
  let props := qp_props scene in
  let user_filepath := abspath (render_filepath props) in
  let folder_temp := folder_temp w in
  if negb (os_path_exists folder_temp w) then
    report ERROR "Temporary image folder does not exist.";;
    ret CANCELLED
  else
    names <- os_listdir folder_temp;;
    match png_images names with
    | [] =>
        report ERROR "No images found to combine into a video.";;
        ret CANCELLED
    | first :: rest =>
        let first_image_path := join folder_temp first in
        call (ImagesLoad first_image_path);;
        w <- get;;
        let '(img_width, img_height) := image_size w first_image_path in
        call (ImagesRemove first_image_path);;
        let img_width := round_even img_width in
        let img_height := round_even img_height in
        video_scene <-
          create_video_scene img_width img_height (fps (render scene))
                             (S (length rest)) user_filepath;;
        r <- try_ (encode video_scene first_image_path rest);;
        match r with
        | inr e =>
            report ERROR ("Error creating video: " +:+ e);;
            remove_video_scene;;
            ret CANCELLED
        | inl _ => finish folder_temp user_filepath
        end
    end.

(** The world after [n] runs of the combiner in a row. *)
Definition repeat_execute (n : nat) (w : World) : World :=
  Nat.iter n (λ w, (execute w).2) w.

End Operator.
End QP_OT_combine_images_to_video.

(** ** Operator: export the animation as a sequence of screenshots *)

Module QP_OT_screenshot_quadview_anim.

Record Self := {
  _view3d_area : option nat;
  _region_window : option nat;
  _frame_current : Z;
  _frame_start : Z;
  _frame_end : Z;
  _folder_path : string;
  _ui_was_visible : bool;
  _toolbar_was_visible : bool;
  _timer : option Z;
  _wait_frames : Z;
}.

(** The class attributes. *)
Definition init : Self :=
  {| _view3d_area := None; _region_window := None; _frame_current := 0;
     _frame_start := 0; _frame_end := 0; _folder_path := "";
     _ui_was_visible := false; _toolbar_was_visible := false;
     _timer := None; _wait_frames := 2 |}.

Definition with_view3d_area (a : option nat) (self : Self) : Self :=
  {| _view3d_area := a; _region_window := _region_window self;
     _frame_current := _frame_current self;
     _frame_start := _frame_start self; _frame_end := _frame_end self;
     _folder_path := _folder_path self;
     _ui_was_visible := _ui_was_visible self;
     _toolbar_was_visible := _toolbar_was_visible self;
     _timer := _timer self; _wait_frames := _wait_frames self |}.

Definition with_wait_frames (n : Z) (self : Self) : Self :=
  {| _view3d_area := _view3d_area self;
     _region_window := _region_window self;
     _frame_current := _frame_current self;
     _frame_start := _frame_start self; _frame_end := _frame_end self;
     _folder_path := _folder_path self;
     _ui_was_visible := _ui_was_visible self;
     _toolbar_was_visible := _toolbar_was_visible self;
     _timer := _timer self; _wait_frames := n |}.

Definition with_frame_current (n : Z) (self : Self) : Self :=
  {| _view3d_area := _view3d_area self;
     _region_window := _region_window self;
     _frame_current := n;
     _frame_start := _frame_start self; _frame_end := _frame_end self;
     _folder_path := _folder_path self;
     _ui_was_visible := _ui_was_visible self;
     _toolbar_was_visible := _toolbar_was_visible self;
     _timer := _timer self; _wait_frames := _wait_frames self |}.

(** [f"quadview_frame_{n:04d}.png"]. *)
Definition frame_filename (n : Z) : string :=
  "quadview_frame_" +:+ Py.format_04d n +:+ ".png".

Section Operator.
Context {pathlib : PathLib} {host : Host}.

(** [scene.frame_set(n)] on [context.scene]. *)
Definition frame_set (n : Z) : M unit :=
  modify (λ w, with_scenes (set_frame_current n (scene w)) (other_scenes w) w).

(** [bpy.ops.qp.combine_images_to_video()]: a call through [bpy.ops]
    raises [RuntimeError] when the operator reported an error, which the
    combiner does exactly when it answers [CANCELLED]. *)
Definition combine_images_to_video : M unit :=
  status <- QP_OT_combine_images_to_video.execute;;
  match status with
  | CANCELLED => raise "RuntimeError"
  | _ => ret tt
  end.

Definition execute (self : Self) : M (Self * Status) :=
  w <- get;;
  let self :=
    match QP_OT_screenshot_quadview.first_view3d (areas w) 0 with
    | Some a => with_view3d_area (Some a) self
    | None => self
    end in
  match _view3d_area self with
  | None =>
      report ERROR "VIEW_3D not found";;
      ret (self, CANCELLED)
  | Some a =>
      area <- match areas w !! a with
              | Some area => ret area
              | None => raise "ReferenceError"
              end;;
      match first_window (regions area) 0 with
      | None =>
          report ERROR "WINDOW region not found";;
          ret (self, CANCELLED)
      | Some r =>
          frame_set 1;;
          let user_filepath := abspath (render_filepath (qp_props (scene w))) in
          let folder_main := dirname user_filepath in
          let filename_base := (splitext (basename user_filepath)).1 in
          let folder_path := join folder_main (filename_base +:+ "_temp") in
          os_makedirs folder_path;;
          let space := spaces_active area in
          update_space a (set_region_ui false);;
          update_space a (set_region_toolbar false);;
          update_space_data (set_gizmo_if_present false);;
          update_space_data (set_tool_header_if_present false);;
          call ViewLayerUpdate;;
          call ModalHandlerAdd;;
          call (EventTimerAdd 50);;
          ret ({| _view3d_area := Some a; _region_window := Some r;
                  _frame_current := frame_start (scene w);
                  _frame_start := frame_start (scene w);
                  _frame_end := frame_end (scene w);
                  _folder_path := folder_path;
                  _ui_was_visible := show_region_ui space;
                  _toolbar_was_visible := show_region_toolbar space;
                  _timer := Some 50; _wait_frames := 2 |}, RUNNING_MODAL)
      end
  end.

(** The branch of [modal] taken once every frame is captured. *)
Definition complete (self : Self) : M (Self * Status) :=
  match _view3d_area self with
  | None => raise "AttributeError"
  | Some a =>
      update_space a (set_region_ui (_ui_was_visible self));;
      update_space a (set_region_toolbar (_toolbar_was_visible self));;
      update_space_data (set_gizmo_if_present true);;
      update_space_data (set_tool_header_if_present true);;
      call ViewLayerUpdate;;
      call EventTimerRemove;;
      report INFO ("Finished video with " +:+
                   Py.str (_frame_end self - _frame_start self + 1) +:+
                   " frames.");;
      combine_images_to_video;;
      ret (self, FINISHED)
  end.

(** The branch of [modal] that captures the current frame. *)
Definition capture (self : Self) : M (Self * Status) :=
  frame_set (_frame_current self);;
  call ViewLayerUpdate;;
  let filename := join (_folder_path self) (frame_filename (_frame_current self)) in
  match _view3d_area self, _region_window self with
  | Some a, Some r =>
      screenshot_area a r filename;;
      ret (with_frame_current (_frame_current self + 1) self, RUNNING_MODAL)
  | _, _ => raise "AttributeError"
  end.

Definition modal (self : Self) (event : EventType) : M (Self * Status) :=
  match event with
  | TIMER =>
      if 0 <? _wait_frames self then
        ret (with_wait_frames (_wait_frames self - 1) self, RUNNING_MODAL)
      else if _frame_end self <? _frame_current self then complete self
      else capture self
  | _ => ret (self, RUNNING_MODAL)
  end.

End Operator.
End QP_OT_screenshot_quadview_anim.

(** ** A concrete platform: POSIX paths

    [posixpath] as CPython implements it, and [bpy.path.abspath] for a
    blend file saved at [blend_filepath]. *)

Module posixpath.

Definition is_sep (c : ascii) : bool := Ascii.eqb c "/"%char.

(** [(p[:i], p[i:])] for [i = p.rfind('/') + 1]. *)
Fixpoint split_last_sep (p : string) : string * string :=
  match p with
  | EmptyString => (EmptyString, EmptyString)
  | String c p' =>
      let '(head, tail) := split_last_sep p' in
      match head with
      | EmptyString =>
          if is_sep c then (String c EmptyString, p')
          else (EmptyString, String c p')
      | _ => (String c head, tail)
      end
  end.

Fixpoint all_sep (s : string) : bool :=
  match s with
  | EmptyString => true
  | String c s' => is_sep c && all_sep s'
  end.

(** [s.rstrip('/')]. *)
Fixpoint rstrip_sep (s : string) : string :=
  match s with
  | EmptyString => EmptyString
  | String c s' =>
      match rstrip_sep s' with
      | EmptyString => if is_sep c then EmptyString else String c EmptyString
      | r => String c r
      end
  end.

Definition dirname (p : string) : string :=
  let head := (split_last_sep p).1 in
  if all_sep head then head else rstrip_sep head.

Definition basename (p : string) : string := (split_last_sep p).2.

(** [(s[:i], s[i:])] for [i = s.rfind('.')], if there is a dot. *)
Fixpoint split_last_dot (s : string) : option (string * string) :=
  match s with
  | EmptyString => None
  | String c s' =>
      match split_last_dot s' with
      | Some (root, ext) => Some (String c root, ext)
      | None =>
          if Ascii.eqb c "."%char then Some (EmptyString, s) else None
      end
  end.

Fixpoint all_dots (s : string) : bool :=
  match s with
  | EmptyString => true
  | String c s' => Ascii.eqb c "."%char && all_dots s'
  end.

(** [genericpath._splitext]: leading dots of the file name do not start
    an extension. *)
Definition splitext (p : string) : string * string :=
  let '(head, tail) := split_last_sep p in
  match split_last_dot tail with
  | Some (root, ext) =>
      if all_dots root then (p, EmptyString) else (head +:+ root, ext)
  | None => (p, EmptyString)
  end.

Definition join (a b : string) : string :=
  match b with
  | String c _ =>
      if is_sep c then b
      else if all_sep (String.substring (String.length a - 1) 1 a) then a +:+ b
      else a +:+ "/" +:+ b
  | EmptyString =>
      if all_sep (String.substring (String.length a - 1) 1 a) then a
      else a +:+ "/"
  end.

(** [bpy.path.abspath]: a leading [//] stands for the directory of the
    blend file. *)
Definition abspath (blend_filepath p : string) : string :=
  if String.prefix "//" p
  then join (dirname blend_filepath)
            (String.substring 2 (String.length p - 2) p)
  else p.

Definition pathlib (blend_filepath : string) : PathLib :=
  Build_PathLib (abspath blend_filepath) dirname basename splitext join.

End posixpath.

(** ** Observations on the trace *)

(** Calls that start a program of the operating system. *)
Definition is_os_call (c : HostCall) : bool :=
  match c with
  | Startfile _ | Popen _ => true
  | _ => false
  end.

Definition is_render (c : HostCall) : bool :=
  match c with
  | RenderAnimation _ => true
  | _ => false
  end.

Definition is_region_quadview (c : HostCall) : bool :=
  match c with
  | RegionQuadview _ _ => true
  | _ => false
  end.

(** The paths of the screenshots taken, oldest first. *)
Fixpoint screenshots (t : list HostCall) : list string :=
  match t with
  | [] => []
  | ScreenshotArea _ _ p :: t' => p :: screenshots t'
  | _ :: t' => screenshots t'
  end.

(** The active space of the area at position [i] of the screen. *)
Definition space_at (i : nat) (w : World) : option Space :=
  spaces_active <$> areas w !! i.

(** [context.space_data]. *)
Definition space_data (w : World) : option Space :=
  i ← context_area w; space_at i w.

(** An optional flag after [if hasattr(...): flag = True]. *)
Definition switched_on (flag : option bool) : option bool :=
  (λ _, true) <$> flag.

(** No scene of the list is called [name]. *)
Definition lacks (name : string) (l : list Scene) : Prop :=
  Forall (λ s, named name s = false) l.

(** [l] is [rest] with one more scene, [vs], the only one called [name]. *)
Definition only_named (name : string) (vs : Scene) (rest l : list Scene) : Prop :=
  l ≡ₚ vs :: rest ∧ named name vs = true ∧ lacks name rest.

(** While the combiner encodes: the files are [f0], the trace is [t0],
    and [bpy.data.scenes] is [rest] and the temporary scene, whose render
    settings are [r0]. *)
Definition encoding (name : string) (rest : list Scene) (r0 : RenderSettings)
    (f0 : gmap string node) (t0 : list HostCall) (w : World) : Prop :=
  fs w = f0 ∧ trace w = t0
  ∧ ∃ vs, only_named name vs rest (data_scenes w) ∧ render vs = r0.

(** What the renderer was asked to do while encoding: nothing, or one
    animation render of the scene called [name] with settings [r0]. *)
Definition rendered (name : string) (r0 : RenderSettings) (t : list HostCall)
  : Prop :=
  t = [] ∨ ∃ sc, t = [RenderAnimation sc] ∧ scene_name sc = name ∧ render sc = r0.


(** The directory [p] does not exist, or exists and holds no [.png] file. *)
Definition no_png_in (p : string) (w : World) : bool :=
  match fs w !! p with
  | None => true
  | Some (Dir names) => forallb (λ f, negb (Py.endswith f ".png")) names
  | Some File => false
  end.



(** The integer a decimal numeral stands for, with an optional leading
    minus sign; leading zeros are allowed. *)
Definition decimal_value (s : string) : option Z :=
  match NilEmpty.uint_of_string s with
  | Some d => Some (Z.of_N (N.of_uint d))
  | None =>
      match s with
      | String c s' =>
          if Ascii.eqb c "-"%char
          then (λ d, - Z.of_N (N.of_uint d)) <$> NilEmpty.uint_of_string s'
          else None
      | EmptyString => None
      end
  end.

(** The frame number in a file name [quadview_frame_<number>.png]: what
    stands between the 15 characters of the prefix and the 4 of the
    extension. *)
Definition frame_number (name : string) : option Z :=
  decimal_value (String.substring 15 (String.length name - 19) name).

(** A computation that takes no screenshot. *)
Definition takes_no_screenshot {A} (m : M A) : Prop :=
  ∀ w, screenshots (trace (m w).2) = screenshots (trace w).

(** A modal operator that has stopped: it answered something else than
    [RUNNING_MODAL], or raised. *)
Definition stopped {S} (r : Res (S * Status)) : Prop :=
  match r with
  | Ok (_, RUNNING_MODAL) => False
  | Ok (_, FINISHED) => True
  | Ok (_, CANCELLED) => False
  | Raise _ => True
  end.

(** The screen has a 3D-viewport area with a window region. *)
Definition has_viewport_window (l : list Area) : bool :=
  existsb (λ a, String.eqb (area_type a) "VIEW_3D"
                && existsb (λ r, String.eqb (region_type r) "WINDOW") (regions a)) l.

(** How many scenes of [bpy.data.scenes] are called [name]. *)
Definition count_named (name : string) (l : list Scene) : nat :=
  length (List.filter (named name) l).

Definition is_timer (e : EventType) : bool :=
  match e with
  | TIMER => true
  | _ => false
  end.

(** The number of timer ticks among the events. *)
Definition ticks (events : list EventType) : nat :=
  length (List.filter is_timer events).

(** ** Sample hosts and worlds *)

Module Sample.

(** A Linux host on which no call fails; every image is 101x51. *)
Definition quiet_host : Host :=
  {| platform_system := "Linux";
     image_size := λ _ _, (101, 51);
     fails := λ _ _, None |}.

(** The same host with an encoder that fails. *)
Definition broken_encoder_host : Host :=
  {| platform_system := "Linux";
     image_size := λ _ _, (101, 51);
     fails := λ op _, match op with
                      | OpRender => Some "encoder failure"
                      | _ => None
                      end |}.

(** The same host with a temp folder that cannot be deleted. *)
Definition readonly_host : Host :=
  {| platform_system := "Linux";
     image_size := λ _ _, (101, 51);
     fails := λ op _, match op with
                      | OpRmtree => Some "permission denied"
                      | _ => None
                      end |}.

Definition paths : PathLib := posixpath.pathlib "/home/user/shot.blend".

Definition viewport_space (gizmo : bool) : Space :=
  {| show_region_ui := true; show_region_toolbar := true;
     show_gizmo := Some gizmo; show_region_tool_header := Some true |}.

Definition viewport (gizmo : bool) : Area :=
  {| area_type := "VIEW_3D";
     regions := [ {| region_type := "HEADER" |}; {| region_type := "WINDOW" |} ];
     spaces_active := viewport_space gizmo |}.

Definition outliner : Area :=
  {| area_type := "OUTLINER";
     regions := [ {| region_type := "WINDOW" |} ];
     spaces_active := {| show_region_ui := false; show_region_toolbar := false;
                         show_gizmo := None; show_region_tool_header := None |} |}.

Definition main_scene (first last : Z) : Scene :=
  set_frame_range first last (new_scene "Scene").

(** A project whose output folder exists, with three captured frames and
    a stray text file in the temp folder. *)
Definition files : gmap string node :=
  {[ "/home/user" := Dir ["shot.blend"; "quadview_render_temp"];
     "/home/user/quadview_render_temp" :=
       Dir ["quadview_frame_0002.png"; "notes.txt";
            "quadview_frame_0001.png"; "quadview_frame_0003.png"] ]}.

Definition world (first last : Z) (gizmo : bool) : World :=
  {| fs := files; scene := main_scene first last; other_scenes := [];
     areas := [outliner; viewport gizmo]; context_area := Some 1%nat;
     trace := [] |}.

(** The same project before anything was captured. *)
Definition fresh_world (first last : Z) : World :=
  with_fs {[ "/home/user" := Dir ["shot.blend"] ]} (world first last true).

(** A screen without a 3D viewport. *)
Definition no_viewport_world : World :=
  with_areas [outliner] (world 1 5 true).

(** A project saved where the output folder is gone. *)
Definition no_folder_world : World :=
  with_fs ∅ (world 1 5 true).

(** A temp folder that holds no image. *)
Definition no_images_world : World :=
  with_fs {[ "/home/user" := Dir ["quadview_render_temp"];
             "/home/user/quadview_render_temp" := Dir ["notes.txt"] ]}
          (world 1 5 true).

(** A world in which an earlier run left its temporary scene behind. *)
Definition leftover_world : World :=
  with_scenes (main_scene 1 5)
              [new_scene QP_OT_combine_images_to_video.video_scene_name]
              (world 1 5 true).

(** The sample world after one and after two layout toggles. *)
Definition toggled_once : World :=
  (QP_OT_switch_layout.execute (host := quiet_host) (world 1 5 true)).2.

Definition toggled_twice : World :=
  (QP_OT_switch_layout.execute (host := quiet_host) toggled_once).2.

(** A single-frame capture requested with the gizmos hidden, and the
    world after the timer tick. *)
Definition capture_requested : QP_OT_screenshot_quadview.Self * World :=
  match QP_OT_screenshot_quadview.execute (pathlib := paths)
          QP_OT_screenshot_quadview.init (world 1 5 false) with
  | (Ok (self, _), w) => (self, w)
  | (Raise _, w) => (QP_OT_screenshot_quadview.init, w)
  end.


(** An animation capture of frames 1 to 5 requested on the fresh
    project. *)
Definition anim_requested : QP_OT_screenshot_quadview_anim.Self * World :=
  match QP_OT_screenshot_quadview_anim.execute (pathlib := paths)
          QP_OT_screenshot_quadview_anim.init (fresh_world 1 5) with
  | (Ok (self, _), w) => (self, w)
  | (Raise _, w) => (QP_OT_screenshot_quadview_anim.init, w)
  end.

(** Eight timer ticks with a mouse move in between. *)
Definition anim_events : list EventType :=
  [TIMER; TIMER; OTHER_EVENT "MOUSEMOVE"; TIMER; TIMER; TIMER; TIMER; TIMER; TIMER].

End Sample.

(** ** The panel *)

Module QP_PT_panel.

(** A button, a line of text or an input field. *)
Inductive Item :=
| Operator (idname text icon : string)
| Label (text icon : string)
| PropField (property : string).

(** What [draw] puts into the layout, in the order of the calls: items
    placed in the layout itself, separators, and columns and rows with
    the items placed in them. *)
Inductive Widget :=
| Direct (item : Item)
| Separator
| Column (align : bool) (content : list Item)
| Row (content : list Item).

Section Panel.
(** [area.width] and [area.height] of the area at a position of the
    screen: the host computes them from the window layout. *)
Variable area_size : nat → Z * Z.

Definition draw (w : World) : list Widget :=
  let props := qp_props (scene w) in
  let toggle :=
    if negb (is_quad_active props) then
      Column true [Operator "qp.switch_layout" "Switch Quad Layout" "WINDOW";
                   Label "Click to enable Quad View" "INFO"]
    else
      Column true [Operator "qp.switch_layout" "Reset Layout" "SCREEN_BACK";
                   Label "Quad View is active" "INFO"] in
  let view3d_area := QP_OT_screenshot_quadview.first_view3d (areas w) 0 in
  let '(width, height) :=
    match view3d_area with
    | Some a => area_size a
    | None => (0, 0)
    end in
  [ toggle;
    Separator;
    Direct (Label "Render Controls" "RENDER_STILL");
    Column true [PropField "render_filepath"];
    Row [Label ("Output Width: " +:+ Py.str width) ""];
    Row [Label ("Output Height: " +:+ Py.str height) ""];
    Column true
      [Operator "qp.screenshot_quadview" "Screenshot Current Frame" "IMAGE_PLANE";
       Operator "qp.screenshot_quadview_anim" "Playblast Animation" "RENDER_ANIMATION"];
    Column true [Operator "qp.open_render_folder" "Open Saved Folder" "FOLDER_REDIRECT"] ].

End Panel.
End QP_PT_panel.

(** ** Registration *)

Module Registration.

(** The classes Blender has registered, oldest first, and whether
    [bpy.types.Scene.qp_props] is defined. *)
Record Registry := {
  registered : list string;
  scene_qp_props : bool;
}.

(** [classes]. *)
Definition classes : list string :=
  ["QP_Props"; "QP_OT_switch_layout"; "QP_OT_open_render_folder";
   "QP_OT_screenshot_quadview"; "QP_OT_screenshot_quadview_anim";
   "QP_OT_combine_images_to_video"; "QP_PT_panel"].

(** [bpy.utils.register_class(cls)]: a class cannot be registered twice. *)
Definition register_class (cls : string) (g : Registry) : Res unit * Registry :=
  if bool_decide (cls ∈ registered g) then (Raise "ValueError", g)
  else (Ok tt, {| registered := registered g ++ [cls];
                  scene_qp_props := scene_qp_props g |}).

(** [bpy.utils.unregister_class(cls)]: the class must be registered. *)
Definition unregister_class (cls : string) (g : Registry) : Res unit * Registry :=
  if bool_decide (cls ∈ registered g) then
    (Ok tt, {| registered := List.filter (λ c, negb (String.eqb c cls)) (registered g);
               scene_qp_props := scene_qp_props g |})
  else (Raise "RuntimeError", g).

(** [for cls in l: step(cls)]. *)
Fixpoint for_classes (step : string → Registry → Res unit * Registry)
    (l : list string) (g : Registry) : Res unit * Registry :=
  match l with
  | [] => (Ok tt, g)
  | cls :: l' =>
      match step cls g with
      | (Ok _, g') => for_classes step l' g'
      | (Raise e, g') => (Raise e, g')
      end
  end.

Definition register (g : Registry) : Res unit * Registry :=
  match for_classes register_class classes g with
  | (Ok _, g') => (Ok tt, {| registered := registered g'; scene_qp_props := true |})
  | (Raise e, g') => (Raise e, g')
  end.

Definition unregister (g : Registry) : Res unit * Registry :=
  match for_classes unregister_class (rev classes) g with
  | (Ok _, g') =>
      if scene_qp_props g'
      then (Ok tt, {| registered := registered g'; scene_qp_props := false |})
      else (Raise "AttributeError", g')
  | (Raise e, g') => (Raise e, g')
  end.

End Registration.

(** ** More observations *)

(** A computation whose every run, whether it returns or raises, takes
    the world to one that is related to it by [R]. *)
Definition preserves {A} (R : World → World → Prop) (m : M A) : Prop :=
  ∀ w, R w (m w).2.

(** The host calls of the combiner: reports, loading and removing an
    image, and the render. *)
Definition is_combiner_call (c : HostCall) : bool :=
  match c with
  | Report _ _ | ImagesLoad _ | ImagesRemove _ | RenderAnimation _ => true
  | _ => false
  end.

(** [w'] has the screen of [w], and the host calls of [w] followed by
    calls of the combiner only. *)
Definition off_screen (w w' : World) : Prop :=
  areas w' = areas w ∧ context_area w' = context_area w
  ∧ ∃ t, trace w' = (trace w ++ t)%list
         ∧ Forall (λ c, is_combiner_call c = true) t.

(** The fields of a capture job that the timer ticks leave alone. *)
Definition same_job (self self' : QP_OT_screenshot_quadview_anim.Self) : Prop :=
  QP_OT_screenshot_quadview_anim._view3d_area self'
  = QP_OT_screenshot_quadview_anim._view3d_area self
  ∧ QP_OT_screenshot_quadview_anim._region_window self'
    = QP_OT_screenshot_quadview_anim._region_window self
  ∧ QP_OT_screenshot_quadview_anim._frame_start self'
    = QP_OT_screenshot_quadview_anim._frame_start self
  ∧ QP_OT_screenshot_quadview_anim._frame_end self'
    = QP_OT_screenshot_quadview_anim._frame_end self
  ∧ QP_OT_screenshot_quadview_anim._folder_path self'
    = QP_OT_screenshot_quadview_anim._folder_path self
  ∧ QP_OT_screenshot_quadview_anim._ui_was_visible self'
    = QP_OT_screenshot_quadview_anim._ui_was_visible self
  ∧ QP_OT_screenshot_quadview_anim._toolbar_was_visible self'
    = QP_OT_screenshot_quadview_anim._toolbar_was_visible self.

Definition is_timer_add (c : HostCall) : bool :=
  match c with
  | EventTimerAdd _ => true
  | _ => false
  end.

Definition is_timer_remove (c : HostCall) : bool :=
  match c with
  | EventTimerRemove => true
  | _ => false
  end.

(** The timers added and not yet removed. *)
Definition timers_running (t : list HostCall) : Z :=
  Z.of_nat (length (List.filter is_timer_add t))
  - Z.of_nat (length (List.filter is_timer_remove t)).

(** The screen has a 3D viewport. *)
Definition has_view3d (l : list Area) : bool :=
  existsb (λ a, String.eqb (area_type a) "VIEW_3D") l.

(** The first 3D viewport of the screen has a window region. *)
Definition first_view3d_has_window (l : list Area) : bool :=
  match List.find (λ a, String.eqb (area_type a) "VIEW_3D") l with
  | Some area => existsb (λ r, String.eqb (region_type r) "WINDOW") (regions area)
  | None => false
  end.

(** The scene the combiner hands to the renderer: the temporary scene
    with one image strip that holds the frames. *)
Definition encoded_scene (img_width img_height scene_fps : Z)
    (user_filepath first_image_path : string) (first : string)
    (rest : list string) : Scene :=
  {| scene_name := QP_OT_combine_images_to_video.video_scene_name;
     frame_start := 1;
     frame_end := Z.of_nat (S (length rest));
     frame_current := 1;
     qp_props := QP_Props_default;
     render := {| resolution_x := img_width; resolution_y := img_height;
                  fps := scene_fps; file_format := "FFMPEG";
                  ffmpeg_format := "MPEG4"; ffmpeg_codec := "H264";
                  constant_rate_factor := "HIGH"; ffmpeg_preset := "GOOD";
                  filepath := user_filepath |};
     sequence_editor :=
       Some [ {| strip_name := "QuadViewImages";
                 strip_filepath := first_image_path;
                 channel := 1; strip_frame_start := 1;
                 elements := first :: rest;
                 frame_final_duration := Z.of_nat (S (length rest)) |} ] |}.

(** More sample worlds. *)
Module MoreSamples.

(** A 3D viewport that is being set up and has no window region yet,
    before a usable one. *)
Definition bare_viewport : Area :=
  {| area_type := "VIEW_3D";
     regions := [ {| region_type := "HEADER" |} ];
     spaces_active := Sample.viewport_space true |}.

Definition two_viewports_world : World :=
  with_areas [Sample.outliner; bare_viewport; Sample.viewport true]
             (Sample.world 1 5 true).

(** The output folder is a regular file. *)
Definition folder_is_file_world : World :=
  with_fs {[ "/home/user" := File ]} (Sample.world 1 5 true).

(** The temp folder is a regular file. *)
Definition temp_is_file_world : World :=
  with_fs {[ "/home/user" := Dir ["quadview_render_temp"];
             "/home/user/quadview_render_temp" := File ]}
          (Sample.world 1 5 true).

(** A host on which the quad-view command fails. *)
Definition no_quadview_host : Host :=
  {| platform_system := "Linux";
     image_size := λ _ _, (101, 51);
     fails := λ op _, match op with
                      | OpRegionQuadview => Some "context is incorrect"
                      | _ => None
                      end |}.




End MoreSamples.

(** * Properties *)

Local Open Scope list_scope.

(** ** Stepping through a computation *)

Lemma wp_ret {A} (a : A) Q w : Q (Ok a) w → wp (ret a) Q w.
Proof. done. Qed.

Lemma wp_raise {A} e (Q : Res A → World → Prop) w :
  Q (Raise e) w → wp (raise e) Q w.
Proof. done. Qed.

Lemma wp_get Q w : Q (Ok w) w → wp get Q w.
Proof. done. Qed.

Lemma wp_modify f Q w : Q (Ok tt) (f w) → wp (modify f) Q w.
Proof. done. Qed.

Lemma wp_bind {A B} (m : M A) (k : A → M B) Q w :
  wp m (λ r w', match r with
                | Ok a => wp (k a) Q w'
                | Raise e => Q (Raise e) w'
                end) w →
  wp (bind m k) Q w.
Proof. unfold wp, bind. by destruct (m w) as [[a|e] w']. Qed.

Lemma wp_try {A} (m : M A) Q w :
  wp m (λ r w', match r with
                | Ok a => Q (Ok (inl a)) w'
                | Raise e => Q (Ok (inr e)) w'
                end) w →
  wp (try_ m) Q w.
Proof. unfold wp, try_. by destruct (m w) as [[a|e] w']. Qed.

Lemma wp_mono {A} (m : M A) (Q Q' : Res A → World → Prop) w :
  (∀ r w', Q r w' → Q' r w') → wp m Q w → wp m Q' w.
Proof. unfold wp. auto. Qed.

Lemma wp_call c Q w :
  Q (Ok tt) (with_trace (trace w ++ [c]) w) → wp (call c) Q w.
Proof. done. Qed.

Lemma wp_eq {A} (m : M A) w r w' : m w = (r, w') → ∀ Q, wp m Q w ↔ Q r w'.
Proof. intros E Q. unfold wp. by rewrite E. Qed.

(** Unfolds the plumbing of a computation applied to a world. *)
Ltac run :=
  cbv beta iota zeta delta
    [bind ret get modify raise try_ call report may_raise fallible fst snd].

(** Focuses on the first command of a sequence. *)
Ltac wp_focus :=
  repeat lazymatch goal with
         | |- wp (bind _ _) _ _ => apply wp_bind
         end.

(** One step of a computation whose outcome [H : m w = (r, w')] is known. *)
Ltac step_with H :=
  wp_focus; apply (proj2 (wp_eq _ _ _ _ H _)); cbn beta iota.

(** One step of plumbing. *)
Ltac wp_step :=
  wp_focus;
  lazymatch goal with
  | |- wp get _ _ => apply wp_get
  | |- wp (modify _) _ _ => apply wp_modify
  | |- wp (call _) _ _ => apply wp_call
  | |- wp (report _ _) _ _ => apply wp_call
  | |- wp (ret _) _ _ => apply wp_ret
  | |- wp (raise _) _ _ => apply wp_raise
  end;
  cbn beta iota.

(** [run] for a world given by its fields: every update is carried out. *)
Ltac run_fields :=
  cbv beta iota zeta delta
    [bind ret get modify raise try_ call report may_raise fallible fst snd
     with_fs with_scenes with_areas with_trace
     fs scene other_scenes areas context_area trace].

(** ** The file system *)

Lemma os_path_exists_false p w : fs w !! p = None → os_path_exists p w = false.
Proof.
  intros E. unfold os_path_exists. rewrite E.
  apply bool_decide_eq_false. by intros [? ?].
Qed.

Lemma os_path_exists_true p n w : fs w !! p = Some n → os_path_exists p w = true.
Proof. intros E. unfold os_path_exists. rewrite E. by apply bool_decide_eq_true_2. Qed.

(** ** The layout toggle *)

Module SwitchLayoutFacts.
Import QP_OT_switch_layout.
Section Facts.
Context {pathlib : PathLib} {host : Host}.

(** The loops of [execute] find a viewport exactly when the screen has a
    3D-viewport area with a window region. *)
Lemma first_window_none rs i :
  first_window rs i = None ↔
  existsb (λ r, String.eqb (region_type r) "WINDOW") rs = false.
Proof.
  revert i. induction rs as [|r rs IH]; intros i; simpl; [done|].
  destruct (String.eqb (region_type r) "WINDOW"); simpl; [split; discriminate|].
  apply IH.
Qed.

Lemma find_view3d_none l i :
  find_view3d l i = None ↔ has_viewport_window l = false.
Proof.
  revert i. induction l as [|a l IH]; intros i; simpl; [done|].
  destruct (String.eqb (area_type a) "VIEW_3D"); simpl; [|apply IH].
  destruct (first_window (regions a) 0) as [r|] eqn:E.
  - destruct (existsb _ (regions a)) eqn:E'; simpl; [split; discriminate|].
    apply (proj2 (first_window_none _ 0%nat)) in E'. by rewrite E' in E.
  - apply (proj1 (first_window_none _ _)) in E. rewrite E. simpl. apply IH.
Qed.

(** A toggle that answers [FINISHED] called the host once and negated
    the flag, and changed nothing else of the scene settings. *)
Lemma execute_finished w w1 :
  execute w = (Ok FINISHED, w1) →
  is_quad_active (qp_props (scene w1)) = negb (is_quad_active (qp_props (scene w)))
  ∧ render_filepath (qp_props (scene w1)) = render_filepath (qp_props (scene w))
  ∧ List.filter is_region_quadview (trace w1)
    = (List.filter is_region_quadview (trace w)
       ++ match find_view3d (areas w) 0 with
          | Some (a, r) => [RegionQuadview a r]
          | None => []
          end)%list.
Proof.
  unfold execute. run.
  destruct (find_view3d (areas w) 0) as [[a r]|]; [|discriminate].
  destruct (fails OpRegionQuadview w) as [e|]; [discriminate|].
  simpl. destruct (negb (is_quad_active (qp_props (scene w)))) eqn:E;
    intros [= <-]; simpl; rewrite E, !List.filter_app; simpl;
    by rewrite app_nil_r.
Qed.

(** C5. On a screen with no 3D-viewport area that has a window region,
    the layout toggle reports an error and answers [CANCELLED]; the
    report is the only change: the stored flag keeps its value and the
    host's quad-view command is not called. *)
Theorem execute_without_viewport (w : World) :
  has_viewport_window (areas w) = false →
  ∃ w',
    execute w = (Ok CANCELLED, w')
    ∧ w' = with_trace
             (trace w ++ [Report ERROR "Could not find a View3D area with a WINDOW region."])
             w
    ∧ is_quad_active (qp_props (scene w')) = is_quad_active (qp_props (scene w))
    ∧ List.filter is_region_quadview (trace w')
      = List.filter is_region_quadview (trace w).
Proof.
  intros Hno. apply (find_view3d_none _ 0%nat) in Hno.
  eexists. split; [|split; [reflexivity|split; [done|]]].
  - unfold execute. run. by rewrite Hno.
  - simpl. rewrite List.filter_app. simpl. by rewrite app_nil_r.
Qed.

(** C6. Two successful toggles in a row bring the stored flag back to
    its value: each one negates it. *)
Theorem execute_twice (w w1 w2 : World) :
  execute w = (Ok FINISHED, w1) →
  execute w1 = (Ok FINISHED, w2) →
  is_quad_active (qp_props (scene w1)) = negb (is_quad_active (qp_props (scene w)))
  ∧ is_quad_active (qp_props (scene w2)) = is_quad_active (qp_props (scene w)).
Proof.
  intros H1 H2.
  apply execute_finished in H1 as (E1 & _). apply execute_finished in H2 as (E2 & _).
  split; [done|]. rewrite E2, E1. apply negb_involutive.
Qed.

End Facts.

Lemma execute_without_viewport_witness :
  has_viewport_window (areas Sample.no_viewport_world) = false
  ∧ ∃ w',
      execute (host := Sample.quiet_host) Sample.no_viewport_world = (Ok CANCELLED, w')
      ∧ w' = with_trace
               (trace Sample.no_viewport_world
                ++ [Report ERROR "Could not find a View3D area with a WINDOW region."])
               Sample.no_viewport_world
      ∧ is_quad_active (qp_props (scene w'))
        = is_quad_active (qp_props (scene Sample.no_viewport_world))
      ∧ List.filter is_region_quadview (trace w')
        = List.filter is_region_quadview (trace Sample.no_viewport_world).
Proof.
  split; [reflexivity|].
  apply (execute_without_viewport (host := Sample.quiet_host) Sample.no_viewport_world).
  reflexivity.
Defined.

Lemma execute_twice_witness :
  is_quad_active (qp_props (scene Sample.toggled_once))
  = negb (is_quad_active (qp_props (scene (Sample.world 1 5 true))))
  ∧ is_quad_active (qp_props (scene Sample.toggled_twice))
    = is_quad_active (qp_props (scene (Sample.world 1 5 true))).
Proof.
  apply (execute_twice (host := Sample.quiet_host)
           (Sample.world 1 5 true) Sample.toggled_once Sample.toggled_twice);
    reflexivity.
Defined.

End SwitchLayoutFacts.

(** ** Opening the render folder *)

Module OpenRenderFolderFacts.
Import QP_OT_open_render_folder.
Section Facts.
Context {pathlib : PathLib} {host : Host}.

(** C8. When the folder of the output path does not exist, the operator
    reports an error and starts no program of the operating system: the
    report is the only change. *)
Theorem execute_missing_folder (w : World) :
  fs w !! folder_path w = None →
  ∃ w',
    execute w = (Ok FINISHED, w')
    ∧ w' = with_trace (trace w ++ [Report ERROR "Folder does not exist"]) w
    ∧ List.filter is_os_call (trace w') = List.filter is_os_call (trace w).
Proof.
  intros Hno. apply os_path_exists_false in Hno.
  eexists. split; [|split; [reflexivity|]].
  - unfold execute. run. by rewrite Hno.
  - simpl. rewrite List.filter_app. simpl. by rewrite app_nil_r.
Qed.


End Facts.

Lemma execute_missing_folder_witness :
  fs Sample.no_folder_world
    !! folder_path (pathlib := Sample.paths) Sample.no_folder_world = None
  ∧ ∃ w',
      execute (pathlib := Sample.paths) (host := Sample.quiet_host)
              Sample.no_folder_world = (Ok FINISHED, w')
      ∧ w' = with_trace (trace Sample.no_folder_world
                         ++ [Report ERROR "Folder does not exist"])
                        Sample.no_folder_world
      ∧ List.filter is_os_call (trace w')
        = List.filter is_os_call (trace Sample.no_folder_world).
Proof.
  split; [reflexivity|].
  apply (execute_missing_folder (pathlib := Sample.paths) (host := Sample.quiet_host)
           Sample.no_folder_world).
  reflexivity.
Defined.

End OpenRenderFolderFacts.

(** ** The single-frame capture *)

Module ScreenshotFacts.
Import QP_OT_screenshot_quadview.
Section Facts.
Context {pathlib : PathLib}.

Lemma lookup_alter_space i j f l :
  spaces_active <$> alter_space i f l !! j
  = if decide (i = j) then f <$> (spaces_active <$> l !! j)
    else spaces_active <$> l !! j.
Proof.
  unfold alter_space. case_decide as D.
  - subst j. rewrite list_lookup_alter_eq. by destruct (l !! i).
  - by rewrite list_lookup_alter_ne.
Qed.


End Facts.



End ScreenshotFacts.

(** ** Scenes of [bpy.data.scenes] *)

Section SceneLists.
Context {pathlib : PathLib} {host : Host}.

Lemma named_true name s : named name s = true ↔ scene_name s = name.
Proof. apply String.eqb_eq. Qed.

Lemma lacks_existsb name l : lacks name l ↔ existsb (named name) l = false.
Proof.
  unfold lacks. induction l as [|s l IH]; simpl.
  - split; [done|constructor].
  - rewrite Forall_cons, orb_false_iff, IH. done.
Qed.

Lemma lacks_count name l : lacks name l ↔ count_named name l = 0%nat.
Proof.
  unfold lacks, count_named. induction l as [|s l IH]; simpl.
  - split; [done|constructor].
  - rewrite Forall_cons. destruct (named name s); simpl.
    + split; [intros [? _]|]; discriminate.
    + rewrite IH. split; [by intros [_ ?]|done].
Qed.

Lemma count_named_perm name l1 l2 :
  l1 ≡ₚ l2 → count_named name l1 = count_named name l2.
Proof.
  induction 1 as [|x l l' Hp IH|x y l|l l' l'' Hp1 IH1 Hp2 IH2];
    unfold count_named in *; simpl; [done| | |congruence].
  - destruct (named name x); simpl; congruence.
  - by destruct (named name x), (named name y).
Qed.

(** The first scene called [name] splits the list. *)
Lemma split_named name l :
  existsb (named name) l = true →
  ∃ l1 x l2,
    l = l1 ++ x :: l2 ∧ lacks name l1 ∧ named name x = true
    ∧ remove_named name l = l1 ++ l2
    ∧ find_named name l = Some x
    ∧ ∀ f, update_named name f l = l1 ++ f x :: l2.
Proof.
  induction l as [|s l IH]; simpl; [discriminate|].
  destruct (named name s) eqn:E; simpl.
  - intros _. exists [], s, l. by repeat split; try constructor.
  - intros (l1 & x & l2 & -> & H1 & Hx & Hr & Hf & Hu)%IH.
    exists (s :: l1), x, l2. rewrite Hr. repeat split; try done.
    + by constructor.
    + intros f. by rewrite Hu.
Qed.

Lemma remove_named_lacks name l : lacks name l → remove_named name l = l.
Proof.
  induction 1 as [|s l E _ IH]; simpl; [done|]. by rewrite E, IH.
Qed.

Lemma remove_named_count name l :
  count_named name (remove_named name l) = pred (count_named name l).
Proof.
  unfold count_named. induction l as [|s l IH]; simpl; [done|].
  destruct (named name s) eqn:E; simpl; [done|]. by rewrite E.
Qed.

Lemma remove_named_length name l :
  (length (remove_named name l) ≤ length l)%nat.
Proof.
  induction l as [|s l IH]; simpl; [done|].
  destruct (named name s); simpl; lia.
Qed.

Lemma only_named_existsb name vs rest l :
  only_named name vs rest l → existsb (named name) l = true.
Proof.
  intros (Hp & Hv & _). apply existsb_exists. exists vs. split; [|done].
  apply list_elem_of_In. rewrite Hp. left.
Qed.

(** Under [only_named], the first scene called [name] is [vs]. *)
Lemma only_named_split name vs rest l :
  only_named name vs rest l →
  ∃ l1 l2,
    l = l1 ++ vs :: l2 ∧ l1 ++ l2 ≡ₚ rest ∧ lacks name l1
    ∧ remove_named name l = l1 ++ l2
    ∧ find_named name l = Some vs
    ∧ ∀ f, update_named name f l = l1 ++ f vs :: l2.
Proof.
  intros H. pose proof H as (Hp & Hv & Hrest).
  destruct (split_named name l (only_named_existsb _ _ _ _ H))
    as (l1 & x & l2 & -> & H1 & Hx & Hr & Hf & Hu).
  assert (x = vs) as ->.
  { assert (x ∈ vs :: rest) as [->|Hin]%elem_of_cons; [|done|].
    - rewrite <- Hp. set_solver.
    - unfold lacks in Hrest. rewrite Forall_forall in Hrest.
      apply Hrest in Hin. congruence. }
  exists l1, l2. repeat split; try done.
  apply (Permutation_cons_inv (a := vs)). by rewrite <- Hp, Permutation_middle.
Qed.

Lemma only_named_update name vs rest l f :
  only_named name vs rest l →
  scene_name (f vs) = scene_name vs →
  only_named name (f vs) rest (update_named name f l).
Proof.
  intros H Hf. pose proof H as (Hp & Hv & Hrest).
  destruct (only_named_split _ _ _ _ H) as (l1 & l2 & -> & Hp' & _ & _ & _ & Hu).
  repeat split; [|unfold named in *; by rewrite Hf|done].
  by rewrite Hu, <- Permutation_middle, Hp'.
Qed.

Lemma only_named_remove name vs rest l :
  only_named name vs rest l → remove_named name l ≡ₚ rest.
Proof.
  intros H. destruct (only_named_split _ _ _ _ H) as (l1 & l2 & _ & Hp & _ & Hr & _).
  by rewrite Hr.
Qed.

Lemma only_named_head name vs rest s o :
  only_named name vs rest (s :: o) → named name s = true → s = vs.
Proof.
  intros H Hs. destruct (only_named_split _ _ _ _ H) as (l1 & l2 & E & _ & H1 & _).
  destruct l1 as [|x l1]; simplify_eq/=; [done|].
  apply Forall_cons in H1 as [? _]. congruence.
Qed.

(** *** The scene primitives on [data_scenes] *)

Lemma scenes_new_spec name w :
  let actual := unique_name name (scene_name <$> data_scenes w) in
  scenes_new name w
  = (Ok actual, with_scenes (scene w) (other_scenes w ++ [new_scene actual]) w).
Proof. done. Qed.

Lemma unique_name_free name l :
  lacks name l → unique_name name (scene_name <$> l) = name.
Proof.
  intros H. unfold unique_name. rewrite bool_decide_eq_false_2; [done|].
  intros (s & Es & Hin)%list_elem_of_fmap.
  unfold lacks in H. rewrite Forall_forall in H. apply H in Hin.
  unfold named in Hin. by rewrite <- Es, String.eqb_refl in Hin.
Qed.

Lemma update_scene_spec name f w :
  ∃ s o,
    update_scene name f w = (Ok tt, with_scenes s o w)
    ∧ s :: o = update_named name f (data_scenes w).
Proof.
  unfold update_scene, data_scenes. run. simpl.
  destruct (named name (scene w)); eauto.
Qed.

Lemma scenes_remove_spec name w :
  scenes_contains name w = true →
  (named name (scene w) = true ∧ other_scenes w = []
   ∧ ∃ e, scenes_remove name w = (Raise e, w))
  ∨ (∃ s o,
       scenes_remove name w = (Ok tt, with_scenes s o w)
       ∧ s :: o = remove_named name (data_scenes w)).
Proof.
  intros Hc. unfold scenes_remove, data_scenes. run. rewrite Hc. simpl.
  destruct (named name (scene w)) eqn:E.
  - destruct (other_scenes w) as [|s o]; [left; eauto|right; eauto].
  - right. eauto.
Qed.

Lemma set_window_scene_spec name w :
  (∃ e, set_window_scene name w = (Raise e, w))
  ∨ (∃ s o,
       set_window_scene name w = (Ok tt, with_scenes s o w)
       ∧ s :: o ≡ₚ data_scenes w
       ∧ named name s = true).
Proof.
  unfold set_window_scene, data_scenes. run.
  destruct (named name (scene w)) eqn:E.
  - right. exists (scene w), (other_scenes w). by destruct w.
  - destruct (find_named name (other_scenes w)) as [s|] eqn:Ef; [|left; eauto].
    right. exists s, (scene w :: remove_named name (other_scenes w)).
    split; [done|].
    assert (existsb (named name) (other_scenes w) = true) as Hex.
    { apply existsb_exists. destruct (find_some _ _ Ef) as [Hin Hn]. eauto. }
    destruct (split_named _ _ Hex) as (l1 & x & l2 & Eo & _ & Hx & Hr & Hf & _).
    unfold find_named in *. rewrite Hf in Ef. simplify_eq. rewrite Hr, Eo.
    split; [|done]. by rewrite Permutation_swap, <- Permutation_middle.
Qed.

End SceneLists.

(** ** The combiner *)

Module CombineFacts.
Import QP_OT_combine_images_to_video.
Section Facts.
Context {pathlib : PathLib} {host : Host}.


Lemma png_images_nil names :
  forallb (λ f, negb (Py.endswith f ".png")) names = true → png_images names = [].
Proof.
  intros H. unfold png_images.
  assert (List.filter (λ f, Py.endswith f ".png") names = []) as ->; [|done].
  induction names as [|f names IH]; simpl in *; [done|].
  apply andb_true_iff in H as [Hf H]. apply negb_true_iff in Hf.
  rewrite Hf. auto.
Qed.

(** C3. When the temp directory does not exist, or exists but holds no
    [.png] file, the combiner reports an error and answers [CANCELLED];
    the report is the only change: no scene is created and the renderer
    is not called. *)
Theorem execute_without_frames (w : World) :
  no_png_in (folder_temp w) w = true →
  ∃ msg w',
    execute w = (Ok CANCELLED, w')
    ∧ w' = with_trace (trace w ++ [Report ERROR msg]) w
    ∧ data_scenes w' = data_scenes w
    ∧ List.filter is_render (trace w') = List.filter is_render (trace w).
Proof.
  unfold no_png_in, execute, os_path_exists, os_listdir. run.
  destruct (fs w !! folder_temp w) as [[|names]|] eqn:E; [discriminate| |]; intros H.
  - rewrite bool_decide_eq_true_2 by eauto. cbn [negb]. rewrite E. run.
    rewrite (png_images_nil _ H).
    do 2 eexists. split; [reflexivity|]. split; [reflexivity|]. split; [done|].
    simpl. rewrite List.filter_app. simpl. by rewrite app_nil_r.
  - rewrite bool_decide_eq_false_2 by (by intros [? ?]). simpl.
    do 2 eexists. split; [reflexivity|]. split; [reflexivity|]. split; [done|].
    simpl. rewrite List.filter_app. simpl. by rewrite app_nil_r.
Qed.

Lemma remove_video_scene_spec w :
  (named video_scene_name (scene w) = true ∧ other_scenes w = []
   ∧ ∃ e, remove_video_scene w = (Raise e, w))
  ∨ (∃ s o,
       remove_video_scene w = (Ok tt, with_scenes s o w)
       ∧ s :: o = remove_named video_scene_name (data_scenes w)).
Proof.
  unfold remove_video_scene. run.
  destruct (scenes_contains video_scene_name w) eqn:Hc.
  - apply (scenes_remove_spec _ _ Hc).
  - right. exists (scene w), (other_scenes w). split; [by destruct w|].
    symmetry. apply remove_named_lacks. by apply lacks_existsb.
Qed.

Lemma with_scenes_twice s' o' s o w :
  with_scenes s' o' (with_scenes s o w) = with_scenes s' o' w.
Proof. done. Qed.

(** An assignment to the only scene called [name] that keeps its name. *)
Lemma wp_update_only name f vs rest s o w Q :
  only_named name vs rest (s :: o) →
  scene_name (f vs) = scene_name vs →
  (∀ s' o', only_named name (f vs) rest (s' :: o') →
            Q (Ok tt) (with_scenes s' o' w)) →
  wp (update_scene name f) Q (with_scenes s o w).
Proof.
  intros H Hf HQ.
  destruct (update_scene_spec name f (with_scenes s o w)) as (s' & o' & E & Hso).
  step_with E. rewrite with_scenes_twice. apply HQ. rewrite Hso.
  by apply only_named_update.
Qed.

Lemma create_video_scene_spec img_width img_height scene_fps n user_filepath w :
  (count_named video_scene_name (data_scenes w) ≤ 1)%nat →
  wp (create_video_scene img_width img_height scene_fps n user_filepath)
     (λ r w',
        (named video_scene_name (scene w) = true ∧ other_scenes w = []
         ∧ (∃ e, r = Raise e) ∧ w' = w)
        ∨ (∃ s o vs,
             r = Ok video_scene_name ∧ w' = with_scenes s o w
             ∧ only_named video_scene_name vs
                 (remove_named video_scene_name (data_scenes w)) (s :: o)
             ∧ remove_named video_scene_name (data_scenes w) ≠ []
             ∧ resolution_x (render vs) = img_width
             ∧ resolution_y (render vs) = img_height)) w.
Proof.
  intros Hcount. unfold create_video_scene.
  destruct (remove_video_scene_spec w) as [(Hn & Ho & e & E)|(s & o & E & Hso)];
    step_with E; [left; eauto|].
  assert (lacks video_scene_name (s :: o)) as Hlacks.
  { apply lacks_count. rewrite Hso, remove_named_count. lia. }
  pose proof (scenes_new_spec video_scene_name (with_scenes s o w)) as En.
  cbv zeta in En. unfold data_scenes in En.
  cbn [scene other_scenes with_scenes] in En.
  rewrite (unique_name_free _ _ Hlacks) in En. step_with En. clear En.
  rewrite with_scenes_twice.
  assert (only_named video_scene_name (new_scene video_scene_name) (s :: o)
            (s :: o ++ [new_scene video_scene_name])) as H1.
  { split; [|by split]. symmetry. apply (Permutation_cons_append (s :: o)). }
  apply wp_bind, (wp_update_only _ _ _ _ _ _ _ _ H1); [done|]. clear H1.
  intros s1 o1 H1. cbn beta iota.
  apply wp_bind, (wp_update_only _ _ _ _ _ _ _ _ H1); [done|]. clear H1.
  intros s2 o2 H2. cbn beta iota.
  apply wp_bind, (wp_update_only _ _ _ _ _ _ _ _ H2); [done|]. clear H2.
  intros s3 o3 H3. cbn beta iota.
  apply wp_bind, (wp_update_only _ _ _ _ _ _ _ _ H3); [done|]. clear H3.
  intros s4 o4 H4. cbn beta iota.
  apply wp_ret. right. exists s4, o4. eexists.
  split; [done|]. split; [done|]. rewrite <- Hso.
  split; [exact H4|]. by repeat split.
Qed.

(** *** Encoding *)

Lemma wp_encoding_update name rest r0 f0 t0 f w :
  encoding name rest r0 f0 t0 w →
  (∀ s, scene_name (f s) = scene_name s ∧ render (f s) = render s) →
  wp (update_scene name f) (λ r w', r = Ok tt ∧ encoding name rest r0 f0 t0 w'
                                    ∧ scene_name (scene w') = scene_name (scene w)) w.
Proof.
  intros (Hf & Ht & vs & Hv & Hr) Hkeep.
  pose proof (update_scene_spec name f w) as (s & o & E & Hso).
  apply (wp_eq _ _ _ _ E). split; [done|]. split.
  - split; [done|]. split; [done|]. exists (f vs). split.
    + unfold data_scenes. cbn [scene other_scenes with_scenes]. rewrite Hso.
      apply only_named_update; [done|]. apply Hkeep.
    + by rewrite (proj2 (Hkeep vs)).
  - cbn [scene with_scenes]. unfold data_scenes in Hso. simpl in Hso.
    destruct (named name (scene w)); simplify_eq; [apply Hkeep|done].
Qed.

Lemma wp_may_raise op (Q : Res unit → World → Prop) w :
  Q (Ok tt) w → (∀ e, Q (Raise e) w) → wp (may_raise op) Q w.
Proof.
  intros Hok Hraise. unfold wp, may_raise. run.
  destruct (fails op w); simpl; auto.
Qed.

Lemma wp_encoding_set_window name rest r0 f0 t0 n w :
  encoding name rest r0 f0 t0 w →
  wp (set_window_scene n)
     (λ r w', encoding name rest r0 f0 t0 w'
              ∧ (r = Ok tt → named n (scene w') = true)) w.
Proof.
  intros (Hf & Ht & vs & (Hp & Hv) & Hr).
  destruct (set_window_scene_spec n w) as [(e & E)|(s & o & E & Hso & Hn)];
    apply (wp_eq _ _ _ _ E).
  - split; [|done]. split; [done|]. split; [done|]. by exists vs.
  - split; [|done]. split; [done|]. split; [done|]. exists vs.
    split; [|done]. split; [|done]. unfold data_scenes at 1.
    cbn [scene other_scenes with_scenes]. by rewrite Hso.
Qed.

Lemma wp_for_each {A} (l : list A) (body : A → M unit) (I : World → Prop) w :
  I w →
  (∀ x w, I w → wp (body x) (λ _ w', I w') w) →
  wp (for_each l body) (λ _ w', I w') w.
Proof.
  intros Hw Hbody. revert w Hw. induction l as [|x l IH]; intros w Hw; simpl.
  - by apply wp_ret.
  - apply wp_bind. eapply wp_mono; [|by apply Hbody].
    intros [[]|e] w' Hw'; simpl; auto.
Qed.

(** Under [encoding], the scene shown in the window, when it is called
    [name], is the temporary scene. *)
Lemma encoding_window name rest r0 f0 t0 w :
  encoding name rest r0 f0 t0 w → named name (scene w) = true →
  scene_name (scene w) = name ∧ render (scene w) = r0.
Proof.
  intros (_ & _ & vs & Hv & Hr) Hn.
  apply (only_named_head _ _ _ _ _ Hv) in Hn as E. rewrite E.
  split; [|done]. apply named_true. by rewrite <- E.
Qed.

Lemma encode_spec rest r0 f0 t0 first_image_path images w :
  encoding video_scene_name rest r0 f0 t0 w →
  wp (encode video_scene_name first_image_path images)
     (λ r w',
        ∃ t', encoding video_scene_name rest r0 f0 (t0 ++ t') w'
              ∧ rendered video_scene_name r0 t'
              ∧ (r = Ok tt → t' ≠ [])) w.
Proof.
  intros H0. unfold encode.
  assert (∀ (r : Res unit) w', encoding video_scene_name rest r0 f0 t0 w' →
            (∃ e, r = Raise e) →
            ∃ t', encoding video_scene_name rest r0 f0 (t0 ++ t') w'
                  ∧ rendered video_scene_name r0 t'
                  ∧ (r = Ok tt → t' ≠ [])) as Hquit.
  { intros r w' H [e ->]. exists []. rewrite app_nil_r.
    split; [done|]. split; [by left|done]. }
  wp_step.
  apply wp_bind. eapply wp_mono; [|by apply wp_encoding_set_window].
  intros [[]|e] w1 [H1 Hn1]; cbn beta iota; [|eauto].
  specialize (Hn1 eq_refl).
  apply wp_bind, wp_may_raise; cbn beta iota; [|eauto].
  apply wp_bind. eapply wp_mono; [|by apply wp_encoding_update].
  intros r w2 (-> & H2 & Hn2); cbn beta iota.
  assert (named video_scene_name (scene w2) = true) as Hw2.
  { unfold named in *. by rewrite Hn2. }
  clear dependent w1.
  apply wp_bind.
  eapply wp_mono;
    [|apply (wp_for_each _ _
               (λ w, encoding video_scene_name rest r0 f0 t0 w
                     ∧ named video_scene_name (scene w) = true));
      [done|]].
  - intros [[]|e] w3 [H3 Hn3]; cbn beta iota; [|eauto].
    apply wp_bind. eapply wp_mono; [|by apply wp_encoding_update].
    intros r w4 (-> & H4 & Hn4); cbn beta iota.
    assert (named video_scene_name (scene w4) = true) as Hw4.
    { unfold named in *. by rewrite Hn4. }
    wp_step.
    destruct (encoding_window _ _ _ _ _ _ H4 Hw4) as [Hname Hrender].
    unfold fallible. apply wp_bind, wp_bind, wp_may_raise; cbn beta iota; [|eauto].
    wp_step.
    set (w5 := with_trace _ w4).
    assert (encoding video_scene_name rest r0 f0
              (t0 ++ [RenderAnimation (scene w4)]) w5) as H5.
    { destruct H4 as (Hf & Ht & Hvs). split; [done|]. split; [|done].
      unfold w5. cbn [trace with_trace]. by rewrite Ht. }
    eapply wp_mono; [|by apply wp_encoding_set_window].
    intros r w6 [H6 _]. exists [RenderAnimation (scene w4)].
    split; [done|]. split; [right; eauto|done].
  - intros img w3 [H3 Hn3]. apply wp_bind, wp_may_raise; cbn beta iota; [|done].
    eapply wp_mono; [|by apply wp_encoding_update].
    intros r w4 (-> & H4 & Hn4). split; [done|].
    unfold named in *. by rewrite Hn4.
Qed.

(** After encoding, removing the temporary scene succeeds and leaves the
    other scenes. *)
Lemma remove_video_scene_encoding vs rest w :
  only_named video_scene_name vs rest (data_scenes w) → rest ≠ [] →
  ∃ s o,
    remove_video_scene w = (Ok tt, with_scenes s o w) ∧ s :: o ≡ₚ rest.
Proof.
  intros Hv Hrest.
  destruct (remove_video_scene_spec w) as [(Hn & Ho & _)|(s & o & E & Hso)].
  - destruct Hv as (Hp & _). unfold data_scenes in Hp. rewrite Ho in Hp.
    apply Permutation_length in Hp. destruct rest; simplify_eq/=.
  - exists s, o. split; [done|]. rewrite Hso. by eapply only_named_remove.
Qed.

Lemma finish_spec rest r0 t0 folder user_filepath names w :
  encoding video_scene_name rest r0 (fs w) t0 w → rest ≠ [] →
  fs w !! folder = Some (Dir names) →
  wp (finish folder user_filepath)
     (λ r w',
        r = Ok FINISHED ∧ data_scenes w' ≡ₚ rest
        ∧ ((fs w' !! folder = None
            ∧ trace w' = t0 ++ [Report INFO "Temporary image folder deleted";
                                Report INFO ("Video completed: " +:+ user_filepath)])
           ∨ (∃ e, fs w' = fs w
                   ∧ trace w' = t0 ++ [Report WARNING ("Could not delete temp folder: " +:+ e);
                                       Report INFO ("Video completed: " +:+ user_filepath)]))) w.
Proof.
  intros (_ & Ht & vs & Hv & _) Hrest Hfolder. unfold finish, shutil_rmtree.
  apply wp_bind, wp_try. wp_step. rewrite Hfolder.
  destruct (fails OpRmtree w) as [e|].
  - wp_step. wp_step.
    set (w1 := with_trace _ w).
    destruct (remove_video_scene_encoding vs rest w1 Hv Hrest) as (s & o & E & Hso).
    step_with E. wp_step. wp_step.
    split; [done|]. split; [done|]. right. exists e. split; [done|].
    unfold w1. cbn [trace with_trace with_scenes]. by rewrite Ht, <- !app_assoc.
  - wp_step. wp_step. wp_step.
    set (w1 := with_trace _ _).
    destruct (remove_video_scene_encoding vs rest w1 Hv Hrest) as (s & o & E & Hso).
    step_with E. wp_step. wp_step.
    split; [done|]. split; [done|]. left. split.
    + unfold w1. cbn [fs with_fs with_trace with_scenes]. apply lookup_delete_eq.
    + unfold w1. cbn [trace with_trace with_fs with_scenes].
      by rewrite Ht, <- !app_assoc.
Qed.

(** Every outcome of a combiner run that gets past the checks. *)
Lemma execute_past_checks w names first rest :
  fs w !! folder_temp w = Some (Dir names) →
  png_images names = first :: rest →
  (count_named video_scene_name (data_scenes w) ≤ 1)%nat →
  let p := join (folder_temp w) first in
  let size := image_size (with_trace (trace w ++ [ImagesLoad p]) w) p in
  let t0 := trace w ++ [ImagesLoad p; ImagesRemove p] in
  let user_filepath := abspath (render_filepath (qp_props (scene w))) in
  wp execute
     (λ r w',
        (named video_scene_name (scene w) = true ∧ other_scenes w = []
         ∧ (∃ e, r = Raise e) ∧ w' = with_trace t0 w)
        ∨ (data_scenes w' ≡ₚ remove_named video_scene_name (data_scenes w)
           ∧ ∃ t' r0,
               rendered video_scene_name r0 t'
               ∧ resolution_x r0 = round_even size.1
               ∧ resolution_y r0 = round_even size.2
               ∧ ((∃ e, r = Ok CANCELLED ∧ fs w' = fs w
                        ∧ trace w' = t0 ++ t' ++ [Report ERROR ("Error creating video: " +:+ e)])
                  ∨ (r = Ok FINISHED ∧ t' ≠ []
                     ∧ ((fs w' !! folder_temp w = None
                         ∧ trace w' = t0 ++ t'
                             ++ [Report INFO "Temporary image folder deleted";
                                 Report INFO ("Video completed: " +:+ user_filepath)])
                        ∨ (∃ e, fs w' = fs w
                                ∧ trace w' = t0 ++ t'
                                    ++ [Report WARNING ("Could not delete temp folder: " +:+ e);
                                        Report INFO ("Video completed: " +:+ user_filepath)])))))) w.
Proof.
  intros Hfs Hpng Hcount p size t0 user_filepath. unfold execute.
  wp_step. rewrite (os_path_exists_true _ _ _ Hfs). cbn [negb].
  unfold os_listdir. wp_step. rewrite Hfs. wp_step. rewrite Hpng.
  wp_step. wp_step. fold p. cbn [trace with_trace].
  change (image_size _ p) with size. destruct size as [img_width img_height].
  wp_step. cbn [trace with_trace]. rewrite <- app_assoc. cbn [app]. fold t0.
  set (w2 := with_trace t0 _).
  apply wp_bind. eapply wp_mono; [|by apply create_video_scene_spec].
  intros r w3 [(Hn & Ho & (e & ->) & ->)|(s & o & vs & -> & -> & Hv & Hrest & Hx & Hy)];
    cbn beta iota; [left; eauto|].
  right. change (data_scenes w2) with (data_scenes w) in *.
  set (rest' := remove_named video_scene_name (data_scenes w)) in *.
  assert (encoding video_scene_name rest' (render vs) (fs w) t0 (with_scenes s o w2))
    as Henc by (split; [done|]; split; [done|]; by exists vs).
  apply wp_bind, wp_try. eapply wp_mono; [|by apply encode_spec].
  intros r w4 (t' & H4 & Ht' & Hok). destruct r as [[]|e]; cbn beta iota.
  - pose proof H4 as (Hf4 & Htr4 & vs4 & Hv4 & Hr4).
    eapply wp_mono; [|eapply (finish_spec rest'); [by rewrite Hf4| |]]; [|done|].
    + intros r w5 (-> & Hp & Hend). split; [done|].
      exists t', (render vs). split; [done|]. split; [done|]. split; [done|].
      right. split; [done|]. split; [by apply Hok|].
      rewrite Hf4 in Hend.
      destruct Hend as [[Hgone Htr]|(e & Hsame & Htr)]; [left|right; exists e];
        rewrite <- app_assoc in Htr; by split.
    + by rewrite Hf4.
  - pose proof H4 as (Hf4 & Htr4 & vs4 & Hv4 & Hr4).
    wp_step. set (w5 := with_trace _ w4).
    destruct (remove_video_scene_encoding vs4 rest' w5 Hv4 Hrest) as (s5 & o5 & E & Hso).
    step_with E. wp_step. split; [done|].
    exists t', (render vs). split; [done|]. split; [done|]. split; [done|].
    left. exists e. split; [done|]. split; [done|].
    unfold w5. cbn [trace with_trace with_scenes]. by rewrite Htr4, <- !app_assoc.
Qed.






(** One run leaves the scenes as they were, or removes the scene called
    "CombineVideoScene" from them. *)
Lemma execute_scenes w :
  (count_named video_scene_name (data_scenes w) ≤ 1)%nat →
  data_scenes (execute w).2 = data_scenes w
  ∨ data_scenes (execute w).2 ≡ₚ remove_named video_scene_name (data_scenes w).
Proof.
  intros Hcount.
  destruct (fs w !! folder_temp w) as [[|names]|] eqn:Hfs.
  - left. unfold execute, os_listdir. run.
    rewrite (os_path_exists_true _ _ _ Hfs). cbn [negb]. by rewrite Hfs.
  - destruct (png_images names) as [|first rest] eqn:Hpng.
    + left. unfold execute, os_listdir. run.
      rewrite (os_path_exists_true _ _ _ Hfs). cbn [negb]. by rewrite Hfs, Hpng.
    + pose proof (execute_past_checks w names first rest Hfs Hpng Hcount) as H.
      cbv zeta in H. unfold wp in H.
      destruct H as [(_ & _ & _ & ->)|(Hp & _)]; [by left|by right].
  - left. unfold execute. run.
    by rewrite (os_path_exists_false _ _ Hfs).
Qed.

(** C10. Starting with at most one scene called "CombineVideoScene", any
    number of combiner runs leaves at most one, and never more scenes than
    there were.  Whenever the combiner creates its temporary scene, a
    scene of that name left by an earlier run has been removed first: the
    new scene gets the name itself, and is the only one with it. *)
Theorem execute_keeps_one_video_scene (w : World) (n : nat) :
  (count_named video_scene_name (data_scenes w) ≤ 1)%nat →
  (count_named video_scene_name (data_scenes (repeat_execute n w)) ≤ 1)%nat
  ∧ (length (data_scenes (repeat_execute n w)) ≤ length (data_scenes w))%nat
  ∧ ∀ img_width img_height scene_fps n_images user_filepath,
      match create_video_scene img_width img_height scene_fps n_images
                               user_filepath w with
      | (Ok video_scene, w') =>
          video_scene = video_scene_name
          ∧ count_named video_scene_name (data_scenes w') = 1%nat
          ∧ (length (data_scenes w') ≤ S (length (data_scenes w)))%nat
      | (Raise _, w') => w' = w
      end.
Proof.
  intros Hcount.
  assert ((count_named video_scene_name (data_scenes (repeat_execute n w)) ≤ 1)%nat
          ∧ (length (data_scenes (repeat_execute n w)) ≤ length (data_scenes w))%nat)
    as [Hone Hlen].
  { induction n as [|n [IH1 IH2]]; [done|].
    change (repeat_execute (S n) w) with (execute (repeat_execute n w)).2.
    set (wn := repeat_execute n w) in *.
    destruct (execute_scenes wn IH1) as [E|Hp]; [by rewrite E|].
    rewrite (count_named_perm _ _ _ Hp), remove_named_count.
    rewrite (Permutation_length Hp).
    pose proof (remove_named_length video_scene_name (data_scenes wn)).
    lia. }
  split; [done|split; [done|]].
  - intros img_width img_height scene_fps n_images user_filepath.
    pose proof (create_video_scene_spec img_width img_height scene_fps n_images
                  user_filepath w Hcount) as H.
    unfold wp in H. destruct (create_video_scene _ _ _ _ _ w) as [r w'].
    cbn [fst snd] in H.
    destruct H as [(_ & _ & (e & ->) & ->)|(s & o & vs & -> & -> & (Hp & Hv & Hl) & _)];
      [done|].
    split; [done|]. unfold data_scenes at 1 2. cbn [scene other_scenes with_scenes].
    rewrite (count_named_perm _ _ _ Hp), (Permutation_length Hp).
    unfold count_named at 1. cbn [List.filter]. rewrite Hv. cbn [length].
    apply lacks_count in Hl. unfold count_named in Hl. rewrite Hl.
    pose proof (remove_named_length video_scene_name (data_scenes w)).
    split; [done|]. lia.
Qed.

End Facts.
Lemma execute_without_frames_witness :
  no_png_in (folder_temp (pathlib := Sample.paths) Sample.no_images_world)
            Sample.no_images_world = true
  ∧ ∃ msg w',
      execute (pathlib := Sample.paths) (host := Sample.quiet_host)
              Sample.no_images_world = (Ok CANCELLED, w')
      ∧ w' = with_trace (trace Sample.no_images_world ++ [Report ERROR msg])
                        Sample.no_images_world
      ∧ data_scenes w' = data_scenes Sample.no_images_world
      ∧ List.filter is_render (trace w')
        = List.filter is_render (trace Sample.no_images_world).
Proof.
  split; [reflexivity|].
  apply (execute_without_frames (pathlib := Sample.paths) (host := Sample.quiet_host)
           Sample.no_images_world).
  reflexivity.
Defined.



Lemma execute_keeps_one_video_scene_witness :
  (count_named video_scene_name
     (data_scenes (repeat_execute (pathlib := Sample.paths) (host := Sample.quiet_host)
                                  2 Sample.leftover_world)) ≤ 1)%nat
  ∧ (length (data_scenes (repeat_execute (pathlib := Sample.paths)
                                         (host := Sample.quiet_host)
                                         2 Sample.leftover_world))
     ≤ length (data_scenes Sample.leftover_world))%nat
  ∧ ∀ img_width img_height scene_fps n_images user_filepath,
      match create_video_scene img_width img_height scene_fps n_images
                               user_filepath Sample.leftover_world with
      | (Ok video_scene, w') =>
          video_scene = video_scene_name
          ∧ count_named video_scene_name (data_scenes w') = 1%nat
          ∧ (length (data_scenes w') ≤ S (length (data_scenes Sample.leftover_world)))%nat
      | (Raise _, w') => w' = Sample.leftover_world
      end.
Proof.
  apply (execute_keeps_one_video_scene (pathlib := Sample.paths)
           (host := Sample.quiet_host) Sample.leftover_world 2).
  vm_compute. lia.
Defined.

(** The three ways a run past the checks ends, on the sample project. *)
Example execute_success :
  let r := execute (pathlib := Sample.paths) (host := Sample.quiet_host)
                   (Sample.world 1 5 true) in
  r.1 = Ok FINISHED
  ∧ scene_name <$> data_scenes r.2 = ["Scene"]
  ∧ fs r.2 !! "/home/user/quadview_render_temp" = None.
Proof. vm_compute. done. Qed.

Example execute_encoder_failure :
  let r := execute (pathlib := Sample.paths) (host := Sample.broken_encoder_host)
                   Sample.leftover_world in
  r.1 = Ok CANCELLED
  ∧ scene_name <$> data_scenes r.2 = ["Scene"]
  ∧ List.filter is_render (trace r.2) = []
  ∧ last (trace r.2) = Some (Report ERROR "Error creating video: encoder failure").
Proof. vm_compute. done. Qed.

Example execute_rmtree_failure :
  let r := execute (pathlib := Sample.paths) (host := Sample.readonly_host)
                   (Sample.world 1 5 true) in
  r.1 = Ok FINISHED
  ∧ scene_name <$> data_scenes r.2 = ["Scene"]
  ∧ is_Some (fs r.2 !! "/home/user/quadview_render_temp")
  ∧ In (Report WARNING "Could not delete temp folder: permission denied")
       (trace r.2).
Proof. vm_compute. repeat split; [by eexists|auto 10]. Qed.

End CombineFacts.

(** ** The animation capture *)

Section NoScreenshot.
Context {pathlib : PathLib} {host : Host}.

Lemma screenshots_app t1 t2 :
  screenshots (t1 ++ t2) = screenshots t1 ++ screenshots t2.
Proof.
  induction t1 as [|c t1 IH]; [done|]. destruct c; simpl; by rewrite ?IH.
Qed.

Lemma quiet_ret {A} (a : A) : takes_no_screenshot (ret a).
Proof. done. Qed.

Lemma quiet_raise {A} e : takes_no_screenshot (raise (A := A) e).
Proof. done. Qed.

Lemma quiet_get : takes_no_screenshot get.
Proof. done. Qed.

Lemma quiet_modify f :
  (∀ w, trace (f w) = trace w) → takes_no_screenshot (modify f).
Proof. intros H w. simpl. by rewrite H. Qed.

Lemma quiet_call c : screenshots [c] = [] → takes_no_screenshot (call c).
Proof. intros H w. simpl. by rewrite screenshots_app, H, app_nil_r. Qed.

Lemma quiet_bind {A B} (m : M A) (k : A → M B) :
  takes_no_screenshot m → (∀ a, takes_no_screenshot (k a)) →
  takes_no_screenshot (bind m k).
Proof.
  intros Hm Hk w. unfold bind. specialize (Hm w).
  destruct (m w) as [[a|e] w1]; simpl in *; [|done]. by rewrite Hk.
Qed.

Lemma quiet_try {A} (m : M A) :
  takes_no_screenshot m → takes_no_screenshot (try_ m).
Proof.
  intros Hm w. unfold try_. specialize (Hm w). by destruct (m w) as [[a|e] w1].
Qed.

Lemma quiet_for_each {A} (l : list A) body :
  (∀ x, takes_no_screenshot (body x)) → takes_no_screenshot (for_each l body).
Proof.
  intros H. induction l as [|x l IH]; simpl; [apply quiet_ret|].
  apply quiet_bind; auto.
Qed.

End NoScreenshot.

Create HintDb quiet discriminated.

(** Reduces a claim that a computation takes no screenshot to its
    commands; the commands proved quiet before are in the hint database. *)
Ltac quiet_step :=
  lazymatch goal with
  | |- takes_no_screenshot (bind _ _) => apply quiet_bind; [|intros ?]
  | |- takes_no_screenshot (ret _) => apply quiet_ret
  | |- takes_no_screenshot (raise _) => apply quiet_raise
  | |- takes_no_screenshot get => apply quiet_get
  | |- takes_no_screenshot (call _) => apply quiet_call; reflexivity
  | |- takes_no_screenshot (report _ _) => apply quiet_call; reflexivity
  | |- takes_no_screenshot (modify _) =>
      apply quiet_modify; intros ?; simpl; repeat case_match; reflexivity
  | |- takes_no_screenshot (try_ _) => apply quiet_try
  | |- takes_no_screenshot (for_each _ _) => apply quiet_for_each; intros ?
  | |- takes_no_screenshot (match ?x with _ => _ end) => destruct x
  | |- _ => solve [auto with quiet]
  end.

Ltac quiet := repeat quiet_step.

Section QuietCommands.
Context {pathlib : PathLib} {host : Host}.

Lemma quiet_may_raise op : takes_no_screenshot (may_raise op).
Proof. unfold may_raise. quiet. Qed.

Lemma quiet_os_listdir p : takes_no_screenshot (os_listdir p).
Proof. unfold os_listdir. quiet. Qed.

Lemma quiet_shutil_rmtree p : takes_no_screenshot (shutil_rmtree p).
Proof. unfold shutil_rmtree. quiet. Qed.

Lemma quiet_scenes_remove name : takes_no_screenshot (scenes_remove name).
Proof. unfold scenes_remove. quiet. Qed.

Lemma quiet_scenes_new name : takes_no_screenshot (scenes_new name).
Proof. unfold scenes_new. quiet. Qed.

Lemma quiet_update_scene name f : takes_no_screenshot (update_scene name f).
Proof. unfold update_scene. quiet. Qed.

Lemma quiet_set_window_scene name : takes_no_screenshot (set_window_scene name).
Proof. unfold set_window_scene. quiet. Qed.

Lemma quiet_update_space i f : takes_no_screenshot (update_space i f).
Proof. unfold update_space. quiet. Qed.

Lemma quiet_update_space_data f : takes_no_screenshot (update_space_data f).
Proof. unfold update_space_data. quiet. Qed.

End QuietCommands.

#[export] Hint Resolve quiet_may_raise quiet_os_listdir quiet_shutil_rmtree
  quiet_scenes_remove quiet_scenes_new quiet_update_scene
  quiet_set_window_scene quiet_update_space quiet_update_space_data : quiet.

Section QuietCombiner.
Context {pathlib : PathLib} {host : Host}.
Import QP_OT_combine_images_to_video.

Lemma quiet_remove_video_scene : takes_no_screenshot remove_video_scene.
Proof. unfold remove_video_scene. quiet. Qed.

Lemma quiet_create_video_scene img_width img_height scene_fps n user_filepath :
  takes_no_screenshot
    (create_video_scene img_width img_height scene_fps n user_filepath).
Proof.
  pose proof quiet_remove_video_scene. unfold create_video_scene. quiet.
Qed.

Lemma quiet_encode video_scene first_image_path rest :
  takes_no_screenshot (encode video_scene first_image_path rest).
Proof. unfold encode, fallible. quiet. Qed.

Lemma quiet_finish folder_temp user_filepath :
  takes_no_screenshot (finish folder_temp user_filepath).
Proof. pose proof quiet_remove_video_scene. unfold finish. quiet. Qed.

(** The combiner takes no screenshot. *)
Lemma quiet_execute : takes_no_screenshot execute.
Proof.
  pose proof quiet_remove_video_scene. pose proof quiet_create_video_scene.
  pose proof quiet_encode. pose proof quiet_finish.
  unfold execute. quiet.
Qed.

End QuietCombiner.

Module AnimFacts.
Import QP_OT_screenshot_quadview_anim.

(** *** File names *)

Lemma append_cons c s t : String c s +:+ t = String c (s +:+ t).
Proof. done. Qed.

Lemma append_nil t : "" +:+ t = t.
Proof. done. Qed.

Lemma uint_of_string_zeros k s d :
  NilEmpty.uint_of_string s = Some d →
  ∃ d', NilEmpty.uint_of_string (Py.repeat_char "0"%char k +:+ s) = Some d'
        ∧ N.of_uint d' = N.of_uint d.
Proof.
  intros H. induction k as [|k (d' & E & Hd')]; simpl; [eauto|].
  rewrite E. simpl. eauto.
Qed.

(** The digits written by [format] denote the number. *)
Lemma decimal_value_format_0d width n :
  decimal_value (Py.format_0d width n) = Some n.
Proof.
  unfold Py.format_0d.
  set (digits := NilEmpty.string_of_uint (N.to_uint (Z.abs_N n))).
  assert (NilEmpty.uint_of_string digits = Some (N.to_uint (Z.abs_N n))) as Hd
    by apply NilEmpty.usu.
  destruct (Z.ltb_spec n 0) as [Hneg|Hpos];
    set (k := (width - _ - String.length digits)%nat); clearbody k digits;
    destruct (uint_of_string_zeros k _ _ Hd) as (d' & E & Hd');
    unfold decimal_value; rewrite ?append_cons, ?append_nil;
    cbn [NilEmpty.uint_of_string]; rewrite E.
  - cbn. rewrite Hd', DecimalN.Unsigned.of_to. f_equal. lia.
  - rewrite Hd', DecimalN.Unsigned.of_to. f_equal. lia.
Qed.

Lemma format_04d_inj n m : Py.format_04d n = Py.format_04d m → n = m.
Proof.
  intros E. apply (f_equal decimal_value) in E.
  unfold Py.format_04d in E. rewrite !decimal_value_format_0d in E. congruence.
Qed.

(** Frame numbers from 0 to 9999 are written with exactly four digits. *)
Lemma format_04d_length n :
  0 ≤ n ≤ 9999 → String.length (Py.format_04d n) = 4%nat.
Proof.
  intros Hn.
  assert (forallb (λ n, Nat.eqb (String.length (Py.format_04d n)) 4) (seqZ 0 10000)
          = true) as H by (vm_compute; reflexivity).
  rewrite forallb_forall in H. apply Nat.eqb_eq, H, list_elem_of_In, elem_of_seqZ. lia.
Qed.

Lemma length_app_string s t :
  String.length (s +:+ t) = (String.length s + String.length t)%nat.
Proof.
  induction s as [|c s IH]; [done|]. rewrite append_cons. simpl. by rewrite IH.
Qed.

Lemma substring_app_string s t :
  String.substring 0 (String.length s) (s +:+ t) = s.
Proof.
  induction s as [|c s IH]; [by destruct t|]. rewrite append_cons. simpl.
  by rewrite IH.
Qed.

(** The file name of a frame stands for its number. *)
Lemma frame_number_filename n : frame_number (frame_filename n) = Some n.
Proof.
  unfold frame_number, frame_filename.
  rewrite !length_app_string. cbn [String.length].
  replace (15 + (String.length (Py.format_04d n) + 4) - 19)%nat
    with (String.length (Py.format_04d n)) by lia.
  rewrite !append_cons, append_nil. cbn [String.substring].
  rewrite substring_app_string. apply decimal_value_format_0d.
Qed.

Lemma frame_filename_inj n m : frame_filename n = frame_filename m → n = m.
Proof.
  intros E. apply (f_equal frame_number) in E.
  rewrite !frame_number_filename in E. congruence.
Qed.

(** *** The capture loop *)

Section Facts.
Context {pathlib : PathLib} {host : Host}.

Lemma stopped_bind {A S} (m : M A) (k : A → M (S * Status)) w :
  (∀ a w', stopped (k a w').1) → stopped (bind m k w).1.
Proof. intros Hk. unfold bind. destruct (m w) as [[a|e] w']; [apply Hk|done]. Qed.

(** Once every frame is captured, [modal] stops: it answers [FINISHED],
    or the combiner made it raise. *)
Lemma complete_stopped self w : stopped (complete self w).1.
Proof.
  unfold complete. destruct (_view3d_area self); [|done].
  repeat (apply stopped_bind; intros ? ?). done.
Qed.

Lemma quiet_complete self : takes_no_screenshot (complete self).
Proof.
  pose proof quiet_execute.
  unfold complete, combine_images_to_video. quiet.
Qed.

Lemma capture_spec self w a r :
  _view3d_area self = Some a → _region_window self = Some r →
  ∃ w',
    capture self w
    = (Ok (with_frame_current (_frame_current self + 1) self, RUNNING_MODAL), w')
    ∧ screenshots (trace w')
      = screenshots (trace w)
        ++ [join (_folder_path self) (frame_filename (_frame_current self))].
Proof.
  intros Ha Hr. unfold capture, frame_set, screenshot_area, write_file.
  rewrite Ha, Hr. run. eexists. split; [reflexivity|].
  cbn [trace with_trace with_fs with_scenes]. by rewrite !screenshots_app, app_nil_r.
Qed.

Lemma modal_timer self :
  modal self TIMER
  = if 0 <? _wait_frames self
    then ret (with_wait_frames (_wait_frames self - 1) self, RUNNING_MODAL)
    else if _frame_end self <? _frame_current self then complete self
         else capture self.
Proof. done. Qed.

Lemma modal_other self name :
  modal self (OTHER_EVENT name) = ret (self, RUNNING_MODAL).
Proof. done. Qed.

(** With enough timer ticks the capture loop stops, having taken one
    screenshot for each frame from the current one to the last. *)
Lemma run_modal_captures events :
  ∀ self w a r,
    _view3d_area self = Some a → _region_window self = Some r →
    (Z.to_nat (_wait_frames self)
     + Z.to_nat (_frame_end self + 1 - _frame_current self) + 1 ≤ ticks events)%nat →
    stopped (run_modal modal self events w).1
    ∧ screenshots (trace (run_modal modal self events w).2)
      = screenshots (trace w)
        ++ ((λ f, join (_folder_path self) (frame_filename f))
            <$> seqZ (_frame_current self) (_frame_end self + 1 - _frame_current self)).
Proof.
  induction events as [|e events IH]; intros self w a r Ha Hr Hticks.
  { unfold ticks in Hticks. simpl in Hticks. lia. }
  destruct e as [|name]; cbn [run_modal]; unfold bind;
    [rewrite modal_timer|rewrite modal_other].
  - unfold ticks in Hticks. cbn [List.filter is_timer length] in Hticks.
    fold (ticks events) in Hticks.
    destruct (Z.ltb_spec 0 (_wait_frames self)) as [Hwait|Hwait].
    + cbn [ret snd fst].
      apply (IH (with_wait_frames (_wait_frames self - 1) self) w a r); [done..|].
      cbn [_wait_frames _frame_end _frame_current with_wait_frames]. lia.
    + destruct (Z.ltb_spec (_frame_end self) (_frame_current self)) as [Hend|Hend].
      * pose proof (complete_stopped self w) as Hstop.
        pose proof (quiet_complete self w) as Hquiet.
        destruct (complete self w) as [[[self' [| |]]|e] w']; cbn [fst snd] in *;
          try done; rewrite seqZ_nil by lia; by rewrite app_nil_r.
      * destruct (capture_spec self w a r Ha Hr) as (w' & -> & Hshot).
        cbn [snd fst].
        destruct (IH (with_frame_current (_frame_current self + 1) self) w' a r)
          as [Hstop Hall]; [done..| |].
        { cbn [_wait_frames _frame_end _frame_current with_frame_current]. lia. }
        split; [done|]. rewrite Hall, Hshot.
        cbn [_folder_path _frame_end _frame_current with_frame_current].
        rewrite (seqZ_cons (_frame_current self)) by lia. rewrite fmap_cons.
        rewrite <- app_assoc. cbn [app]. do 4 f_equal; lia.
  - cbn [ret snd fst]. apply (IH self w a r); [done..|].
    unfold ticks in *. by cbn [List.filter is_timer] in Hticks.
Qed.

(** What a request that answers [RUNNING_MODAL] has recorded. *)
Lemma execute_running w self w1 :
  execute init w = (Ok (self, RUNNING_MODAL), w1) →
  (∃ a r, _view3d_area self = Some a ∧ _region_window self = Some r)
  ∧ _wait_frames self = 2
  ∧ _frame_current self = frame_start (scene w)
  ∧ _frame_end self = frame_end (scene w)
  ∧ _folder_path self = QP_OT_combine_images_to_video.folder_temp w
  ∧ screenshots (trace w1) = screenshots (trace w).
Proof.
  destruct w as [f sc os ar ca tr].
  unfold execute, frame_set. run_fields.
  destruct (QP_OT_screenshot_quadview.first_view3d ar 0) as [a|]; simpl;
    [|discriminate].
  destruct (ar !! a) as [area|]; [|discriminate].
  destruct (first_window (regions area) 0) as [r|]; [|discriminate].
  unfold os_makedirs, update_space, update_space_data. run_fields.
  destruct (f !! _) as [[|entries]|]; [discriminate| |];
    (destruct ca as [c|]; intros [= <- <-]; cbn;
     rewrite ?screenshots_app, ?app_nil_r; eauto 10).
Qed.

(** C2. For a frame range [first .. last] with [first <= last], once the
    capture was requested and enough timer ticks have come (two to settle,
    one for each frame, one to finish), the sequencer has stopped and has
    taken exactly [last - first + 1] screenshots, one for each frame in
    order, each saved in the temp directory under the name
    [quadview_frame_NNNN.png], where [NNNN] is the frame number padded
    with zeros to four digits.  The names are pairwise different. *)
Theorem modal_captures_every_frame (w : World) self w1 events :
  execute init w = (Ok (self, RUNNING_MODAL), w1) →
  frame_start (scene w) ≤ frame_end (scene w) →
  (Z.to_nat (frame_end (scene w) - frame_start (scene w) + 1) + 3 ≤ ticks events)%nat →
  let first := frame_start (scene w) in
  let last := frame_end (scene w) in
  let frames := seqZ first (last - first + 1) in
  let folder := QP_OT_combine_images_to_video.folder_temp w in
  stopped (run_modal modal self events w1).1
  ∧ screenshots (trace (run_modal modal self events w1).2)
    = screenshots (trace w) ++ ((λ f, join folder (frame_filename f)) <$> frames)
  ∧ Z.of_nat (length frames) = last - first + 1
  ∧ NoDup (frame_filename <$> frames)
  ∧ (∀ f, f ∈ frames →
          first ≤ f ≤ last
          ∧ frame_filename f = "quadview_frame_" +:+ Py.format_04d f +:+ ".png"
          ∧ decimal_value (Py.format_04d f) = Some f
          ∧ (0 ≤ f ≤ 9999 → String.length (Py.format_04d f) = 4%nat))
  ∧ ((∀ a b, join folder a = join folder b → a = b) →
     NoDup ((λ f, join folder (frame_filename f)) <$> frames)).
Proof.
  intros Hreq Hrange Hticks first last frames folder.
  apply execute_running in Hreq
    as ((a & r & Ha & Hr) & Hwait & Hcur & Hend & Hfolder & Hquiet).
  destruct (run_modal_captures events self w1 a r Ha Hr) as [Hstop Hshots].
  { rewrite Hwait, Hcur, Hend. fold first last.
    replace (last + 1 - first) with (last - first + 1) by lia. lia. }
  assert (NoDup (frame_filename <$> frames)) as Hnames.
  { apply NoDup_fmap_2_strong; [|apply NoDup_seqZ].
    intros n m _ _. apply frame_filename_inj. }
  split; [done|]. split; [|split; [|split; [done|split]]].
  - rewrite Hshots, Hquiet, Hcur, Hend, Hfolder. fold first last folder.
    by replace (last + 1 - first) with (last - first + 1) by lia.
  - unfold frames. rewrite length_seqZ. lia.
  - intros f Hf. apply elem_of_seqZ in Hf. split; [lia|]. split; [done|].
    split; [apply decimal_value_format_0d|apply format_04d_length].
  - intros Hjoin. apply NoDup_fmap_2_strong; [|apply NoDup_seqZ].
    intros x y _ _ E. by apply frame_filename_inj, Hjoin.
Qed.

End Facts.

Lemma modal_captures_every_frame_witness :
  let w := Sample.fresh_world 1 5 in
  let result :=
    run_modal (modal (pathlib := Sample.paths) (host := Sample.quiet_host))
              Sample.anim_requested.1 Sample.anim_events Sample.anim_requested.2 in
  let first := frame_start (scene w) in
  let last := frame_end (scene w) in
  let frames := seqZ first (last - first + 1) in
  let folder := QP_OT_combine_images_to_video.folder_temp (pathlib := Sample.paths) w in
  stopped result.1
  ∧ screenshots (trace result.2)
    = screenshots (trace w)
      ++ ((λ f, join (PathLib := Sample.paths) folder (frame_filename f)) <$> frames)
  ∧ Z.of_nat (length frames) = last - first + 1
  ∧ NoDup (frame_filename <$> frames)
  ∧ (∀ f, f ∈ frames →
          first ≤ f ≤ last
          ∧ frame_filename f = "quadview_frame_" +:+ Py.format_04d f +:+ ".png"
          ∧ decimal_value (Py.format_04d f) = Some f
          ∧ (0 ≤ f ≤ 9999 → String.length (Py.format_04d f) = 4%nat))
  ∧ ((∀ a b, join (PathLib := Sample.paths) folder a
             = join (PathLib := Sample.paths) folder b → a = b) →
     NoDup ((λ f, join (PathLib := Sample.paths) folder (frame_filename f)) <$> frames)).
Proof.
  apply (modal_captures_every_frame (pathlib := Sample.paths) (host := Sample.quiet_host)
           (Sample.fresh_world 1 5) Sample.anim_requested.1 Sample.anim_requested.2
           Sample.anim_events).
  - vm_compute. reflexivity.
  - simpl. lia.
  - vm_compute. lia.
Defined.

(** The frame range [1 .. 5] gives the five files [quadview_frame_0001.png]
    to [quadview_frame_0005.png]. *)
Example modal_captures_frames_1_to_5 :
  screenshots
    (trace (run_modal (modal (pathlib := Sample.paths) (host := Sample.quiet_host))
                      Sample.anim_requested.1 Sample.anim_events
                      Sample.anim_requested.2).2)
  = ["/home/user/quadview_render_temp/quadview_frame_0001.png";
     "/home/user/quadview_render_temp/quadview_frame_0002.png";
     "/home/user/quadview_render_temp/quadview_frame_0003.png";
     "/home/user/quadview_render_temp/quadview_frame_0004.png";
     "/home/user/quadview_render_temp/quadview_frame_0005.png"].
Proof. vm_compute. reflexivity. Qed.

(** Past frame 9999 the number takes more than four digits, and a
    negative number has its sign before the zeros. *)
Example frame_filename_wide :
  frame_filename 12345 = "quadview_frame_12345.png"
  ∧ frame_filename (-5) = "quadview_frame_-005.png".
Proof. split; reflexivity. Qed.

End AnimFacts.
(** * Further properties *)

(** ** More on the layout toggle *)

Module SwitchLayoutMore.
Import QP_OT_switch_layout.
Section Facts.
Context {pathlib : PathLib} {host : Host}.

Lemma first_window_some rs i r :
  first_window rs i = Some r →
  (i ≤ r)%nat
  ∧ (∃ reg, rs !! (r - i)%nat = Some reg ∧ region_type reg = "WINDOW")
  ∧ ∀ r' reg', (r' < r - i)%nat → rs !! r' = Some reg' →
               region_type reg' ≠ "WINDOW".
Proof.
  revert i. induction rs as [|reg rs IH]; intros i; simpl; [discriminate|].
  destruct (String.eqb_spec (region_type reg) "WINDOW") as [E|E].
  - intros [= ->]. split; [lia|]. rewrite Nat.sub_diag. split; [eauto|].
    intros r' reg' Hlt. lia.
  - intros (Hle & (reg0 & Hreg & Hty) & Hmin)%IH. split; [lia|].
    replace (r - i)%nat with (S (r - S i)) by lia. split; [eauto|].
    intros [|r'] reg' Hlt; simpl; [by intros [= <-]|].
    apply Hmin. lia.
Qed.

Lemma find_view3d_some l i a r :
  find_view3d l i = Some (a, r) →
  (i ≤ a)%nat
  ∧ (∃ area, l !! (a - i)%nat = Some area ∧ area_type area = "VIEW_3D"
             ∧ first_window (regions area) 0 = Some r)
  ∧ ∀ a' area', (a' < a - i)%nat → l !! a' = Some area' →
                has_viewport_window [area'] = false.
Proof.
  revert i. induction l as [|area l IH]; intros i; simpl; [discriminate|].
  assert (find_view3d l (S i) = Some (a, r) →
    (i ≤ a)%nat
    ∧ (∃ area0, (area :: l) !! (a - i)%nat = Some area0
                ∧ area_type area0 = "VIEW_3D"
                ∧ first_window (regions area0) 0 = Some r)
    ∧ ∀ a' area', (S a' < a - i)%nat → l !! a' = Some area' →
                  has_viewport_window [area'] = false) as Hnext.
  { intros (Hle & (area0 & Ha & Hty & Hw) & Hmin)%IH. split; [lia|].
    replace (a - i)%nat with (S (a - S i)) by lia. split; [eauto|].
    intros a' area' Hlt. apply Hmin. lia. }
  destruct (String.eqb_spec (area_type area) "VIEW_3D") as [E|E].
  - destruct (first_window (regions area) 0) as [r0|] eqn:Hw.
    + intros [= -> ->]. split; [lia|]. rewrite Nat.sub_diag.
      split; [eauto|]. intros a' area' Hlt. lia.
    + intros (Hle & Hfound & Hmin)%Hnext. split; [done|]. split; [done|].
      intros [|a'] area' Hlt; simpl; [|apply Hmin; lia].
      intros [= <-]. simpl. rewrite orb_false_r. apply andb_false_iff. right.
      by apply SwitchLayoutFacts.first_window_none in Hw.
  - intros (Hle & Hfound & Hmin)%Hnext. split; [done|]. split; [done|].
    intros [|a'] area' Hlt; simpl; [|apply Hmin; lia].
    intros [= <-]. simpl. rewrite orb_false_r. apply andb_false_iff. left.
    by apply String.eqb_neq.
Qed.

(** X1. The area and region the toggle acts on are the first 3D viewport
    of the screen that has a window region, and the first window region
    of that area: earlier areas are no 3D viewports or have no window
    region, earlier regions of the area are no window regions. *)
Theorem find_view3d_first (l : list Area) (a r : nat) :
  find_view3d l 0 = Some (a, r) →
  ∃ area reg,
    l !! a = Some area ∧ area_type area = "VIEW_3D"
    ∧ regions area !! r = Some reg ∧ region_type reg = "WINDOW"
    ∧ (∀ r' reg', (r' < r)%nat → regions area !! r' = Some reg' →
                  region_type reg' ≠ "WINDOW")
    ∧ (∀ a' area', (a' < a)%nat → l !! a' = Some area' →
                   has_viewport_window [area'] = false).
Proof.
  intros (_ & (area & Ha & Hty & Hw) & Hmin)%find_view3d_some.
  rewrite Nat.sub_0_r in *.
  apply first_window_some in Hw as (_ & (reg & Hr & Hreg) & Hrmin).
  rewrite Nat.sub_0_r in *. exists area, reg. eauto 10.
Qed.

(** X2. The toggle never raises.  It answers [FINISHED] exactly when the
    screen has a 3D viewport with a window region and the host's
    quad-view command does not fail.  When the command fails, the toggle
    answers [CANCELLED], reports the failure, and changes nothing else:
    the stored flag keeps its value. *)
Theorem execute_outcome (w : World) :
  ((execute w).1 = Ok FINISHED ∨ (execute w).1 = Ok CANCELLED)
  ∧ ((execute w).1 = Ok FINISHED ↔
     has_viewport_window (areas w) = true ∧ fails OpRegionQuadview w = None)
  ∧ ∀ e, has_viewport_window (areas w) = true →
         fails OpRegionQuadview w = Some e →
         execute w
         = (Ok CANCELLED, with_trace (trace w ++ [Report ERROR ("Error: " +:+ e)]) w).
Proof.
  pose proof (SwitchLayoutFacts.find_view3d_none (areas w) 0) as Hnone.
  unfold execute. run.
  destruct (find_view3d (areas w) 0) as [[a r]|].
  - assert (has_viewport_window (areas w) = true) as Hv.
    { destruct (has_viewport_window (areas w)); [done|].
      by pose proof (proj2 Hnone eq_refl). }
    destruct (fails OpRegionQuadview w) as [e|]; simpl.
    + split; [by right|]. split; [split; [done|by intros [_ ?]]|].
      by intros e' _ [= ->].
    + destruct (negb _); simpl; (split; [by left|]); (split; [done|]); done.
  - assert (has_viewport_window (areas w) = false) as Hv by by apply Hnone.
    simpl. split; [by right|]. rewrite Hv. split; [split; [done|by intros [? _]]|done].
Qed.

(** X3. A toggle that answers [FINISHED] has called the quad-view command
    once, on the viewport found, and has changed only the flag; its report
    says "Quad View enabled" exactly when the flag is now set. *)
Theorem execute_finished_report (w w1 : World) :
  execute w = (Ok FINISHED, w1) →
  ∃ a r,
    find_view3d (areas w) 0 = Some (a, r)
    ∧ w1 = with_trace
             (trace w ++ [RegionQuadview a r;
                          Report INFO (if is_quad_active (qp_props (scene w1))
                                       then "Quad View enabled"
                                       else "Returned to original layout")])
             (toggle_quad_active w)
    ∧ render_filepath (qp_props (scene w1)) = render_filepath (qp_props (scene w))
    ∧ areas w1 = areas w ∧ fs w1 = fs w ∧ other_scenes w1 = other_scenes w.
Proof.
  unfold execute. run.
  destruct (find_view3d (areas w) 0) as [[a r]|]; [|discriminate].
  destruct (fails OpRegionQuadview w) as [e|]; [discriminate|]. simpl.
  destruct (negb (is_quad_active (qp_props (scene w)))) eqn:E; intros [= <-];
    exists a, r; simpl; rewrite E, <- app_assoc; done.
Qed.

End Facts.

Lemma find_view3d_first_witness :
  ∃ area reg,
    areas MoreSamples.two_viewports_world !! 2%nat = Some area
    ∧ area_type area = "VIEW_3D"
    ∧ regions area !! 1%nat = Some reg ∧ region_type reg = "WINDOW"
    ∧ (∀ r' reg', (r' < 1)%nat → regions area !! r' = Some reg' →
                  region_type reg' ≠ "WINDOW")
    ∧ (∀ a' area', (a' < 2)%nat →
                   areas MoreSamples.two_viewports_world !! a' = Some area' →
                   has_viewport_window [area'] = false).
Proof.
  apply (find_view3d_first (areas MoreSamples.two_viewports_world) 2 1).
  reflexivity.
Defined.

Lemma execute_finished_report_witness :
  ∃ a r,
    find_view3d (areas (Sample.world 1 5 true)) 0 = Some (a, r)
    ∧ Sample.toggled_once
      = with_trace
          (trace (Sample.world 1 5 true)
           ++ [RegionQuadview a r;
               Report INFO (if is_quad_active (qp_props (scene Sample.toggled_once))
                            then "Quad View enabled"
                            else "Returned to original layout")])
          (toggle_quad_active (Sample.world 1 5 true))
    ∧ render_filepath (qp_props (scene Sample.toggled_once))
      = render_filepath (qp_props (scene (Sample.world 1 5 true)))
    ∧ areas Sample.toggled_once = areas (Sample.world 1 5 true)
    ∧ fs Sample.toggled_once = fs (Sample.world 1 5 true)
    ∧ other_scenes Sample.toggled_once = other_scenes (Sample.world 1 5 true).
Proof.
  apply (execute_finished_report (host := Sample.quiet_host)
           (Sample.world 1 5 true) Sample.toggled_once).
  reflexivity.
Defined.

Lemma execute_outcome_witness :
  execute (host := MoreSamples.no_quadview_host) (Sample.world 1 5 true)
  = (Ok CANCELLED,
     with_trace (trace (Sample.world 1 5 true)
                 ++ [Report ERROR ("Error: " +:+ "context is incorrect")])
                (Sample.world 1 5 true)).
Proof.
  apply (proj2 (proj2 (execute_outcome (host := MoreSamples.no_quadview_host)
                         (Sample.world 1 5 true))) "context is incorrect");
    reflexivity.
Defined.

End SwitchLayoutMore.

(** ** More on opening the render folder *)

Module OpenRenderFolderMore.
Import QP_OT_open_render_folder.
Section Facts.
Context {pathlib : PathLib} {host : Host}.


End Facts.



End OpenRenderFolderMore.

(** ** More on the capture requests *)

Section Viewports.

Lemma first_view3d_find l i :
  match QP_OT_screenshot_quadview.first_view3d l i with
  | Some a =>
      (i ≤ a)%nat
      ∧ ∃ area, l !! (a - i)%nat = Some area
                ∧ List.find (λ a, String.eqb (area_type a) "VIEW_3D") l = Some area
  | None => List.find (λ a, String.eqb (area_type a) "VIEW_3D") l = None
  end.
Proof.
  revert i. induction l as [|area l IH]; intros i; simpl; [done|].
  destruct (String.eqb (area_type area) "VIEW_3D").
  - split; [lia|]. rewrite Nat.sub_diag. eauto.
  - specialize (IH (S i)).
    destruct (QP_OT_screenshot_quadview.first_view3d l (S i)) as [a|]; [|done].
    destruct IH as (Hle & area0 & Ha & Hfind). split; [lia|].
    replace (a - i)%nat with (S (a - S i)) by lia. eauto.
Qed.

Lemma has_view3d_find l :
  has_view3d l
  = bool_decide (is_Some (List.find (λ a, String.eqb (area_type a) "VIEW_3D") l)).
Proof.
  unfold has_view3d. induction l as [|area l IH]; cbn [existsb List.find].
  - symmetry. apply bool_decide_eq_false_2. by intros [? ?].
  - destruct (String.eqb (area_type area) "VIEW_3D"); cbn [orb]; [|done].
    symmetry. by apply bool_decide_eq_true_2.
Qed.

(** What the capture operators find on the screen, in terms of the
    screen: nothing without a 3D viewport, else the position of the first
    one, which may lack a window region. *)
Lemma first_view3d_cases l :
  match QP_OT_screenshot_quadview.first_view3d l 0 with
  | Some a =>
      has_view3d l = true
      ∧ ∃ area, l !! a = Some area
                ∧ first_view3d_has_window l
                  = bool_decide (is_Some (first_window (regions area) 0))
  | None => has_view3d l = false ∧ first_view3d_has_window l = false
  end.
Proof.
  pose proof (first_view3d_find l 0) as H. rewrite has_view3d_find.
  unfold first_view3d_has_window.
  destruct (QP_OT_screenshot_quadview.first_view3d l 0) as [a|].
  - destruct H as (_ & area & Ha & ->). rewrite Nat.sub_0_r in Ha.
    split; [by apply bool_decide_eq_true_2|]. exists area. split; [done|].
    pose proof (SwitchLayoutFacts.first_window_none (regions area) 0) as Hw.
    destruct (first_window (regions area) 0) as [r|].
    + destruct (existsb _ (regions area)).
      * symmetry. by apply bool_decide_eq_true_2.
      * by pose proof (proj2 Hw eq_refl).
    + rewrite (proj1 Hw eq_refl). symmetry. apply bool_decide_eq_false.
      by intros [? ?].
  - rewrite H. split; [|done]. apply bool_decide_eq_false_2. by intros [? ?].
Qed.

Lemma substring_app_tail s t :
  String.substring (String.length s) (String.length t) (s +:+ t) = t.
Proof.
  induction s as [|c s IH].
  - rewrite AnimFacts.append_nil. cbn [String.length]. induction t as [|c t IHt]; simpl; [done|].
    by rewrite IHt.
  - rewrite AnimFacts.append_cons. simpl. apply IH.
Qed.

(** A name that gets the suffix [.png] ends with it. *)
Lemma endswith_png s : Py.endswith (s +:+ ".png") ".png" = true.
Proof.
  unfold Py.endswith. rewrite AnimFacts.length_app_string.
  replace (String.length s + String.length ".png" - String.length ".png")%nat
    with (String.length s) by lia.
  rewrite substring_app_tail. apply andb_true_iff. split; [done|].
  apply Nat.leb_le. lia.
Qed.

(** Only timer events matter to a modal operator that answers
    [RUNNING_MODAL] to every other event without doing anything. *)
Lemma run_modal_timers {S} (modal : S → EventType → M (S * Status)) :
  (∀ self name, modal self (OTHER_EVENT name) = ret (self, RUNNING_MODAL)) →
  ∀ events self w,
    run_modal modal self events w
    = run_modal modal self (List.filter is_timer events) w.
Proof.
  intros Hother events. induction events as [|e events IH]; intros self w; [done|].
  destruct e as [|name]; cbn [List.filter is_timer run_modal]; unfold bind.
  - destruct (modal self TIMER w) as [[[self' [| |]]|e] w']; simpl; auto.
  - rewrite Hother. simpl. apply IH.
Qed.

End Viewports.

Module ScreenshotMore.
Import QP_OT_screenshot_quadview.
Section Facts.
Context {pathlib : PathLib}.

(** X5. When the screen has no 3D viewport, or its first 3D viewport has
    no window region, the capture request answers [CANCELLED] and only
    reports why: no folder is made, no overlay is hidden and no timer is
    started.  A later 3D viewport with a window region, which the layout
    toggle would use, is not looked at. *)
Theorem capture_cancelled (w : World) :
  first_view3d_has_window (areas w) = false →
  ∃ self,
    execute init w
    = (Ok (self, CANCELLED),
       with_trace (trace w ++ [Report ERROR (if has_view3d (areas w)
                                             then "WINDOW region not found"
                                             else "VIEW_3D not found")]) w).
Proof.
  intros Hno. pose proof (first_view3d_cases (areas w)) as H.
  unfold execute. run.
  destruct (first_view3d (areas w) 0) as [a|]; simpl.
  - destruct H as (-> & area & -> & Hw). rewrite Hno in Hw. run.
    destruct (first_window (regions area) 0) as [r|]; [|eauto].
    symmetry in Hw. apply bool_decide_eq_false in Hw. destruct Hw. eauto.
  - destruct H as [-> _]. eauto.
Qed.


(** X7. When the output folder is a regular file, the capture request
    raises [FileExistsError] before it hides anything: the world is as it
    was. *)
Theorem capture_folder_is_file (w : World) :
  first_view3d_has_window (areas w) = true →
  fs w !! dirname (abspath (render_filepath (qp_props (scene w)))) = Some File →
  execute init w = (Raise "FileExistsError", w).
Proof.
  intros Hyes Hfolder. pose proof (first_view3d_cases (areas w)) as H.
  unfold execute. run.
  destruct (first_view3d (areas w) 0) as [a|]; simpl;
    [|destruct H as [_ H]; congruence].
  destruct H as (_ & area & -> & Hw). rewrite Hyes in Hw.
  symmetry in Hw. apply bool_decide_eq_true in Hw as [r Hr]. run. rewrite Hr.
  unfold os_makedirs. run. by rewrite Hfolder.
Qed.

(** What a request that answers [RUNNING_MODAL] has recorded. *)
Lemma capture_running w self w1 :
  execute init w = (Ok (self, RUNNING_MODAL), w1) →
  (∃ a r, _view3d_area self = Some a ∧ _region_window self = Some r)
  ∧ trace w1 = trace w ++ [ViewLayerUpdate; EventTimerAdd 200; ModalHandlerAdd].
Proof.
  destruct w as [f sc os ar ca tr]. unfold execute. run_fields.
  destruct (first_view3d ar 0) as [a|]; simpl; [|discriminate].
  destruct (ar !! a) as [area|]; [|discriminate].
  destruct (first_window (regions area) 0) as [r|]; [|discriminate].
  unfold os_makedirs, update_space, update_space_data. run_fields.
  destruct (f !! _) as [[|entries]|]; [discriminate| |];
    (destruct ca as [c|]; intros [= <- <-]; cbn;
     rewrite <- !app_assoc; eauto 10).
Qed.

Lemma capture_modal_tick self w a r :
  _view3d_area self = Some a → _region_window self = Some r →
  ∃ w2,
    modal self TIMER w = (Ok (self, FINISHED), w2)
    ∧ trace w2
      = trace w ++ [EventTimerRemove; ScreenshotArea a r (_file_path self);
                    ViewLayerUpdate;
                    Report INFO ("Image saved: " +:+ _file_path self)]
    ∧ fs w2 !! _file_path self = Some File.
Proof.
  intros Ha Hr. destruct w as [f sc os ar [c|] tr];
    unfold modal, screenshot_area, write_file, update_space, update_space_data;
    rewrite Ha, Hr; run_fields; (eexists; split; [reflexivity|]); cbn;
    (split; [by rewrite <- !app_assoc|apply lookup_insert_eq]).
Qed.

(** X8. After a capture was requested, events that are no timer ticks are
    ignored, and the first timer tick finishes the capture: exactly one
    screenshot is taken, at the path chosen at the request, where a file
    exists afterwards; the timer started at the request is removed; what
    comes after that tick is not looked at. *)
Theorem run_modal_one_screenshot (w : World) self w1 events :
  execute init w = (Ok (self, RUNNING_MODAL), w1) →
  (1 ≤ ticks events)%nat →
  ∃ w2,
    run_modal modal self events w1 = (Ok (self, FINISHED), w2)
    ∧ w2 = (modal self TIMER w1).2
    ∧ screenshots (trace w2) = screenshots (trace w) ++ [_file_path self]
    ∧ fs w2 !! _file_path self = Some File
    ∧ timers_running (trace w2) = timers_running (trace w)
    ∧ last (trace w2) = Some (Report INFO ("Image saved: " +:+ _file_path self)).
Proof.
  intros Hreq Hticks.
  rewrite (run_modal_timers modal) by done.
  unfold ticks in Hticks.
  destruct (List.filter is_timer events) as [|e rest] eqn:Hev; [simpl in Hticks; lia|].
  assert (e = TIMER) as ->.
  { assert (In e (List.filter is_timer events)) as Hin by (rewrite Hev; by left).
    apply filter_In in Hin as [_ Hin]. by destruct e. }
  clear Hev Hticks.
  apply capture_running in Hreq as ((a & r & Ha & Hr) & Htr).
  destruct (capture_modal_tick self w1 a r Ha Hr) as (w2 & E & Htr2 & Hfile).
  exists w2. cbn [run_modal]. unfold bind. rewrite E. cbn.
  split; [done|]. split; [done|]. rewrite Htr2, Htr.
  split; [|split; [done|split]].
  - rewrite !screenshots_app. cbn. by rewrite app_nil_r.
  - unfold timers_running. rewrite !List.filter_app, !length_app. simpl. lia.
  - by rewrite last_app.
Qed.

End Facts.

Lemma capture_cancelled_witness :
  ∃ self,
    execute (pathlib := Sample.paths) init MoreSamples.two_viewports_world
    = (Ok (self, CANCELLED),
       with_trace (trace MoreSamples.two_viewports_world
                   ++ [Report ERROR (if has_view3d (areas MoreSamples.two_viewports_world)
                                     then "WINDOW region not found"
                                     else "VIEW_3D not found")])
                  MoreSamples.two_viewports_world).
Proof.
  apply (capture_cancelled (pathlib := Sample.paths) MoreSamples.two_viewports_world).
  reflexivity.
Defined.

(** On that screen the layout toggle finds the second 3D viewport. *)
Example toggle_finds_later_viewport :
  QP_OT_switch_layout.find_view3d (areas MoreSamples.two_viewports_world) 0
  = Some (2%nat, 1%nat).
Proof. reflexivity. Qed.


Lemma capture_folder_is_file_witness :
  execute (pathlib := Sample.paths) init MoreSamples.folder_is_file_world
  = (Raise "FileExistsError", MoreSamples.folder_is_file_world).
Proof.
  apply (capture_folder_is_file (pathlib := Sample.paths)
           MoreSamples.folder_is_file_world); reflexivity.
Defined.

Lemma run_modal_one_screenshot_witness :
  ∃ w2,
    run_modal (modal (pathlib := Sample.paths)) Sample.capture_requested.1
              [OTHER_EVENT "MOUSEMOVE"; TIMER; TIMER] Sample.capture_requested.2
    = (Ok (Sample.capture_requested.1, FINISHED), w2)
    ∧ w2 = (modal (pathlib := Sample.paths) Sample.capture_requested.1 TIMER
                  Sample.capture_requested.2).2
    ∧ screenshots (trace w2)
      = screenshots (trace (Sample.world 1 5 false))
        ++ [_file_path Sample.capture_requested.1]
    ∧ fs w2 !! _file_path Sample.capture_requested.1 = Some File
    ∧ timers_running (trace w2) = timers_running (trace (Sample.world 1 5 false))
    ∧ last (trace w2)
      = Some (Report INFO ("Image saved: " +:+ _file_path Sample.capture_requested.1)).
Proof.
  apply (run_modal_one_screenshot (pathlib := Sample.paths) (Sample.world 1 5 false)
           Sample.capture_requested.1 Sample.capture_requested.2
           [OTHER_EVENT "MOUSEMOVE"; TIMER; TIMER]).
  - vm_compute. reflexivity.
  - vm_compute. lia.
Defined.

End ScreenshotMore.

(** ** What a computation leaves alone *)

Section Preserves.
Context {pathlib : PathLib} {host : Host}.
Variable R : World → World → Prop.
Hypothesis R_refl : ∀ w, R w w.
Hypothesis R_trans : ∀ w1 w2 w3, R w1 w2 → R w2 w3 → R w1 w3.

Lemma preserves_ret {A} (a : A) : preserves R (ret a).
Proof. intros w. apply R_refl. Qed.

Lemma preserves_raise {A} e : preserves R (raise (A := A) e).
Proof. intros w. apply R_refl. Qed.

Lemma preserves_get : preserves R get.
Proof. intros w. apply R_refl. Qed.

Lemma preserves_modify f : (∀ w, R w (f w)) → preserves R (modify f).
Proof. intros H w. apply H. Qed.

Lemma preserves_bind {A B} (m : M A) (k : A → M B) :
  preserves R m → (∀ a, preserves R (k a)) → preserves R (bind m k).
Proof.
  intros Hm Hk w. unfold bind. specialize (Hm w).
  destruct (m w) as [[a|e] w1]; simpl in *; [|done].
  eapply R_trans; [exact Hm|apply Hk].
Qed.

Lemma preserves_try {A} (m : M A) : preserves R m → preserves R (try_ m).
Proof.
  intros Hm w. unfold try_. specialize (Hm w). by destruct (m w) as [[a|e] w1].
Qed.

Lemma preserves_for_each {A} (l : list A) body :
  (∀ x, preserves R (body x)) → preserves R (for_each l body).
Proof.
  intros H. induction l as [|x l IH]; simpl; [apply preserves_ret|].
  apply preserves_bind; auto.
Qed.

(** Reduces a claim about a computation to its commands, which [tac]
    settles. *)
Ltac preserves_with tac :=
  repeat lazymatch goal with
  | |- preserves _ (bind _ _) => apply preserves_bind; [|intros ?]
  | |- preserves _ (ret _) => apply preserves_ret
  | |- preserves _ (raise _) => apply preserves_raise
  | |- preserves _ get => apply preserves_get
  | |- preserves _ (try_ _) => apply preserves_try
  | |- preserves _ (for_each _ _) => apply preserves_for_each; intros ?
  | |- _ => tac
  end.

Lemma preserves_may_raise op : preserves R (may_raise op).
Proof.
  unfold may_raise. apply preserves_bind; [apply preserves_get|]. intros w.
  destruct (fails op w); [apply preserves_raise|apply preserves_ret].
Qed.

Lemma preserves_os_listdir p : preserves R (os_listdir p).
Proof.
  unfold os_listdir. apply preserves_bind; [apply preserves_get|]. intros w.
  destruct (fs w !! p) as [[|entries]|];
    [apply preserves_raise|apply preserves_ret|apply preserves_raise].
Qed.

(** The combiner changes the world by assignments to scenes, by
    removing files and by its host calls: what those leave alone, it
    leaves alone. *)
Section Combiner.
Import QP_OT_combine_images_to_video.
Hypothesis R_scenes : ∀ s o w, R w (with_scenes s o w).
Hypothesis R_fs : ∀ f w, R w (with_fs f w).
Hypothesis R_call :
  ∀ c w, is_combiner_call c = true → R w (with_trace (trace w ++ [c]) w).

Lemma preserves_call c : is_combiner_call c = true → preserves R (call c).
Proof. intros H. apply preserves_modify. intros w. by apply R_call. Qed.

Lemma preserves_shutil_rmtree p : preserves R (shutil_rmtree p).
Proof.
  unfold shutil_rmtree. apply preserves_bind; [apply preserves_get|]. intros w.
  destruct (fs w !! p) as [[|entries]|]; [apply preserves_raise| |apply preserves_raise].
  destruct (fails OpRmtree w); [apply preserves_raise|].
  apply preserves_modify. intros w'. apply R_fs.
Qed.

Lemma preserves_scenes_remove name : preserves R (scenes_remove name).
Proof.
  unfold scenes_remove. apply preserves_bind; [apply preserves_get|]. intros w.
  destruct (negb (scenes_contains name w)); [apply preserves_raise|].
  destruct (named name (scene w)).
  - destruct (other_scenes w); [apply preserves_raise|].
    apply preserves_modify. intros w'. apply R_scenes.
  - apply preserves_modify. intros w'. apply R_scenes.
Qed.

Lemma preserves_scenes_new name : preserves R (scenes_new name).
Proof.
  unfold scenes_new. apply preserves_bind; [apply preserves_get|]. intros w.
  apply preserves_bind; [|intros ?; apply preserves_ret].
  apply preserves_modify. intros w'. apply R_scenes.
Qed.

Lemma preserves_update_scene name f : preserves R (update_scene name f).
Proof.
  unfold update_scene. apply preserves_modify. intros w.
  destruct (named name (scene w)); apply R_scenes.
Qed.

Lemma preserves_set_window_scene name : preserves R (set_window_scene name).
Proof.
  unfold set_window_scene. apply preserves_bind; [apply preserves_get|]. intros w.
  destruct (named name (scene w)); [apply preserves_ret|].
  destruct (find_named name (other_scenes w)); [|apply preserves_raise].
  apply preserves_modify. intros w'. apply R_scenes.
Qed.

Lemma preserves_remove_video_scene : preserves R remove_video_scene.
Proof.
  unfold remove_video_scene. apply preserves_bind; [apply preserves_get|]. intros w.
  destruct (scenes_contains video_scene_name w);
    [apply preserves_scenes_remove|apply preserves_ret].
Qed.

Lemma preserves_create_video_scene img_width img_height scene_fps n user_filepath :
  preserves R (create_video_scene img_width img_height scene_fps n user_filepath).
Proof.
  unfold create_video_scene.
  preserves_with ltac:(first [ apply preserves_remove_video_scene
                             | apply preserves_scenes_new
                             | apply preserves_update_scene ]).
Qed.

Lemma preserves_encode video_scene first_image_path rest :
  preserves R (encode video_scene first_image_path rest).
Proof.
  unfold encode, fallible.
  preserves_with ltac:(first [ apply preserves_may_raise
                             | apply preserves_set_window_scene
                             | apply preserves_update_scene
                             | apply preserves_call; reflexivity ]).
Qed.

Lemma preserves_finish folder_temp user_filepath :
  preserves R (finish folder_temp user_filepath).
Proof.
  unfold finish, report.
  apply preserves_bind.
  { apply preserves_try, preserves_bind; [apply preserves_shutil_rmtree|].
    intros ?. by apply preserves_call. }
  intros [?|e]; (apply preserves_bind; [|intros ?]).
  1: apply preserves_ret. 2: by apply preserves_call.
  all: apply preserves_bind; [apply preserves_remove_video_scene|intros ?].
  all: apply preserves_bind; [by apply preserves_call|intros ?; apply preserves_ret].
Qed.

Lemma preserves_execute : preserves R execute.
Proof.
  unfold execute, report.
  apply preserves_bind; [apply preserves_get|]. intros w.
  destruct (negb (os_path_exists (folder_temp w) w)).
  { apply preserves_bind; [by apply preserves_call|intros ?; apply preserves_ret]. }
  apply preserves_bind; [apply preserves_os_listdir|]. intros names.
  destruct (png_images names) as [|first rest].
  { apply preserves_bind; [by apply preserves_call|intros ?; apply preserves_ret]. }
  apply preserves_bind; [by apply preserves_call|intros ?].
  apply preserves_bind; [apply preserves_get|]. intros w'.
  destruct (image_size w' _) as [img_width img_height].
  apply preserves_bind; [by apply preserves_call|intros ?].
  apply preserves_bind; [apply preserves_create_video_scene|intros video_scene].
  apply preserves_bind; [apply preserves_try, preserves_encode|].
  intros [?|e]; [apply preserves_finish|].
  apply preserves_bind; [by apply preserves_call|intros ?].
  apply preserves_bind; [apply preserves_remove_video_scene|intros ?].
  apply preserves_ret.
Qed.

End Combiner.
End Preserves.

Module CombineMore.
Import QP_OT_combine_images_to_video.
Section Facts.
Context {pathlib : PathLib} {host : Host}.

Lemma off_screen_refl w : off_screen w w.
Proof.
  split; [done|]. split; [done|]. exists []. by rewrite app_nil_r.
Qed.

Lemma off_screen_trans w1 w2 w3 :
  off_screen w1 w2 → off_screen w2 w3 → off_screen w1 w3.
Proof.
  intros (Ha & Hc & t & Ht & Hall) (Ha' & Hc' & t' & Ht' & Hall').
  split; [congruence|]. split; [congruence|]. exists (t ++ t').
  split; [by rewrite Ht', Ht, app_assoc|by apply Forall_app].
Qed.

Lemma execute_keeps_screen w : off_screen w (execute w).2.
Proof.
  apply (preserves_execute off_screen off_screen_refl off_screen_trans).
  - intros s o w'. split; [done|]. split; [done|]. exists [].
    split; [symmetry; apply app_nil_r|done].
  - intros f w'. split; [done|]. split; [done|]. exists [].
    split; [symmetry; apply app_nil_r|done].
  - intros c w' Hcall. split; [done|]. split; [done|]. exists [c].
    split; [done|]. by constructor.
Qed.

Lemma combiner_calls t :
  Forall (λ c, is_combiner_call c = true) t →
  screenshots t = [] ∧ List.filter is_os_call t = []
  ∧ List.filter is_timer_add t = [] ∧ List.filter is_timer_remove t = [].
Proof. induction 1 as [|c t Hcall Hall IH]; [done|]. by destruct c. Qed.

(** X9. Whatever the outcome, the combiner leaves the screen alone: the
    areas, with the panel and overlay flags of their spaces, are as they
    were; and the host calls it makes are reports, the load and removal
    of the first image, and the render, so it takes no screenshot,
    starts or stops no timer, splits no region and opens no folder. *)
Theorem execute_off_screen (w : World) :
  areas (execute w).2 = areas w
  ∧ context_area (execute w).2 = context_area w
  ∧ ∃ t, trace (execute w).2 = trace w ++ t
         ∧ Forall (λ c, is_combiner_call c = true) t
         ∧ screenshots t = []
         ∧ List.filter is_os_call t = []
         ∧ timers_running (trace (execute w).2) = timers_running (trace w).
Proof.
  destruct (execute_keeps_screen w) as (Ha & Hc & t & Ht & Hall).
  destruct (combiner_calls t Hall) as (H1 & H2 & H3 & H4).
  split; [done|]. split; [done|]. exists t. do 4 (split; [done|]).
  rewrite Ht. unfold timers_running.
  by rewrite !List.filter_app, H3, H4, !app_nil_r.
Qed.

End Facts.
End CombineMore.

(** ** The render request of the combiner *)

Module CombineExact.
Import QP_OT_combine_images_to_video.
Section Facts.
Context {pathlib : PathLib} {host : Host}.

Lemma find_named_app name l vs :
  lacks name l → named name vs = true → find_named name (l ++ [vs]) = Some vs.
Proof.
  intros Hl Hvs. unfold find_named.
  induction Hl as [|s l E _ IH]; simpl; [by rewrite Hvs|]. by rewrite E.
Qed.

Lemma remove_named_app name l vs :
  lacks name l → named name vs = true → remove_named name (l ++ [vs]) = l.
Proof.
  intros Hl Hvs. induction Hl as [|s l E _ IH]; simpl; [by rewrite Hvs|].
  by rewrite E, IH.
Qed.

Lemma update_named_app name f l vs :
  lacks name l → named name vs = true →
  update_named name f (l ++ [vs]) = l ++ [f vs].
Proof.
  intros Hl Hvs. induction Hl as [|s l E _ IH]; simpl; [by rewrite Hvs|].
  by rewrite E, IH.
Qed.

Lemma wp_outcome {A} (m : M A) r w' w : m w = (r, w') ↔ wp m (λ r' w'', r' = r ∧ w'' = w') w.
Proof.
  unfold wp. destruct (m w) as [r0 w0]. simpl. split; [by intros [= -> ->]|].
  by intros [-> ->].
Qed.

Lemma update_scene_other name f w l vs :
  named name (scene w) = false → other_scenes w = l ++ [vs] →
  lacks name l → named name vs = true →
  update_scene name f w = (Ok tt, with_scenes (scene w) (l ++ [f vs]) w).
Proof.
  intros Hs Ho Hl Hvs. unfold update_scene, modify. rewrite Hs, Ho.
  by rewrite update_named_app.
Qed.

Lemma update_scene_window name f w :
  named name (scene w) = true →
  update_scene name f w = (Ok tt, with_scenes (f (scene w)) (other_scenes w) w).
Proof. intros Hs. unfold update_scene, modify. by rewrite Hs. Qed.

(** The temporary scene as the combiner sets it up, before the strip is
    made. *)
Lemma create_video_scene_exact iw ih sfps up p b rest w s o :
  remove_video_scene w = (Ok tt, with_scenes s o w) →
  lacks video_scene_name (s :: o) →
  create_video_scene iw ih sfps (S (length rest)) up w
  = (Ok video_scene_name,
     with_scenes s
       (o ++ [set_sequence_editor (Some []) (encoded_scene iw ih sfps up p b rest)]) w).
Proof.
  intros E0 Hl. pose proof Hl as [Hs Ho]%Forall_cons.
  apply wp_outcome. unfold create_video_scene.
  step_with E0. step_with (scenes_new_spec video_scene_name (with_scenes s o w)).
  change (data_scenes (with_scenes s o w)) with (s :: o).
  rewrite (unique_name_free _ _ Hl).
  do 4 (wp_focus;
        lazymatch goal with
        | |- wp (update_scene ?n ?f) _ ?w0 =>
            apply (proj2 (wp_eq _ _ _ _
                     (update_scene_other n f w0 o _ Hs eq_refl Ho eq_refl) _))
        end;
        cbn beta iota; cbn [with_scenes scene other_scenes]).
  wp_step. split; [done|]. reflexivity.
Qed.

Lemma set_window_scene_other name w l vs :
  named name (scene w) = false → other_scenes w = l ++ [vs] →
  lacks name l → named name vs = true →
  set_window_scene name w = (Ok tt, with_scenes vs (scene w :: l) w).
Proof.
  intros Hs Ho Hl Hvs. unfold set_window_scene. run. rewrite Hs, Ho.
  by rewrite find_named_app, remove_named_app.
Qed.

Lemma set_window_scene_back name w s o :
  named name (scene w) = true → other_scenes w = s :: o →
  named name s = false →
  set_window_scene (scene_name s) w
  = (Ok tt, with_scenes s (scene w :: o) w).
Proof.
  intros Hvs Ho Hs. unfold set_window_scene. run. rewrite Ho.
  assert (named (scene_name s) (scene w) = false) as ->.
  { unfold named in *. apply String.eqb_eq in Hvs. rewrite Hvs.
    by rewrite String.eqb_sym. }
  assert (named (scene_name s) s = true) as Hself by apply String.eqb_refl.
  unfold find_named. simpl. by rewrite Hself.
Qed.

Lemma remove_video_scene_front w vs o :
  named video_scene_name (scene w) = false → other_scenes w = vs :: o →
  named video_scene_name vs = true →
  remove_video_scene w = (Ok tt, with_scenes (scene w) o w).
Proof.
  intros Hs Ho Hvs.
  assert (scenes_contains video_scene_name w = true) as Hc.
  { unfold scenes_contains, data_scenes. rewrite Ho. simpl. rewrite Hvs.
    by rewrite orb_true_r. }
  unfold remove_video_scene, scenes_remove. run.
  repeat (first [rewrite Hc|rewrite Hs]; cbn beta iota delta [negb]).
  rewrite Ho. simpl. by rewrite Hvs.
Qed.

(** The loop that appends the remaining images to the strip. *)
Lemma append_loop rest :
  ∀ w st,
    named video_scene_name (scene w) = true →
    sequence_editor (scene w) = Some [st] →
    strip_name st = "QuadViewImages" →
    wp (for_each rest (λ img,
          may_raise OpElementsAppend;;
          update_scene video_scene_name
            (update_strip "QuadViewImages" (append_element img))))
       (λ r w',
          r = Ok tt →
          w' = with_scenes
                 (set_sequence_editor
                    (Some [ {| strip_name := strip_name st;
                               strip_filepath := strip_filepath st;
                               channel := channel st;
                               strip_frame_start := strip_frame_start st;
                               elements := elements st ++ rest;
                               frame_final_duration := frame_final_duration st |} ])
                    (scene w))
                 (other_scenes w) w) w.
Proof.
  induction rest as [|img rest IH]; intros w st Hn Hed Hst.
  - intros _. simpl. destruct w as [f sc o ar ca t]. simpl in *.
    destruct sc; simpl in *. subst. destruct st. simpl. by rewrite app_nil_r.
  - cbn [for_each]. apply wp_bind, wp_bind, CombineFacts.wp_may_raise;
      cbn beta iota; [|intros e He; discriminate He].
    step_with (update_scene_window video_scene_name
                 (update_strip "QuadViewImages" (append_element img)) w Hn).
    eapply wp_mono; [|apply (IH _ (append_element img st))].
    + intros r w' H Hr. rewrite (H Hr). cbn. by rewrite <- app_assoc.
    + done.
    + cbn. unfold update_strip. rewrite Hed. cbn. by rewrite Hst.
    + done.
Qed.

Lemma encode_exact iw ih sfps up p rest w o :
  let vsF := encoded_scene iw ih sfps up p (basename p) rest in
  named video_scene_name (scene w) = false →
  other_scenes w = o ++ [set_sequence_editor (Some []) vsF] →
  lacks video_scene_name o →
  wp (encode video_scene_name p rest)
     (λ r w',
        r = Ok tt →
        w' = with_trace (trace w ++ [RenderAnimation vsF])
                        (with_scenes (scene w) (vsF :: o) w)) w.
Proof.
  intros vsF Hs Ho Hl. unfold encode. wp_step.
  step_with (set_window_scene_other video_scene_name w o _ Hs Ho Hl eq_refl).
  apply wp_bind, CombineFacts.wp_may_raise; cbn beta iota;
    [|intros e He; discriminate He].
  wp_focus.
  lazymatch goal with
  | |- wp (update_scene ?n ?f) _ ?w0 =>
      apply (proj2 (wp_eq _ _ _ _ (update_scene_window n f w0 eq_refl) _))
  end.
  cbn beta iota. apply wp_bind.
  eapply wp_mono; [|eapply append_loop; reflexivity].
  intros [[]|e] w1 H1; cbn beta iota; [|intros He; discriminate He].
  rewrite (H1 eq_refl). clear w1 H1.
  wp_focus.
  lazymatch goal with
  | |- wp (update_scene ?n ?f) _ ?w0 =>
      apply (proj2 (wp_eq _ _ _ _ (update_scene_window n f w0 eq_refl) _))
  end.
  cbn beta iota. wp_step. unfold fallible.
  apply wp_bind, wp_bind, CombineFacts.wp_may_raise; cbn beta iota;
    [|intros e He; discriminate He].
  wp_step.
  lazymatch goal with
  | |- wp (set_window_scene _) _ ?w0 =>
      apply (proj2 (wp_eq _ _ _ _
               (set_window_scene_back video_scene_name w0 (scene w) o
                  eq_refl eq_refl Hs) _))
  end.
  intros _. reflexivity.
Qed.

Lemma wp_then_cancelled {A} (m : M A) (P : World → Prop) w :
  wp (m;; ret CANCELLED) (λ r w', r = Ok FINISHED → P w') w.
Proof.
  unfold wp, bind. destruct (m w) as [[a|e] w1]; simpl; intros H; discriminate H.
Qed.

Lemma finish_exact folder up w vs o :
  named video_scene_name (scene w) = false → other_scenes w = vs :: o →
  named video_scene_name vs = true →
  wp (finish folder up)
     (λ r w',
        r = Ok FINISHED ∧ scene w' = scene w ∧ other_scenes w' = o
        ∧ List.filter is_render (trace w') = List.filter is_render (trace w)) w.
Proof.
  intros Hs Ho Hvs. unfold finish.
  set (R := λ w w' : World,
         scene w' = scene w ∧ other_scenes w' = other_scenes w
         ∧ List.filter is_render (trace w') = List.filter is_render (trace w)).
  assert (∀ w, R w w) as R_refl by done.
  assert (∀ w1 w2 w3, R w1 w2 → R w2 w3 → R w1 w3) as R_trans.
  { intros w1 w2 w3 (H1 & H2 & H3) (H1' & H2' & H3'). unfold R.
    split; [congruence|]. split; congruence. }
  assert (∀ level msg, preserves R (report level msg)) as R_report.
  { intros level msg w0. split; [done|]. split; [done|]. simpl.
    rewrite List.filter_app. simpl. by rewrite app_nil_r. }
  assert (preserves R (shutil_rmtree folder;;
                       report INFO "Temporary image folder deleted")) as Hfirst.
  { apply preserves_bind; [done| |by intros ?]. by apply preserves_shutil_rmtree. }
  assert (∀ w1, R w w1 →
            wp (remove_video_scene;;
                report INFO ("Video completed: " +:+ up);; ret FINISHED)
               (λ r w',
                  r = Ok FINISHED ∧ scene w' = scene w ∧ other_scenes w' = o
                  ∧ List.filter is_render (trace w') = List.filter is_render (trace w))
               w1) as Hrest.
  { intros w1 (H1 & H2 & H3).
    assert (remove_video_scene w1 = (Ok tt, with_scenes (scene w1) o w1)) as E2.
    { apply (remove_video_scene_front w1 vs o); congruence. }
    step_with E2. wp_step. wp_step.
    split; [done|]. split; [done|]. split; [done|]. cbn.
    rewrite List.filter_app. simpl. by rewrite app_nil_r. }
  apply wp_bind, wp_try.
  apply wp_mono with (Q := λ _ w1, R w w1); [|exact (Hfirst w)].
  intros [[]|e] w1 H1; cbn beta iota.
  - wp_step. by apply Hrest.
  - wp_step. apply Hrest. eapply R_trans; [exact H1|]. apply R_report.
Qed.

(** X10. A combiner run that answers [FINISHED] has asked the renderer
    exactly once, for the temporary scene "CombineVideoScene": frames 1
    to the number of images, the frame rate of the scene the operator
    was called on, FFMPEG output as MPEG4 with H264 at quality HIGH and
    preset GOOD into the output path of the settings, at the size of the
    first image rounded up to even numbers, and one image strip
    "QuadViewImages" on channel 1 from frame 1 that holds the images in
    sorted order and lasts as many frames as there are images.
    Afterwards the scenes are those from before, in their order and with
    the same scene in the window, without a leftover scene of the
    temporary name. *)
Theorem execute_finished_exact (w : World) names first rest w' :
  fs w !! folder_temp w = Some (Dir names) →
  png_images names = first :: rest →
  (count_named video_scene_name (data_scenes w) ≤ 1)%nat →
  execute w = (Ok FINISHED, w') →
  let p := join (folder_temp w) first in
  let size := image_size (with_trace (trace w ++ [ImagesLoad p]) w) p in
  let user_filepath := abspath (render_filepath (qp_props (scene w))) in
  data_scenes w' = remove_named video_scene_name (data_scenes w)
  ∧ List.filter is_render (trace w')
    = List.filter is_render (trace w)
      ++ [RenderAnimation
            (encoded_scene (round_even size.1) (round_even size.2)
               (fps (render (scene w))) user_filepath p (basename p) rest)].
Proof.
  intros Hfs Hpng Hcount Hrun p size user_filepath.
  cut (wp execute
         (λ r w',
            r = Ok FINISHED →
            data_scenes w' = remove_named video_scene_name (data_scenes w)
            ∧ List.filter is_render (trace w')
              = List.filter is_render (trace w)
                ++ [RenderAnimation
                      (encoded_scene (round_even size.1) (round_even size.2)
                         (fps (render (scene w))) user_filepath p (basename p) rest)]) w).
  { unfold wp. rewrite Hrun. auto. }
  clear Hrun w'. unfold execute.
  wp_step. rewrite (os_path_exists_true _ _ _ Hfs). cbn [negb].
  unfold os_listdir. wp_step. rewrite Hfs. wp_step. rewrite Hpng.
  wp_step. wp_step. fold p. cbn [trace with_trace].
  change (image_size _ p) with size. destruct size as [img_width img_height].
  wp_step. cbn [trace with_trace]. rewrite <- app_assoc. cbn [app].
  set (w2 := with_trace _ _). fold user_filepath.
  destruct (CombineFacts.remove_video_scene_spec w2)
    as [(_ & _ & e & E)|(s & o & E & Hso)].
  { apply wp_bind. unfold create_video_scene. step_with E.
    intros He. discriminate He. }
  change (data_scenes w2) with (data_scenes w) in Hso.
  assert (lacks video_scene_name (s :: o)) as Hl.
  { rewrite Hso. apply lacks_count. rewrite remove_named_count. lia. }
  pose proof Hl as [Hs Ho]%Forall_cons.
  step_with (create_video_scene_exact (round_even img_width) (round_even img_height)
               (fps (render (scene w))) user_filepath p (basename p) rest w2 s o E Hl).
  apply wp_bind, wp_try.
  eapply wp_mono;
    [|lazymatch goal with
      | |- wp _ _ ?w0 =>
          apply (encode_exact (round_even img_width) (round_even img_height)
                   (fps (render (scene w))) user_filepath p rest w0 o Hs eq_refl Ho)
      end].
  intros [[]|e] w4 H4; cbn beta iota.
  - rewrite (H4 eq_refl). clear w4 H4.
    eapply wp_mono; [|by eapply finish_exact].
    intros r w5 (-> & H5s & H5o & H5t) _. unfold data_scenes.
    rewrite H5s, H5o, H5t. split; [exact Hso|].
    cbn [trace with_trace with_scenes w2]. rewrite !List.filter_app. simpl.
    by rewrite app_nil_r.
  - wp_step. apply wp_then_cancelled.
Qed.

(** X11. A combiner run deletes nothing unless it answers [FINISHED]:
    when it answers [CANCELLED] or raises, every file and folder is as
    it was, so the captured frames are kept after an encoding failure. *)
Theorem execute_failure_keeps_files (w : World) :
  (count_named video_scene_name (data_scenes w) ≤ 1)%nat →
  (execute w).1 ≠ Ok FINISHED →
  fs (execute w).2 = fs w.
Proof.
  intros Hcount.
  destruct (fs w !! folder_temp w) as [[|names]|] eqn:Hfs.
  - intros _. unfold execute, os_listdir. run.
    rewrite (os_path_exists_true _ _ _ Hfs). cbn [negb]. by rewrite Hfs.
  - destruct (png_images names) as [|first rest] eqn:Hpng.
    + intros _. unfold execute, os_listdir. run.
      rewrite (os_path_exists_true _ _ _ Hfs). cbn [negb]. rewrite Hfs.
      cbn beta iota. by rewrite Hpng.
    + pose proof (CombineFacts.execute_past_checks w names first rest Hfs Hpng Hcount)
        as H.
      unfold wp in H. cbn zeta in H.
      destruct H as [(_ & _ & _ & ->)|(_ & t' & r0 & _ & _ & _ & H)]; [done|].
      destruct H as [(e & _ & Hsame & _)|[Hfin _]]; [done|].
      intros Hnot. by destruct Hnot.
  - intros _. unfold execute. run. by rewrite (os_path_exists_false _ _ Hfs).
Qed.

(** X12. When the path of the temp folder is a regular file, the
    combiner raises [NotADirectoryError] instead of reporting an error,
    and changes nothing. *)
Theorem combiner_temp_is_file (w : World) :
  fs w !! folder_temp w = Some File →
  execute w = (Raise "NotADirectoryError", w).
Proof.
  intros Hfs. unfold execute, os_listdir. run.
  rewrite (os_path_exists_true _ _ _ Hfs). cbn [negb]. by rewrite Hfs.
Qed.

End Facts.

Lemma execute_finished_exact_witness :
  let w := Sample.leftover_world in
  let w' := (execute (pathlib := Sample.paths) (host := Sample.quiet_host) w).2 in
  data_scenes w' = [Sample.main_scene 1 5]
  ∧ List.filter is_render (trace w')
    = [RenderAnimation
         (encoded_scene 102 52 24 "/home/user/quadview_render.mp4"
            "/home/user/quadview_render_temp/quadview_frame_0001.png"
            "quadview_frame_0001.png"
            ["quadview_frame_0002.png"; "quadview_frame_0003.png"])].
Proof.
  apply (execute_finished_exact (pathlib := Sample.paths) (host := Sample.quiet_host)
           Sample.leftover_world
           ["quadview_frame_0002.png"; "notes.txt";
            "quadview_frame_0001.png"; "quadview_frame_0003.png"]
           "quadview_frame_0001.png"
           ["quadview_frame_0002.png"; "quadview_frame_0003.png"]).
  - reflexivity.
  - vm_compute. reflexivity.
  - vm_compute. lia.
  - vm_compute. reflexivity.
Defined.

Lemma execute_failure_keeps_files_witness :
  fs (execute (pathlib := Sample.paths) (host := Sample.broken_encoder_host)
              Sample.leftover_world).2
  = fs Sample.leftover_world.
Proof.
  apply (execute_failure_keeps_files (pathlib := Sample.paths)
           (host := Sample.broken_encoder_host) Sample.leftover_world).
  - vm_compute. lia.
  - vm_compute. discriminate.
Defined.

Lemma combiner_temp_is_file_witness :
  execute (pathlib := Sample.paths) (host := Sample.quiet_host)
          MoreSamples.temp_is_file_world
  = (Raise "NotADirectoryError", MoreSamples.temp_is_file_world).
Proof.
  apply (combiner_temp_is_file (pathlib := Sample.paths) (host := Sample.quiet_host)
           MoreSamples.temp_is_file_world).
  reflexivity.
Defined.

End CombineExact.

(** ** The listing of the temp folder *)

Module ListingFacts.
Import QP_OT_combine_images_to_video.

Lemma insert_sorted_perm x l : Py.insert_sorted x l ≡ₚ x :: l.
Proof.
  induction l as [|y l IH]; simpl; [done|].
  destruct (String.leb x y); [done|]. rewrite IH. apply Permutation_swap.
Qed.

Lemma insert_sorted_sorted x l :
  StronglySorted String.le l → StronglySorted String.le (Py.insert_sorted x l).
Proof.
  induction 1 as [|y l Hl IH Hy]; simpl; [by repeat constructor|].
  destruct (String.leb x y) eqn:E.
  - constructor; [by constructor|]. constructor; [by rewrite <- Is_true_true in E|].
    eapply Forall_impl; [exact Hy|]. intros z Hz.
    transitivity y; [|done]. unfold String.le. by rewrite E.
  - constructor; [done|]. rewrite insert_sorted_perm. constructor; [|done].
    destruct (String.leb_total x y) as [H|H]; [congruence|].
    unfold String.le. by rewrite H.
Qed.

Lemma sorted_perm l : Py.sorted l ≡ₚ l.
Proof.
  induction l as [|x l IH]; simpl; [done|]. by rewrite insert_sorted_perm, IH.
Qed.

Lemma sorted_sorted l : StronglySorted String.le (Py.sorted l).
Proof.
  induction l as [|x l IH]; simpl; [constructor|]. by apply insert_sorted_sorted.
Qed.

Lemma filter_perm {A} (f : A → bool) l1 l2 :
  l1 ≡ₚ l2 → List.filter f l1 ≡ₚ List.filter f l2.
Proof.
  induction 1 as [|x l l' Hp IH|x y l|l l' l'' Hp1 IH1 Hp2 IH2]; simpl.
  - done.
  - destruct (f x); [by constructor|done].
  - destruct (f x), (f y); try done. apply Permutation_swap.
  - by transitivity (List.filter f l').
Qed.

(** X13. The images the combiner hands to the strip are the names of the
    temp folder that end in [.png], each as often as it is listed, in
    ascending order of their characters; the order in which the folder
    is listed makes no difference. *)
Theorem png_images_listing (names names' : list string) :
  names ≡ₚ names' →
  png_images names = png_images names'
  ∧ StronglySorted String.le (png_images names)
  ∧ png_images names ≡ₚ List.filter (λ f, Py.endswith f ".png") names
  ∧ ∀ f, f ∈ png_images names ↔ f ∈ names ∧ Py.endswith f ".png" = true.
Proof.
  intros Hp. unfold png_images. split; [|split; [|split]].
  - apply (StronglySorted_unique String.le); [apply sorted_sorted..|].
    rewrite !sorted_perm. by apply filter_perm.
  - apply sorted_sorted.
  - apply sorted_perm.
  - intros f. rewrite sorted_perm, list_elem_of_In, filter_In.
    by rewrite <- list_elem_of_In.
Qed.

Lemma png_images_listing_witness :
  png_images ["b.png"; "notes.txt"; "a.png"] = png_images ["a.png"; "b.png"; "notes.txt"]
  ∧ StronglySorted String.le (png_images ["b.png"; "notes.txt"; "a.png"])
  ∧ png_images ["b.png"; "notes.txt"; "a.png"]
    ≡ₚ List.filter (λ f, Py.endswith f ".png") ["b.png"; "notes.txt"; "a.png"]
  ∧ ∀ f, f ∈ png_images ["b.png"; "notes.txt"; "a.png"]
         ↔ f ∈ ["b.png"; "notes.txt"; "a.png"] ∧ Py.endswith f ".png" = true.
Proof.
  apply (png_images_listing ["b.png"; "notes.txt"; "a.png"]
                            ["a.png"; "b.png"; "notes.txt"]).
  apply (Permutation_cons_app ["a.png"] ["notes.txt"] "b.png").
  apply Permutation_swap.
Defined.

End ListingFacts.

(** ** The order of the frames *)

Module FrameOrder.
Import QP_OT_combine_images_to_video QP_OT_screenshot_quadview_anim.

Lemma app_string_assoc s1 s2 s3 : (s1 +:+ s2) +:+ s3 = s1 +:+ (s2 +:+ s3).
Proof.
  induction s1 as [|c s1 IH]; [by rewrite !AnimFacts.append_nil|].
  by rewrite !AnimFacts.append_cons, IH.
Qed.

Lemma frame_filename_png f : Py.endswith (frame_filename f) ".png" = true.
Proof. unfold frame_filename. rewrite <- app_string_assoc. apply endswith_png. Qed.

(** *** Four-digit numerals are ordered as their numbers

    A numeral with the digit [k] before the digits [l] stands for the
    number of [l] plus [k] times the power of ten of its length. *)
Lemma of_uint_digit l :
  let P := (10 ^ DecimalPos.Unsigned.usize l)%N in
  (N.of_uint (Decimal.D0 l) = N.of_uint l + 0 * P
   ∧ N.of_uint (Decimal.D1 l) = N.of_uint l + 1 * P
   ∧ N.of_uint (Decimal.D2 l) = N.of_uint l + 2 * P
   ∧ N.of_uint (Decimal.D3 l) = N.of_uint l + 3 * P
   ∧ N.of_uint (Decimal.D4 l) = N.of_uint l + 4 * P
   ∧ N.of_uint (Decimal.D5 l) = N.of_uint l + 5 * P
   ∧ N.of_uint (Decimal.D6 l) = N.of_uint l + 6 * P
   ∧ N.of_uint (Decimal.D7 l) = N.of_uint l + 7 * P
   ∧ N.of_uint (Decimal.D8 l) = N.of_uint l + 8 * P
   ∧ N.of_uint (Decimal.D9 l) = N.of_uint l + 9 * P)%N.
Proof.
  intros P. unfold N.of_uint. cbn [Pos.of_uint].
  rewrite !DecimalPos.Unsigned.of_uint_acc_rev, <- !DecimalPos.Unsigned.of_uint_alt.
  fold P. repeat split; lia.
Qed.

Lemma of_uint_bound l : (N.of_uint l < 10 ^ DecimalPos.Unsigned.usize l)%N.
Proof.
  induction l as [|l IH|l IH|l IH|l IH|l IH|l IH|l IH|l IH|l IH|l IH];
    [done|..];
    pose proof (of_uint_digit l) as (E0 & E1 & E2 & E3 & E4 & E5 & E6 & E7 & E8 & E9);
    cbn [DecimalPos.Unsigned.usize]; rewrite N.pow_succ_r';
    set (P := (10 ^ DecimalPos.Unsigned.usize l)%N) in *; lia.
Qed.

Lemma leb_refl s : String.leb s s = true.
Proof. apply Is_true_true. change (String.le s s). reflexivity. Qed.

(** Numerals of the same length compare as strings, whatever follows
    them, the way their numbers compare. *)
Lemma numeral_leb sfx u :
  ∀ v,
    DecimalPos.Unsigned.usize u = DecimalPos.Unsigned.usize v →
    (N.of_uint u ≤ N.of_uint v)%N →
    String.leb (NilEmpty.string_of_uint u +:+ sfx)
               (NilEmpty.string_of_uint v +:+ sfx) = true.
Proof.
  induction u as [|u IH|u IH|u IH|u IH|u IH|u IH|u IH|u IH|u IH|u IH];
    intros [|v|v|v|v|v|v|v|v|v|v] Hsize Hle;
    cbn [DecimalPos.Unsigned.usize] in Hsize;
    try (exfalso; lia);
    [apply leb_refl|..];
    apply N.succ_inj in Hsize;
    pose proof (of_uint_digit u) as (U0 & U1 & U2 & U3 & U4 & U5 & U6 & U7 & U8 & U9);
    pose proof (of_uint_digit v) as (V0 & V1 & V2 & V3 & V4 & V5 & V6 & V7 & V8 & V9);
    pose proof (of_uint_bound u) as Hu; pose proof (of_uint_bound v) as Hv;
    rewrite <- Hsize in *;
    set (P := (10 ^ DecimalPos.Unsigned.usize u)%N) in *;
    cbn [NilEmpty.string_of_uint]; rewrite !AnimFacts.append_cons;
    unfold String.leb; cbn [String.compare];
    first [ change (String.leb (NilEmpty.string_of_uint u +:+ sfx)
                               (NilEmpty.string_of_uint v +:+ sfx) = true);
            apply IH; [done|lia]
          | reflexivity
          | exfalso; lia ].
Qed.

Lemma zeros_numeral k d :
  Py.repeat_char "0"%char k +:+ NilEmpty.string_of_uint d
  = NilEmpty.string_of_uint (Nat.iter k Decimal.D0 d).
Proof.
  induction k as [|k IH]; [apply AnimFacts.append_nil|].
  cbn [Py.repeat_char Nat.iter nat_rect NilEmpty.string_of_uint].
  by rewrite AnimFacts.append_cons, IH.
Qed.

Lemma zeros_value k d : N.of_uint (Nat.iter k Decimal.D0 d) = N.of_uint d.
Proof. induction k as [|k IH]; [done|]. exact IH. Qed.

Lemma numeral_length d :
  N.of_nat (String.length (NilEmpty.string_of_uint d)) = DecimalPos.Unsigned.usize d.
Proof.
  induction d as [|l IH|l IH|l IH|l IH|l IH|l IH|l IH|l IH|l IH|l IH]; [done|..];
    cbn [NilEmpty.string_of_uint String.length DecimalPos.Unsigned.usize];
    lia.
Qed.

(** A frame number from 0 to 9999 is written as a numeral of four
    digits that stands for it. *)
Lemma format_04d_numeral n :
  0 ≤ n ≤ 9999 →
  ∃ u, Py.format_04d n = NilEmpty.string_of_uint u
       ∧ DecimalPos.Unsigned.usize u = 4%N
       ∧ N.of_uint u = Z.to_N n.
Proof.
  intros Hn. pose proof (AnimFacts.format_04d_length n Hn) as Hlen.
  revert Hlen. unfold Py.format_04d, Py.format_0d.
  rewrite (proj2 (Z.ltb_ge n 0)) by lia. rewrite AnimFacts.append_nil.
  rewrite zeros_numeral. intros Hlen. eexists. split; [reflexivity|].
  split.
  - rewrite <- numeral_length, Hlen. done.
  - rewrite zeros_value, DecimalN.Unsigned.of_to. lia.
Qed.

Lemma leb_prefix p s t : String.leb (p +:+ s) (p +:+ t) = String.leb s t.
Proof.
  induction p as [|c p IH]; [by rewrite !AnimFacts.append_nil|].
  rewrite !AnimFacts.append_cons. unfold String.leb in *. cbn [String.compare].
  unfold Ascii.compare at 1. rewrite N.compare_refl. exact IH.
Qed.

Lemma frame_filename_le a b :
  0 ≤ a → a ≤ b → b ≤ 9999 → String.le (frame_filename a) (frame_filename b).
Proof.
  intros Ha Hab Hb.
  destruct (format_04d_numeral a) as (ua & Ea & Hsa & Hva); [lia|].
  destruct (format_04d_numeral b) as (ub & Eb & Hsb & Hvb); [lia|].
  unfold String.le, frame_filename. apply Is_true_true.
  rewrite leb_prefix, Ea, Eb. apply numeral_leb; [congruence|lia].
Qed.

Lemma frames_sorted first n :
  0 ≤ first → first + n ≤ 10000 →
  StronglySorted String.le (frame_filename <$> seqZ first n).
Proof.
  intros Hfirst Hn.
  destruct (decide (n ≤ 0)) as [Hle|Hpos]; [rewrite seqZ_nil by done; constructor|].
  replace n with (Z.of_nat (Z.to_nat n)) in * by lia.
  clear Hpos. revert first Hfirst Hn.
  induction (Z.to_nat n) as [|k IH]; intros first Hfirst Hn; [constructor|].
  rewrite seqZ_cons by lia. rewrite fmap_cons.
  replace (Z.pred (Z.of_nat (S k))) with (Z.of_nat k) by lia.
  constructor; [apply IH; lia|].
  apply Forall_fmap, Forall_seqZ. intros m Hm. simpl.
  apply frame_filename_le; lia.
Qed.

(** X14. When the temp folder holds the frames [first] to [first + n - 1]
    of a capture, with [0 <= first] and no frame number above 9999, and
    besides them only files that do not end in [.png], then the images
    the combiner puts into the strip are these frames in the order of
    their numbers, however the folder is listed.  The bound matters: the
    file of frame 10000 comes before that of frame 9999. *)
Theorem png_images_frames (names others : list string) (first n : Z) :
  names ≡ₚ (frame_filename <$> seqZ first n) ++ others →
  Forall (λ f, Py.endswith f ".png" = false) others →
  0 ≤ first → first + n ≤ 10000 →
  png_images names = frame_filename <$> seqZ first n
  ∧ png_images [frame_filename 9999; frame_filename 10000]
    = [frame_filename 10000; frame_filename 9999].
Proof.
  intros Hp Hothers Hfirst Hn. split; [|vm_compute; reflexivity].
  apply (StronglySorted_unique String.le);
    [apply ListingFacts.sorted_sorted|by apply frames_sorted|].
  unfold png_images. rewrite ListingFacts.sorted_perm.
  rewrite (ListingFacts.filter_perm _ _ _ Hp), List.filter_app.
  assert (List.filter (λ f, Py.endswith f ".png") others = []) as ->.
  { clear Hp. induction Hothers as [|f others Hf _ IH]; cbn [List.filter]; [done|].
    by rewrite Hf. }
  rewrite app_nil_r. generalize (seqZ first n). intros l.
  induction l as [|f l IH]; [done|]. rewrite fmap_cons. cbn [List.filter].
  by rewrite frame_filename_png, IH.
Qed.

Lemma png_images_frames_witness :
  png_images ["quadview_frame_0002.png"; "notes.txt";
              "quadview_frame_0001.png"; "quadview_frame_0003.png"]
  = frame_filename <$> seqZ 1 3
  ∧ png_images [frame_filename 9999; frame_filename 10000]
    = [frame_filename 10000; frame_filename 9999].
Proof.
  apply (png_images_frames _ ["notes.txt"] 1 3).
  - apply (Permutation_cons_app ["quadview_frame_0001.png"]
             ["quadview_frame_0003.png"; "notes.txt"] "quadview_frame_0002.png").
    apply (Permutation_cons_app ["quadview_frame_0001.png"; "quadview_frame_0003.png"]
             [] "notes.txt").
    reflexivity.
  - by repeat constructor.
  - lia.
  - lia.
Defined.

End FrameOrder.

(** ** More on the animation capture *)

Module AnimMore.
Import QP_OT_screenshot_quadview_anim.
Section Facts.
Context {pathlib : PathLib} {host : Host}.

Lemma filter_timers events :
  List.filter is_timer events = replicate (ticks events) TIMER.
Proof.
  unfold ticks. induction events as [|[|name] events IH]; simpl; [done| |done].
  by f_equal.
Qed.

Lemma same_job_refl self : same_job self self.
Proof. by repeat split. Qed.

Lemma same_job_trans s1 s2 s3 : same_job s1 s2 → same_job s2 s3 → same_job s1 s3.
Proof.
  intros (?&?&?&?&?&?&?) (?&?&?&?&?&?&?). repeat split; congruence.
Qed.

Lemma write_file_keeps p q w :
  fs w !! q = Some File → fs (write_file p w).2 !! q = Some File.
Proof.
  intros Hq. unfold write_file. simpl.
  destruct (decide (p = q)) as [->|Hne]; [apply lookup_insert_eq|].
  rewrite lookup_insert_ne by done.
  destruct (decide (dirname p = q)) as [<-|Hd].
  - by rewrite lookup_alter_eq, Hq.
  - by rewrite lookup_alter_ne.
Qed.

(** One tick that captures a frame. *)
Lemma capture_tick self w a r :
  _view3d_area self = Some a → _region_window self = Some r →
  let file := join (_folder_path self) (frame_filename (_frame_current self)) in
  ∃ w',
    capture self w
    = (Ok (with_frame_current (_frame_current self + 1) self, RUNNING_MODAL), w')
    ∧ trace w' = trace w ++ [ViewLayerUpdate; ScreenshotArea a r file]
    ∧ areas w' = areas w ∧ context_area w' = context_area w
    ∧ scene w' = set_frame_current (_frame_current self) (scene w)
    ∧ other_scenes w' = other_scenes w
    ∧ fs w' !! file = Some File
    ∧ ∀ q, fs w !! q = Some File → fs w' !! q = Some File.
Proof.
  intros Ha Hr file. unfold capture, frame_set, screenshot_area.
  rewrite Ha, Hr. fold file. run. eexists. split; [reflexivity|].
  cbn [trace fs areas context_area scene other_scenes
       with_trace with_fs with_scenes].
  split; [by rewrite <- app_assoc|]. do 4 (split; [done|]).
  split; [apply lookup_insert_eq|]. intros q Hq.
  by apply (write_file_keeps file q) in Hq.
Qed.

Lemma timers_running_app t t' :
  List.filter is_timer_add t' = [] → List.filter is_timer_remove t' = [] →
  timers_running (t ++ t') = timers_running t.
Proof.
  intros H1 H2. unfold timers_running.
  by rewrite !List.filter_app, H1, H2, !app_nil_r.
Qed.

(** The first [k] ticks of a job that still has frames to wait for or
    to capture: the settle ticks do nothing, then each tick captures the
    next frame. *)
Lemma run_ticks k :
  ∀ self w a r,
    _view3d_area self = Some a → _region_window self = Some r →
    0 ≤ _wait_frames self →
    Z.of_nat k
    ≤ _wait_frames self + Z.max 0 (_frame_end self + 1 - _frame_current self) →
    let done := Z.of_nat k - _wait_frames self in
    ∃ self' w',
      run_modal modal self (replicate k TIMER) w = (Ok (self', RUNNING_MODAL), w')
      ∧ same_job self self'
      ∧ _wait_frames self' = Z.max 0 (- done)
      ∧ _frame_current self' = _frame_current self + Z.max 0 done
      ∧ screenshots (trace w')
        = screenshots (trace w)
          ++ ((λ f, join (_folder_path self) (frame_filename f))
              <$> seqZ (_frame_current self) done)
      ∧ timers_running (trace w') = timers_running (trace w)
      ∧ List.filter is_combiner_call (trace w') = List.filter is_combiner_call (trace w)
      ∧ areas w' = areas w ∧ context_area w' = context_area w
      ∧ other_scenes w' = other_scenes w
      ∧ scene w' = (if decide (0 < done)
                    then set_frame_current (_frame_current self + done - 1) (scene w)
                    else scene w)
      ∧ (∀ f, _frame_current self ≤ f < _frame_current self + done →
              fs w' !! join (_folder_path self) (frame_filename f) = Some File)
      ∧ (∀ q, fs w !! q = Some File → fs w' !! q = Some File)
      ∧ (done ≤ 0 → w' = w).
Proof.
  induction k as [|k IH]; intros self w a r Ha Hr Hwait Hk done.
  { exists self, w. subst done. cbn [replicate run_modal ret].
    split; [done|]. split; [apply same_job_refl|].
    split; [lia|]. split; [lia|].
    split; [rewrite seqZ_nil by lia; by rewrite app_nil_r|].
    do 5 (split; [done|]). split; [by rewrite decide_False by lia|].
    split; [intros f Hf; lia|done]. }
  cbn [replicate run_modal]. unfold bind. rewrite AnimFacts.modal_timer.
  destruct (Z.ltb_spec 0 (_wait_frames self)) as [Hpos|Hzero].
  - cbn [ret fst snd].
    destruct (IH (with_wait_frames (_wait_frames self - 1) self) w a r)
      as (self' & w' & E & Hjob & Hw & Hc & Hs & Ht & Hcc & Har & Hca & Hos & Hsc & Hfs & Hkeep & Hsame);
      [done|done|cbn [_wait_frames _frame_current _frame_end with_frame_current with_wait_frames]; lia..|].
    cbn [_wait_frames _frame_current _frame_end _folder_path with_wait_frames] in *.
    replace (Z.of_nat k - (_wait_frames self - 1)) with done in * by (subst done; lia).
    exists self', w'. split; [done|]. split; [|done].
    eapply same_job_trans; [|exact Hjob]. by repeat split.
  - assert (_wait_frames self = 0) as Hw0 by lia.
    assert (_frame_current self ≤ _frame_end self) as Hcur by lia.
    rewrite (proj2 (Z.ltb_ge _ _)) by lia.
    destruct (capture_tick self w a r Ha Hr)
      as (w1 & -> & Ht1 & Har1 & Hca1 & Hsc1 & Hos1 & Hfile1 & Hkeep1).
    cbn [fst snd].
    destruct (IH (with_frame_current (_frame_current self + 1) self) w1 a r)
      as (self' & w' & E & Hjob & Hw & Hc & Hs & Ht & Hcc & Har & Hca & Hos & Hsc & Hfs & Hkeep & Hsame);
      [done|done|cbn [_wait_frames _frame_current _frame_end with_frame_current with_wait_frames]; lia..|].
    cbn [_wait_frames _frame_current _frame_end _folder_path with_frame_current] in *.
    rewrite Hw0 in *. rewrite Z.sub_0_r in *.
    assert (done = Z.of_nat k + 1) as Hdone by (subst done; lia).
    clearbody done. subst done.
    exists self', w'. split; [done|].
    split; [eapply same_job_trans; [|exact Hjob]; by repeat split|].
    split; [lia|]. split; [lia|].
    split; [|split; [|split; [|split; [|split; [|split; [|split; [|split; [|split]]]]]]]].
    + rewrite Hs, Ht1, screenshots_app. cbn [screenshots].
      rewrite (seqZ_cons _ (Z.of_nat k + 1)) by lia.
      replace (Z.succ (_frame_current self)) with (_frame_current self + 1) by lia.
      replace (Z.pred (Z.of_nat k + 1)) with (Z.of_nat k) by lia.
      by rewrite fmap_cons, <- app_assoc.
    + rewrite Ht, Ht1. by apply timers_running_app.
    + rewrite Hcc, Ht1, List.filter_app. cbn. by rewrite app_nil_r.
    + congruence.
    + congruence.
    + congruence.
    + rewrite decide_True by lia. rewrite Hsc, Hsc1.
      destruct (decide (0 < Z.of_nat k)); unfold set_frame_current; cbn; f_equal; lia.
    + intros f Hf. destruct (decide (f = _frame_current self)) as [->|Hne].
      * by apply Hkeep.
      * apply Hfs. lia.
    + auto.
    + lia.
Qed.


Lemma run_modal_app {S} (modal : S → EventType → M (S * Status)) l1 l2 :
  ∀ self w,
    run_modal modal self (l1 ++ l2) w
    = match run_modal modal self l1 w with
      | (Ok (self', RUNNING_MODAL), w') => run_modal modal self' l2 w'
      | r => r
      end.
Proof.
  induction l1 as [|e l1 IH]; intros self w; [done|].
  cbn [app run_modal]. unfold bind.
  destruct (modal self e w) as [[[self1 [| |]]|err] w1]; cbn [fst snd ret]; auto.
Qed.

(** The world in which the combiner is called at the end of a capture:
    the sidebar and toolbar flags are put back, the gizmo and tool-header
    flags are switched on, the timer is removed and the end is reported. *)
Lemma complete_spec self w a :
  _view3d_area self = Some a →
  let ar1 := alter_space a (set_region_toolbar (_toolbar_was_visible self))
               (alter_space a (set_region_ui (_ui_was_visible self)) (areas w)) in
  let ar2 := match context_area w with
             | Some c => alter_space c (set_tool_header_if_present true)
                           (alter_space c (set_gizmo_if_present true) ar1)
             | None => ar1
             end in
  let wc := with_trace
              (trace w ++ [ViewLayerUpdate; EventTimerRemove;
                           Report INFO ("Finished video with " +:+
                                        Py.str (_frame_end self - _frame_start self + 1)
                                        +:+ " frames.")])
              (with_areas ar2 w) in
  complete self w
  = match QP_OT_combine_images_to_video.execute wc with
    | (Ok CANCELLED, w') => (Raise "RuntimeError", w')
    | (Ok _, w') => (Ok (self, FINISHED), w')
    | (Raise e, w') => (Raise e, w')
    end.
Proof.
  intros Ha. destruct w as [f sc os ar [c|] tr];
    unfold complete, combine_images_to_video, update_space, update_space_data;
    rewrite Ha; run_fields; rewrite <- !app_assoc; cbn [app];
    by destruct (QP_OT_combine_images_to_video.execute _) as [[[| |]|e] w'].
Qed.

(** What a request that answers [RUNNING_MODAL] has done. *)
Lemma anim_requested_spec w self w1 :
  execute init w = (Ok (self, RUNNING_MODAL), w1) →
  ∃ a r area,
    QP_OT_screenshot_quadview.first_view3d (areas w) 0 = Some a
    ∧ areas w !! a = Some area
    ∧ first_window (regions area) 0 = Some r
    ∧ fs w !! QP_OT_combine_images_to_video.folder_temp w ≠ Some File
    ∧ self = {| _view3d_area := Some a; _region_window := Some r;
                _frame_current := frame_start (scene w);
                _frame_start := frame_start (scene w);
                _frame_end := frame_end (scene w);
                _folder_path := QP_OT_combine_images_to_video.folder_temp w;
                _ui_was_visible := show_region_ui (spaces_active area);
                _toolbar_was_visible := show_region_toolbar (spaces_active area);
                _timer := Some 50; _wait_frames := 2 |}
    ∧ let ar1 := alter_space a (set_region_toolbar false)
                   (alter_space a (set_region_ui false) (areas w)) in
      let ar2 := match context_area w with
                 | Some c => alter_space c (set_tool_header_if_present false)
                               (alter_space c (set_gizmo_if_present false) ar1)
                 | None => ar1
                 end in
      let files := match fs w !! QP_OT_combine_images_to_video.folder_temp w with
                   | None => <[QP_OT_combine_images_to_video.folder_temp w := Dir []]> (fs w)
                   | Some _ => fs w
                   end in
      w1 = {| fs := files; scene := set_frame_current 1 (scene w);
              other_scenes := other_scenes w; areas := ar2;
              context_area := context_area w;
              trace := trace w ++ [ViewLayerUpdate; ModalHandlerAdd; EventTimerAdd 50] |}.
Proof.
  destruct w as [f sc os ar ca tr].
  unfold execute, frame_set, QP_OT_combine_images_to_video.folder_temp. run_fields.
  destruct (QP_OT_screenshot_quadview.first_view3d ar 0) as [a|]; simpl;
    [|discriminate].
  destruct (ar !! a) as [area|] eqn:Ea; [|discriminate].
  destruct (first_window (regions area) 0) as [r|] eqn:Er; [|discriminate].
  unfold os_makedirs, update_space, update_space_data. run_fields.
  destruct (f !! _) as [[|entries]|] eqn:Ef; [discriminate| |];
    (destruct ca as [c|]; intros [= <- <-]; exists a, r, area;
     rewrite <- !app_assoc; cbn [app]; by repeat split).
Qed.

(** With enough ticks the job reaches the tick that completes it, in a
    world [w'] reached by capturing every frame of the range. *)
Lemma run_to_completion w self w1 events :
  execute init w = (Ok (self, RUNNING_MODAL), w1) →
  (Z.to_nat (frame_end (scene w) - frame_start (scene w) + 1) + 3 ≤ ticks events)%nat →
  let first := frame_start (scene w) in
  let last := frame_end (scene w) in
  ∃ self' w' a,
    run_modal modal self events w1 = complete self' w'
    ∧ _view3d_area self' = Some a
    ∧ same_job self self'
    ∧ timers_running (trace w') = timers_running (trace w1)
    ∧ List.filter is_combiner_call (trace w') = List.filter is_combiner_call (trace w1)
    ∧ areas w' = areas w1 ∧ context_area w' = context_area w1
    ∧ other_scenes w' = other_scenes w1
    ∧ scene w' = (if decide (first ≤ last) then set_frame_current last (scene w1)
                  else scene w1)
    ∧ (∀ f, first ≤ f ≤ last →
            fs w' !! join (_folder_path self) (frame_filename f) = Some File)
    ∧ (last < first → w' = w1).
Proof.
  intros Hreq Hticks first last.
  destruct (anim_requested_spec w self w1 Hreq)
    as (a & r & area & _ & _ & _ & _ & Hself & _).
  set (n := Z.to_nat (last - first + 1)) in *.
  rewrite (run_modal_timers modal) by apply AnimFacts.modal_other.
  rewrite filter_timers.
  replace (ticks events) with ((n + 2) + S (ticks events - n - 3))%nat by lia.
  rewrite replicate_add, run_modal_app.
  destruct (run_ticks (n + 2) self w1 a r)
    as (self' & w' & E & Hjob & Hw & Hc & _ & Ht & Hcc & Har & Hca & Hos & Hsc & Hfs & _ & Hsame);
    [by rewrite Hself..| |].
  { rewrite Hself. cbn [_wait_frames _frame_end _frame_current]. lia. }
  rewrite E. exists self', w', a.
  assert (_wait_frames self = 2 ∧ _frame_current self = first ∧ _frame_end self = last
          ∧ _view3d_area self = Some a) as (Hw2 & Hcur & Hend & Ha)
    by (by rewrite Hself).
  rewrite Hw2, Hcur in *. pose proof Hjob as (Hja & Hjr & Hjs & Hje & Hjrest).
  split.
  { cbn [replicate run_modal]. unfold bind. rewrite AnimFacts.modal_timer.
    rewrite (proj2 (Z.ltb_ge 0 (_wait_frames self'))) by lia.
    rewrite (proj2 (Z.ltb_lt (_frame_end self') (_frame_current self'))) by lia.
    rewrite (complete_spec self' w' a) by congruence.
    by destruct (QP_OT_combine_images_to_video.execute _) as [[[| |]|e] w2]. }
  split; [congruence|]. split; [done|].
  do 5 (split; [done|]).
  split; [|split].
  - rewrite Hsc. destruct (decide (first ≤ last)).
    + rewrite decide_True by lia. f_equal. lia.
    + by rewrite decide_False by lia.
  - intros f Hf. apply Hfs. lia.
  - intros Hempty. apply Hsame. lia.
Qed.


(** X15. Without a 3D viewport, or when the first one has no window
    region, the animation capture answers [CANCELLED] and only reports
    why: the playhead is not moved, no temp folder is made and no timer
    is started. *)
Theorem anim_cancelled (w : World) :
  first_view3d_has_window (areas w) = false →
  ∃ self,
    execute init w
    = (Ok (self, CANCELLED),
       with_trace (trace w ++ [Report ERROR (if has_view3d (areas w)
                                             then "WINDOW region not found"
                                             else "VIEW_3D not found")]) w).
Proof.
  intros Hno. pose proof (first_view3d_cases (areas w)) as H.
  unfold execute. run.
  destruct (QP_OT_screenshot_quadview.first_view3d (areas w) 0) as [a|]; simpl.
  - destruct H as (-> & area & -> & Hw). rewrite Hno in Hw. run.
    destruct (first_window (regions area) 0) as [r|]; [|eauto].
    symmetry in Hw. apply bool_decide_eq_false in Hw. destruct Hw. eauto.
  - destruct H as [-> _]. eauto.
Qed.


(** X17. When the temp path is a regular file, the animation capture
    raises [FileExistsError]; by then it has moved the playhead to
    frame 1, and nothing else is changed. *)
Theorem anim_temp_is_file (w : World) :
  first_view3d_has_window (areas w) = true →
  fs w !! QP_OT_combine_images_to_video.folder_temp w = Some File →
  execute init w
  = (Raise "FileExistsError",
     with_scenes (set_frame_current 1 (scene w)) (other_scenes w) w).
Proof.
  intros Hyes Hfolder. pose proof (first_view3d_cases (areas w)) as H.
  revert Hfolder.
  unfold execute, frame_set, QP_OT_combine_images_to_video.folder_temp. run.
  destruct (QP_OT_screenshot_quadview.first_view3d (areas w) 0) as [a|]; simpl;
    [|destruct H as [_ H]; congruence].
  destruct H as (_ & area & -> & Hw). rewrite Hyes in Hw.
  symmetry in Hw. apply bool_decide_eq_true in Hw as [r Hr]. run. rewrite Hr.
  unfold os_makedirs. run. cbn [fs with_scenes]. by intros ->.
Qed.

(** X18. Events that are no timer ticks change nothing in either modal
    operator: the outcome of a run depends on the number of ticks among
    the events only. *)
Theorem run_modal_ticks_only (events : list EventType) :
  (∀ self w,
     run_modal modal self events w
     = run_modal modal self (replicate (ticks events) TIMER) w)
  ∧ (∀ self w,
       run_modal QP_OT_screenshot_quadview.modal self events w
       = run_modal QP_OT_screenshot_quadview.modal self
                   (replicate (ticks events) TIMER) w).
Proof. split; intros self w; by rewrite run_modal_timers, filter_timers. Qed.

(** X19. While frames are left: after the two settle ticks and [j]
    more, with [j] at most the number of frames, the capture is still
    running and has taken exactly the first [j] frames of the range, in
    order; the playhead stands on the last frame captured (on frame 1
    before the first), the overlays of the viewport are still hidden and
    the timer still runs.  So the first two ticks capture nothing. *)
Theorem run_modal_progress (w : World) self w1 events (j : nat) :
  execute init w = (Ok (self, RUNNING_MODAL), w1) →
  ticks events = (2 + j)%nat →
  Z.of_nat j ≤ Z.max 0 (frame_end (scene w) - frame_start (scene w) + 1) →
  let first := frame_start (scene w) in
  let folder := QP_OT_combine_images_to_video.folder_temp w in
  ∃ self' w2 a,
    run_modal modal self events w1 = (Ok (self', RUNNING_MODAL), w2)
    ∧ screenshots (trace w2)
      = screenshots (trace w)
        ++ ((λ f, join folder (frame_filename f)) <$> seqZ first (Z.of_nat j))
    ∧ (∀ f, first ≤ f < first + Z.of_nat j →
            fs w2 !! join folder (frame_filename f) = Some File)
    ∧ frame_current (scene w2)
      = (if decide (0 < Z.of_nat j) then first + Z.of_nat j - 1 else 1)
    ∧ timers_running (trace w2) = timers_running (trace w) + 1
    ∧ _view3d_area self = Some a
    ∧ show_region_ui <$> space_at a w2 = Some false
    ∧ show_region_toolbar <$> space_at a w2 = Some false.
Proof.
  intros Hreq Hticks Hj first folder.
  destruct (anim_requested_spec w self w1 Hreq)
    as (a & r & area & _ & Ea & _ & _ & Hself & Hw1).
  assert (_wait_frames self = 2 ∧ _frame_current self = first
          ∧ _frame_end self = frame_end (scene w) ∧ _folder_path self = folder
          ∧ _view3d_area self = Some a) as (Hw2 & Hcur & Hend & Hfolder & Ha)
    by (by rewrite Hself).
  rewrite (run_modal_timers modal) by apply AnimFacts.modal_other.
  rewrite filter_timers, Hticks.
  destruct (run_ticks (2 + j) self w1 a r)
    as (self' & w2 & E & _ & _ & _ & Hs & Ht & _ & Har & Hca & _ & Hsc & Hfs & _);
    [by rewrite Hself..|rewrite Hw2, Hcur, Hend; lia|].
  rewrite Hw2, Hcur, Hfolder in *.
  replace (Z.of_nat (2 + j) - 2) with (Z.of_nat j) in * by lia.
  exists self', w2, a. split; [done|].
  assert (screenshots (trace w1) = screenshots (trace w)
          ∧ timers_running (trace w1) = timers_running (trace w) + 1
          ∧ scene w1 = set_frame_current 1 (scene w)) as (Hs1 & Ht1 & Hsc1).
  { rewrite Hw1. cbn [trace scene]. rewrite screenshots_app. cbn [screenshots].
    rewrite app_nil_r. split; [done|]. split; [|done].
    unfold timers_running. rewrite !List.filter_app, !length_app. simpl. lia. }
  split; [by rewrite Hs, Hs1|]. split; [done|].
  split; [rewrite Hsc, Hsc1; by destruct (decide (0 < Z.of_nat j))|].
  split; [by rewrite Ht, Ht1|]. split; [done|].
  unfold space_at. rewrite Har, Hw1. cbn [areas].
  destruct (context_area w) as [c|];
    rewrite ?ScreenshotFacts.lookup_alter_space;
    repeat case_decide; try congruence; rewrite Ea; by destruct area as [? ? []].
Qed.

(** X20. With enough timer ticks (two to settle, one for each frame,
    one to finish) the animation capture calls the combiner, once, in a
    world where every frame of the range has its file in the temp folder
    the combiner reads, the playhead stands on the last frame of the
    range, and the last report is "Finished video with N frames.", made
    before the video exists.  The capture answers [FINISHED] when the
    combiner does, and raises [RuntimeError] when the combiner answers
    [CANCELLED]. *)
Theorem modal_hands_over (w : World) self w1 events :
  execute init w = (Ok (self, RUNNING_MODAL), w1) →
  (Z.to_nat (frame_end (scene w) - frame_start (scene w) + 1) + 3 ≤ ticks events)%nat →
  let first := frame_start (scene w) in
  let final := frame_end (scene w) in
  let folder := QP_OT_combine_images_to_video.folder_temp w in
  ∃ self' wc,
    run_modal modal self events w1
    = match QP_OT_combine_images_to_video.execute wc with
      | (Ok CANCELLED, w2) => (Raise "RuntimeError", w2)
      | (Ok _, w2) => (Ok (self', FINISHED), w2)
      | (Raise e, w2) => (Raise e, w2)
      end
    ∧ last (trace wc)
      = Some (Report INFO ("Finished video with " +:+ Py.str (final - first + 1)
                           +:+ " frames."))
    ∧ QP_OT_combine_images_to_video.folder_temp wc = folder
    ∧ (∀ f, first ≤ f ≤ final →
            fs wc !! join folder (frame_filename f) = Some File)
    ∧ frame_current (scene wc) = (if decide (first ≤ final) then final else 1).
Proof.
  intros Hreq Hticks first final folder.
  destruct (run_to_completion w self w1 events Hreq Hticks)
    as (self' & w' & a & E & Ha & Hjob & _ & _ & _ & _ & _ & Hsc & Hfs & _).
  destruct (anim_requested_spec w self w1 Hreq)
    as (a0 & r0 & area0 & _ & _ & _ & _ & Hself & Hw1).
  assert (scene w1 = set_frame_current 1 (scene w)) as Hsc1 by (by rewrite Hw1).
  assert (_frame_start self = first ∧ _frame_end self = final
          ∧ _folder_path self = folder) as (Hs & He & Hf) by (by rewrite Hself).
  destruct Hjob as (_ & _ & Hjs & Hje & _).
  rewrite (complete_spec self' w' a Ha) in E. cbv zeta in E.
  eexists self', _. split; [exact E|].
  cbn [trace fs scene with_trace with_areas].
  split; [rewrite last_app; cbn; repeat f_equal; congruence|].
  fold first final in Hsc.
  split; [|split].
  - unfold folder, QP_OT_combine_images_to_video.folder_temp.
    cbn [scene with_trace with_areas]. rewrite Hsc, Hsc1.
    by destruct (decide (first ≤ final)).
  - intros f Hrange. rewrite <- Hf. by apply Hfs.
  - rewrite Hsc, Hsc1. by destruct (decide (first ≤ final)).
Qed.

(** X21. Whatever the combiner does, when the animation capture stops
    the sidebar and toolbar flags of the captured viewport have the
    values they had before the request, the gizmo and tool-header flags
    of [context.space_data] are switched on where the space has them,
    and the timer started at the request is removed. *)
Theorem modal_restores_overlays (w : World) self w1 events :
  execute init w = (Ok (self, RUNNING_MODAL), w1) →
  (Z.to_nat (frame_end (scene w) - frame_start (scene w) + 1) + 3 ≤ ticks events)%nat →
  let w2 := (run_modal modal self events w1).2 in
  ∃ a,
    _view3d_area self = Some a
    ∧ show_region_ui <$> space_at a w2 = show_region_ui <$> space_at a w
    ∧ show_region_toolbar <$> space_at a w2 = show_region_toolbar <$> space_at a w
    ∧ show_gizmo <$> space_data w2 = switched_on ∘ show_gizmo <$> space_data w
    ∧ show_region_tool_header <$> space_data w2
      = switched_on ∘ show_region_tool_header <$> space_data w
    ∧ timers_running (trace w2) = timers_running (trace w).
Proof.
  intros Hreq Hticks w2.
  destruct (run_to_completion w self w1 events Hreq Hticks)
    as (self' & w' & a' & E & Ha' & Hjob & Ht & _ & Har & Hca & _).
  destruct (anim_requested_spec w self w1 Hreq)
    as (a & r & area & _ & Ea & _ & _ & Hself & Hw1).
  destruct Hjob as (Hja & _ & _ & _ & _ & Hui & Htb).
  assert (_view3d_area self = Some a
          ∧ _ui_was_visible self = show_region_ui (spaces_active area)
          ∧ _toolbar_was_visible self = show_region_toolbar (spaces_active area))
    as (Ha & Hui0 & Htb0) by (by rewrite Hself).
  assert (a' = a) as -> by congruence.
  rewrite (complete_spec self' w' a Ha') in E. cbv zeta in E.
  set (wc := with_trace _ _) in E.
  assert (w2 = (QP_OT_combine_images_to_video.execute wc).2) as Hw2.
  { unfold w2. rewrite E.
    by destruct (QP_OT_combine_images_to_video.execute wc) as [[[| |]|e] w3]. }
  destruct (CombineMore.execute_keeps_screen wc) as (Har2 & Hca2 & t & Ht2 & Hall).
  destruct (CombineMore.combiner_calls t Hall) as (_ & _ & Hadd & Hrem).
  rewrite <- Hw2 in Har2, Hca2, Ht2. clearbody w2. clear E Hw2.
  exists a. split; [done|].
  assert (timers_running (trace w2) = timers_running (trace w)) as Htimers.
  { rewrite Ht2, (timers_running_app _ t Hadd Hrem). unfold wc. cbn [trace with_trace].
    unfold timers_running in *. rewrite !List.filter_app, !length_app. cbn.
    rewrite Hw1 in Ht. cbn [trace] in Ht.
    rewrite !List.filter_app, !length_app in Ht. cbn in Ht. lia. }
  do 4 (try split); [..|done].
  all: unfold space_data, space_at; rewrite ?Har2, ?Hca2; unfold wc;
    cbn [areas context_area with_trace with_areas];
    rewrite ?Har, ?Hca, ?Hui, ?Htb, ?Hui0, ?Htb0, Hw1; cbn [areas context_area].
  all: destruct (context_area w) as [c|]; cbn [mbind option_bind];
    rewrite ?ScreenshotFacts.lookup_alter_space.
  all: try destruct (decide (c = a)) as [->|D].
  all: repeat case_decide; try congruence.
  all: rewrite ?Ea; try destruct (areas w !! c) as [[ty' rs' [ui' tb' [gz'|] [th'|]]]|].
  all: destruct area as [ty rs [ui tb [gz|] [th|]]]; by cbn.
Qed.


End Facts.

Lemma anim_cancelled_witness :
  ∃ self,
    execute (pathlib := Sample.paths) init Sample.no_viewport_world
    = (Ok (self, CANCELLED),
       with_trace (trace Sample.no_viewport_world
                   ++ [Report ERROR (if has_view3d (areas Sample.no_viewport_world)
                                     then "WINDOW region not found"
                                     else "VIEW_3D not found")])
                  Sample.no_viewport_world).
Proof.
  apply (anim_cancelled (pathlib := Sample.paths) Sample.no_viewport_world).
  reflexivity.
Defined.


Lemma anim_temp_is_file_witness :
  execute (pathlib := Sample.paths) init MoreSamples.temp_is_file_world
  = (Raise "FileExistsError",
     with_scenes (set_frame_current 1 (scene MoreSamples.temp_is_file_world))
                 (other_scenes MoreSamples.temp_is_file_world)
                 MoreSamples.temp_is_file_world).
Proof.
  apply (anim_temp_is_file (pathlib := Sample.paths) MoreSamples.temp_is_file_world);
    reflexivity.
Defined.

Lemma run_modal_progress_witness :
  ∃ self' w2 a,
    run_modal (modal (pathlib := Sample.paths) (host := Sample.quiet_host))
              Sample.anim_requested.1
              [TIMER; TIMER; OTHER_EVENT "MOUSEMOVE"; TIMER; TIMER; TIMER]
              Sample.anim_requested.2
    = (Ok (self', RUNNING_MODAL), w2)
    ∧ screenshots (trace w2)
      = ["/home/user/quadview_render_temp/quadview_frame_0001.png";
         "/home/user/quadview_render_temp/quadview_frame_0002.png";
         "/home/user/quadview_render_temp/quadview_frame_0003.png"]
    ∧ (∀ f, 1 ≤ f < 1 + 3 →
            fs w2 !! join (PathLib := Sample.paths) "/home/user/quadview_render_temp"
                          (frame_filename f) = Some File)
    ∧ frame_current (scene w2) = 3
    ∧ timers_running (trace w2) = 1
    ∧ _view3d_area Sample.anim_requested.1 = Some a
    ∧ show_region_ui <$> space_at a w2 = Some false
    ∧ show_region_toolbar <$> space_at a w2 = Some false.
Proof.
  apply (run_modal_progress (pathlib := Sample.paths) (host := Sample.quiet_host)
           (Sample.fresh_world 1 5) Sample.anim_requested.1 Sample.anim_requested.2
           [TIMER; TIMER; OTHER_EVENT "MOUSEMOVE"; TIMER; TIMER; TIMER] 3).
  - vm_compute. reflexivity.
  - reflexivity.
  - vm_compute. discriminate.
Defined.

Lemma modal_hands_over_witness :
  ∃ self' wc,
    run_modal (modal (pathlib := Sample.paths) (host := Sample.quiet_host))
              Sample.anim_requested.1 Sample.anim_events Sample.anim_requested.2
    = match QP_OT_combine_images_to_video.execute
              (pathlib := Sample.paths) (host := Sample.quiet_host) wc with
      | (Ok CANCELLED, w2) => (Raise "RuntimeError", w2)
      | (Ok _, w2) => (Ok (self', FINISHED), w2)
      | (Raise e, w2) => (Raise e, w2)
      end
    ∧ last (trace wc) = Some (Report INFO "Finished video with 5 frames.")
    ∧ QP_OT_combine_images_to_video.folder_temp (pathlib := Sample.paths) wc
      = "/home/user/quadview_render_temp"
    ∧ (∀ f, 1 ≤ f ≤ 5 →
            fs wc !! join (PathLib := Sample.paths) "/home/user/quadview_render_temp"
                          (frame_filename f) = Some File)
    ∧ frame_current (scene wc) = 5.
Proof.
  apply (modal_hands_over (pathlib := Sample.paths) (host := Sample.quiet_host)
           (Sample.fresh_world 1 5) Sample.anim_requested.1 Sample.anim_requested.2
           Sample.anim_events).
  - vm_compute. reflexivity.
  - vm_compute. lia.
Defined.

Lemma modal_restores_overlays_witness :
  let w2 := (run_modal (modal (pathlib := Sample.paths) (host := Sample.quiet_host))
                       Sample.anim_requested.1 Sample.anim_events
                       Sample.anim_requested.2).2 in
  ∃ a,
    _view3d_area Sample.anim_requested.1 = Some a
    ∧ show_region_ui <$> space_at a w2
      = show_region_ui <$> space_at a (Sample.fresh_world 1 5)
    ∧ show_region_toolbar <$> space_at a w2
      = show_region_toolbar <$> space_at a (Sample.fresh_world 1 5)
    ∧ show_gizmo <$> space_data w2
      = switched_on ∘ show_gizmo <$> space_data (Sample.fresh_world 1 5)
    ∧ show_region_tool_header <$> space_data w2
      = switched_on ∘ show_region_tool_header <$> space_data (Sample.fresh_world 1 5)
    ∧ timers_running (trace w2) = timers_running (trace (Sample.fresh_world 1 5)).
Proof.
  apply (modal_restores_overlays (pathlib := Sample.paths) (host := Sample.quiet_host)
           (Sample.fresh_world 1 5) Sample.anim_requested.1 Sample.anim_requested.2
           Sample.anim_events).
  - vm_compute. reflexivity.
  - vm_compute. lia.
Defined.


End AnimMore.

(** ** The panel *)

Module PanelFacts.
Import QP_PT_panel.
Section Facts.
Context {pathlib : PathLib} {host : Host}.
Variable area_size : nat → Z * Z.

(** X23. The size the panel shows is the size of the area the capture
    operators capture: when a capture request answers [RUNNING_MODAL]
    for the area at position [a], the panel drawn before the request
    shows width and height of that area; and it shows 0 x 0 exactly when
    the screen has no 3D viewport, in which case both requests are
    cancelled. *)
Theorem draw_shows_captured_area (w : World) :
  (∀ self w1 a,
     QP_OT_screenshot_quadview.execute QP_OT_screenshot_quadview.init w
     = (Ok (self, RUNNING_MODAL), w1) →
     QP_OT_screenshot_quadview._view3d_area self = Some a →
     Row [Label ("Output Width: " +:+ Py.str (area_size a).1) ""] ∈ draw area_size w
     ∧ Row [Label ("Output Height: " +:+ Py.str (area_size a).2) ""] ∈ draw area_size w)
  ∧ (∀ self w1 a,
       QP_OT_screenshot_quadview_anim.execute QP_OT_screenshot_quadview_anim.init w
       = (Ok (self, RUNNING_MODAL), w1) →
       QP_OT_screenshot_quadview_anim._view3d_area self = Some a →
       Row [Label ("Output Width: " +:+ Py.str (area_size a).1) ""] ∈ draw area_size w
       ∧ Row [Label ("Output Height: " +:+ Py.str (area_size a).2) ""] ∈ draw area_size w)
  ∧ (has_view3d (areas w) = false →
     Row [Label "Output Width: 0" ""] ∈ draw area_size w
     ∧ Row [Label "Output Height: 0" ""] ∈ draw area_size w).
Proof.
  assert (∀ a, QP_OT_screenshot_quadview.first_view3d (areas w) 0 = Some a →
               Row [Label ("Output Width: " +:+ Py.str (area_size a).1) ""]
                 ∈ draw area_size w
               ∧ Row [Label ("Output Height: " +:+ Py.str (area_size a).2) ""]
                   ∈ draw area_size w) as Hdraw.
  { intros a Ha. unfold draw. rewrite Ha. destruct (area_size a) as [width height].
    cbn [fst snd]. split; repeat first [apply list_elem_of_here|apply list_elem_of_further]. }
  split; [|split].
  - intros self w1 a Hreq Ha. apply Hdraw. revert Hreq Ha.
    unfold QP_OT_screenshot_quadview.execute. run.
    destruct (QP_OT_screenshot_quadview.first_view3d (areas w) 0) as [a'|];
      cbn; [|discriminate].
    destruct (areas w !! a') as [area|]; cbn; [|discriminate].
    destruct (first_window (regions area) 0) as [r|]; [|discriminate].
    unfold os_makedirs. run.
    destruct (fs w !! _) as [[|entries]|]; [discriminate|..];
      intros [= <- _]; cbn; congruence.
  - intros self w1 a Hreq Ha. apply Hdraw.
    destruct (AnimMore.anim_requested_spec w self w1 Hreq)
      as (a' & r & area & Hfirst & _ & _ & _ & -> & _).
    cbn in Ha. congruence.
  - intros Hnone. pose proof (first_view3d_cases (areas w)) as H.
    unfold draw.
    destruct (QP_OT_screenshot_quadview.first_view3d (areas w) 0) as [a|].
    + destruct H as [H _]. congruence.
    + split; repeat first [apply list_elem_of_here|apply list_elem_of_further].
Qed.

(** X24. A layout toggle that answers [FINISHED] changes the panel in
    its first column only, which goes from offering "Switch Quad Layout"
    to offering "Reset Layout", or back. *)
Theorem draw_after_toggle (w w1 : World) :
  QP_OT_switch_layout.execute w = (Ok FINISHED, w1) →
  ∃ rest,
    let off := Column true [Operator "qp.switch_layout" "Switch Quad Layout" "WINDOW";
                            Label "Click to enable Quad View" "INFO"] in
    let on := Column true [Operator "qp.switch_layout" "Reset Layout" "SCREEN_BACK";
                           Label "Quad View is active" "INFO"] in
    (draw area_size w = off :: rest ∧ draw area_size w1 = on :: rest)
    ∨ (draw area_size w = on :: rest ∧ draw area_size w1 = off :: rest).
Proof.
  unfold QP_OT_switch_layout.execute. run.
  destruct (QP_OT_switch_layout.find_view3d (areas w) 0) as [[a r]|]; [|discriminate].
  unfold QP_OT_switch_layout.toggle_quad_active. run.
  destruct (fails OpRegionQuadview w) as [e|]; [discriminate|]. cbn.
  destruct (is_quad_active (qp_props (scene w))) eqn:Hq; cbn; intros [= <-];
    unfold draw; cbn; rewrite Hq; cbn;
    destruct (match QP_OT_screenshot_quadview.first_view3d (areas w) 0 with
              | Some a0 => area_size a0
              | None => (0, 0)
              end) as [width height];
    eexists; [right|left]; split; reflexivity.
Qed.

End Facts.

Lemma draw_shows_captured_area_witness :
  Row [Label ("Output Width: " +:+ Py.str 1280) ""]
    ∈ draw (λ _, (1280, 720)) (Sample.world 1 5 false)
  ∧ Row [Label ("Output Height: " +:+ Py.str 720) ""]
      ∈ draw (λ _, (1280, 720)) (Sample.world 1 5 false).
Proof.
  apply (proj1 (draw_shows_captured_area (pathlib := Sample.paths)
                  (λ _, (1280, 720)) (Sample.world 1 5 false))
               Sample.capture_requested.1 Sample.capture_requested.2 1%nat);
    reflexivity.
Defined.

Lemma draw_after_toggle_witness :
  ∃ rest,
    let off := Column true [Operator "qp.switch_layout" "Switch Quad Layout" "WINDOW";
                            Label "Click to enable Quad View" "INFO"] in
    let on := Column true [Operator "qp.switch_layout" "Reset Layout" "SCREEN_BACK";
                           Label "Quad View is active" "INFO"] in
    (draw (λ _, (1280, 720)) (Sample.world 1 5 true) = off :: rest
     ∧ draw (λ _, (1280, 720)) Sample.toggled_once = on :: rest)
    ∨ (draw (λ _, (1280, 720)) (Sample.world 1 5 true) = on :: rest
       ∧ draw (λ _, (1280, 720)) Sample.toggled_once = off :: rest).
Proof.
  apply (draw_after_toggle (host := Sample.quiet_host) (λ _, (1280, 720))
           (Sample.world 1 5 true) Sample.toggled_once).
  reflexivity.
Defined.

End PanelFacts.

(** ** Registration *)

Module RegistrationFacts.
Import Registration.

Lemma register_classes l :
  ∀ g,
    NoDup l → (∀ cls, cls ∈ l → cls ∉ registered g) →
    for_classes register_class l g
    = (Ok tt, {| registered := registered g ++ l;
                 scene_qp_props := scene_qp_props g |}).
Proof.
  induction l as [|cls l IH]; intros g Hl Hg.
  - simpl. rewrite app_nil_r. by destruct g.
  - apply NoDup_cons in Hl as [Hcls Hl]. cbn [for_classes]. unfold register_class.
    rewrite bool_decide_eq_false_2 by (apply Hg; left).
    rewrite IH; [|done|].
    + cbn. by rewrite <- app_assoc.
    + intros c Hc. cbn. rewrite elem_of_app, list_elem_of_singleton.
      intros [Hin| ->]; [|done]. apply (Hg c); [by right|done].
Qed.

Lemma filter_remove_last (cls : string) l :
  cls ∉ l →
  List.filter (λ c, negb (String.eqb c cls)) (l ++ [cls]) = l.
Proof.
  intros Hcls. rewrite List.filter_app. cbn. rewrite String.eqb_refl. cbn.
  rewrite app_nil_r. induction l as [|c l IH]; [done|]. cbn.
  apply not_elem_of_cons in Hcls as [Hne Hcls].
  destruct (String.eqb_spec c cls) as [->|_]; [done|]. cbn. by rewrite IH.
Qed.

Lemma unregister_classes l :
  ∀ r q,
    NoDup l → (∀ cls, cls ∈ l → cls ∉ r) →
    for_classes unregister_class (rev l)
                {| registered := r ++ l; scene_qp_props := q |}
    = (Ok tt, {| registered := r; scene_qp_props := q |}).
Proof.
  induction l as [|cls l IH] using rev_ind; intros r q Hl Hr.
  - simpl. by rewrite app_nil_r.
  - rewrite rev_unit. cbn [for_classes]. unfold unregister_class. cbn [registered].
    apply NoDup_app in Hl as (Hl & Hdisj & _).
    rewrite bool_decide_eq_true_2
      by (rewrite !elem_of_app, list_elem_of_singleton; auto).
    cbn [scene_qp_props]. rewrite app_assoc, filter_remove_last.
    + apply IH; [done|]. intros c Hc. apply Hr. rewrite elem_of_app. by left.
    + rewrite elem_of_app. intros [Hin|Hin].
      * apply (Hr cls); [|done]. rewrite elem_of_app, list_elem_of_singleton. by right.
      * apply (Hdisj cls); [done|]. by apply list_elem_of_singleton.
Qed.

Lemma classes_NoDup : NoDup classes.
Proof. apply (bool_decide_unpack (NoDup classes)). vm_compute. exact I. Qed.

(** X25. On a Blender that has none of the add-on's classes registered,
    [register] registers the seven classes in the order of [classes] and
    defines [Scene.qp_props]; [unregister] after it succeeds as well and
    leaves the registered classes as they were before, with
    [Scene.qp_props] gone.  A second [register] in a row raises
    [ValueError] at the first class and changes nothing. *)
Theorem register_unregister (g : Registry) :
  (∀ cls, cls ∈ classes → cls ∉ registered g) →
  register g = (Ok tt, {| registered := registered g ++ classes;
                          scene_qp_props := true |})
  ∧ unregister (register g).2
    = (Ok tt, {| registered := registered g; scene_qp_props := false |})
  ∧ register (register g).2 = (Raise "ValueError", (register g).2).
Proof.
  intros Hg.
  assert (register g = (Ok tt, {| registered := registered g ++ classes;
                                  scene_qp_props := true |})) as E.
  { unfold register. by rewrite (register_classes classes g classes_NoDup Hg). }
  rewrite E. cbn [snd]. split; [done|]. split.
  - unfold unregister.
    by rewrite (unregister_classes classes (registered g) true classes_NoDup Hg).
  - unfold register.
    assert (for_classes register_class classes
              {| registered := registered g ++ classes; scene_qp_props := true |}
            = (Raise "ValueError",
               {| registered := registered g ++ classes; scene_qp_props := true |}))
      as ->; [|done].
    unfold classes at 1. cbn [for_classes]. unfold register_class at 1.
    cbn [registered]. rewrite bool_decide_eq_true_2; [done|].
    rewrite elem_of_app. right. apply list_elem_of_here.
Qed.

Lemma register_unregister_witness :
  let g := {| registered := ["OBJECT_OT_select_all"]; scene_qp_props := false |} in
  register g = (Ok tt, {| registered := registered g ++ classes;
                          scene_qp_props := true |})
  ∧ unregister (register g).2
    = (Ok tt, {| registered := registered g; scene_qp_props := false |})
  ∧ register (register g).2 = (Raise "ValueError", (register g).2).
Proof.
  apply (register_unregister
           {| registered := ["OBJECT_OT_select_all"]; scene_qp_props := false |}).
  intros cls Hcls Hin. apply list_elem_of_singleton in Hin as ->.
  revert Hcls. change ("OBJECT_OT_select_all" ∉ classes).
  apply (bool_decide_unpack ("OBJECT_OT_select_all" ∉ classes)). vm_compute. exact I.
Defined.

End RegistrationFacts.
